(** * Security analysis scripts of the senior-security skill

    A shallow embedding of the three analyzers
    - [security_auditor.py]  (module [SecurityAuditor]),
    - [ble_attack_surface.py] (module [BLE]),
    - [threat_modeler.py]     (module [ThreatModeler]),
    together with the Python primitives they rely on (module [Py]) and a
    reference implementation of the fragment of Python's [re] module that
    the rule tables use (module [Re]).

    Conventions of the embedding:
    - a Python [str] is a [string]; one [ascii] stands for one character;
    - [self.findings] and the other accumulators are threaded explicitly;
      a [for] loop is a left fold of its body over the state ([for_each]);
    - [dict] counters are [gmap string nat], the [seen] set is a [gset];
    - the file system is an explicit value of type [Py.fs];
    - regular-expression matching is an interface ([Regex]); every theorem
      holds for any implementation of it, and [Re.py_re] is the
      implementation used to evaluate the analyzers on concrete inputs. *)

From Stdlib Require Import String Ascii List Arith Lia Bool DecimalString Sorted.
From stdpp Require Import base option list strings gmap sets.

Local Open Scope string_scope.
Local Open Scope list_scope.
Local Open Scope nat_scope.

(* ===================================================================== *)
(** * Python primitives *)
(* ===================================================================== *)

Module Py.

(** ** Characters *)

Definition chr (n : nat) : ascii := ascii_of_nat n.
Definition ord (c : ascii) : nat := nat_of_ascii c.

(** The newline, double-quote and backslash characters. *)
Definition nl_c : ascii := chr 10.
Definition dq_c : ascii := chr 34.
Definition bs_c : ascii := chr 92.
Definition nl : string := String nl_c EmptyString.
Definition dq : string := String dq_c EmptyString.

(** [c.isspace()], which is also what [str.strip()] removes and what the
    regular expression [\s] matches (for characters below 256). *)
Definition isspace (c : ascii) : bool :=
  let n := ord c in
  ((9 <=? n) && (n <=? 13)) || ((28 <=? n) && (n <=? 32))
  || (n =? 133) || (n =? 160).

Definition isdigit (c : ascii) : bool :=
  let n := ord c in (48 <=? n) && (n <=? 57).

Definition isupper (c : ascii) : bool :=
  let n := ord c in (65 <=? n) && (n <=? 90).

Definition islower (c : ascii) : bool :=
  let n := ord c in (97 <=? n) && (n <=? 122).

(** Word characters of [\b] and [\w] (ASCII letters, digits, underscore). *)
Definition isword (c : ascii) : bool :=
  isupper c || islower c || isdigit c || (ord c =? 95).

Definition lower (c : ascii) : ascii :=
  if isupper c then chr (ord c + 32) else c.

Definition upper (c : ascii) : ascii :=
  if islower c then chr (ord c - 32) else c.

(** ** Strings *)

(** [s.startswith(p)] *)
Definition startswith (s p : string) : bool := String.prefix p s.

(** [sub in s] *)
Fixpoint contains (sub s : string) : bool :=
  String.prefix sub s
  || match s with
     | EmptyString => false
     | String _ s' => contains sub s'
     end.

(** [s.endswith(p)] *)
Definition endswith (s p : string) : bool :=
  let n := String.length s in
  let m := String.length p in
  (m <=? n) && String.eqb (substring (n - m) m s) p.

(** [s[:n]] *)
Definition slice_to (n : nat) (s : string) : string := substring 0 n s.

(** [s.lstrip()], [s.rstrip()] and [s.strip()] *)
Fixpoint lstrip (s : string) : string :=
  match s with
  | String c s' => if isspace c then lstrip s' else s
  | EmptyString => EmptyString
  end.

Fixpoint rstrip (s : string) : string :=
  match s with
  | String c s' =>
      match rstrip s' with
      | EmptyString => if isspace c then EmptyString else String c EmptyString
      | r => String c r
      end
  | EmptyString => EmptyString
  end.

Definition strip (s : string) : string := rstrip (lstrip s).

(** [s.replace("\\", "/")] *)
Fixpoint replace_backslash (s : string) : string :=
  match s with
  | String c s' =>
      String (if Ascii.eqb c bs_c then "/"%char else c) (replace_backslash s')
  | EmptyString => EmptyString
  end.

(** [s.split("\n")]: always at least one piece. *)
Fixpoint split_nl (s : string) : list string :=
  match s with
  | EmptyString => [EmptyString]
  | String c s' =>
      if Ascii.eqb c nl_c then EmptyString :: split_nl s'
      else match split_nl s' with
           | l :: ls => String c l :: ls
           | [] => [String c EmptyString]
           end
  end.

(** ["\n".join(ls)] *)
Fixpoint join_nl (ls : list string) : string :=
  match ls with
  | [] => EmptyString
  | [l] => l
  | l :: ls' => l ++ nl ++ join_nl ls'
  end.

(** [s.count("\n")] *)
Fixpoint count_nl (s : string) : nat :=
  match s with
  | EmptyString => 0
  | String c s' => (if Ascii.eqb c nl_c then 1 else 0) + count_nl s'
  end.

(** [str(n)] for a non-negative [int]. *)
Definition str_of_nat (n : nat) : string :=
  NilZero.string_of_uint (Nat.to_uint n).

(** ** Lists *)

(** [enumerate(xs, start)] *)
Fixpoint enumerate {A} (start : nat) (xs : list A) : list (nat * A) :=
  match xs with
  | [] => []
  | x :: xs' => (start, x) :: enumerate (S start) xs'
  end.

(** [xs[i:j]] for [0 <= i <= j]. *)
Definition slice {A} (i j : nat) (xs : list A) : list A :=
  firstn (j - i) (skipn i xs).

(** A [for x in xs: body] loop over an explicit state. *)
Definition for_each {A S} (xs : list A) (body : A -> S -> S) (s : S) : S :=
  fold_left (fun st x => body x st) xs s.

(** [any(p(x) for x in xs)] *)
Definition any {A} (p : A -> bool) (xs : list A) : bool := existsb p xs.

(** [xs.sort(key=rank)]: Python's sort is stable, and a stable sort by a key
    has exactly one possible result; insertion from the right, placing an
    element before the first one whose key is not smaller, computes it. *)
Fixpoint insert_by {A} (rank : A -> nat) (x : A) (l : list A) : list A :=
  match l with
  | [] => [x]
  | y :: l' =>
      if rank x <=? rank y then x :: l else y :: insert_by rank x l'
  end.

Definition sort_by {A} (rank : A -> nat) (l : list A) : list A :=
  fold_right (insert_by rank) [] l.

(** [sorted(s)] for a set of strings: the elements in increasing
    lexicographic order. *)
Definition string_leb (a b : string) : bool :=
  match String.compare a b with Gt => false | _ => true end.

Fixpoint insert_str (x : string) (l : list string) : list string :=
  match l with
  | [] => [x]
  | y :: l' => if string_leb x y then x :: l else y :: insert_str x l'
  end.

Definition sorted_set (s : gset string) : list string :=
  fold_right insert_str [] (elements s).

(** [d[k] = d.get(k, 0) + 1] *)
Definition incr (k : string) (d : gmap string nat) : gmap string nat :=
  <[k := default 0 (d !! k) + 1]> d.

(** [sum(d.values())] *)
Definition sum_values (d : gmap string nat) : nat :=
  map_fold (fun _ v acc => v + acc) 0 d.

(** ** Exceptions *)

(** The only exception the analyzers raise themselves. *)
Inductive exn : Type :=
| ValueError (msg : string).

(** What a call of [run()] ends in: a returned value, or [sys.exit(code)]. *)
Inductive outcome (A : Type) : Type :=
| Return (a : A)
| SysExit (code : nat).
Arguments Return {A} a.
Arguments SysExit {A} code.

(** [try: body  except Exception as e: print(...); sys.exit(1)] *)
Definition try_or_exit {A} (body : exn + A) : outcome A :=
  match body with
  | inr a => Return a
  | inl _ => SysExit 1
  end.

(** Exit status of the process when [main()] consists of a call of [run()]
    followed by printing: [sys.exit(code)] ends it with [code], a normal
    return with 0. *)
Definition exit_status {A} (o : outcome A) : nat :=
  match o with
  | Return _ => 0
  | SysExit c => c
  end.

(** ** The file system, as [pathlib] shows it *)

(** An entry below the target directory: its path relative to the target
    ([str(f.relative_to(target))]) and what [read_text] gives; [None] stands
    for a read that raises [PermissionError] or another [OSError]. *)
Record file : Type := File {
  frel : string;
  fcontent : option string;
}.

Record fs : Type := FS {
  target : string;                 (* str(self.target_path) *)
  target_exists : bool;            (* self.target_path.exists() *)
  tree : list file;                (* entries below the target, in rglob order *)
  parent_pubspec : option (option string);
    (* target.parent / "pubspec.yaml": absent, or present with its text *)
}.

(** [str(target / rel)] on a POSIX path. *)
Definition path_str (t rel : string) : string :=
  if String.eqb t "." then rel
  else if endswith t "/" then t ++ rel
  else t ++ "/" ++ rel.

Definition fstr (d : fs) (f : file) : string := path_str (target d) (frel f).

(** [f.name]: the last component of a path. *)
Fixpoint path_name (p : string) : string :=
  match p with
  | EmptyString => EmptyString
  | String c p' =>
      if contains "/" p' then path_name p'
      else if Ascii.eqb c "/"%char then p' else p
  end.

(** A file name against a glob pattern: the analyzers use ["*.dart"] and
    literal names only. *)
Definition glob_match (pat name : string) : bool :=
  match pat with
  | String "*"%char rest => endswith name rest
  | _ => String.eqb pat name
  end.

(** [list(self.target_path.rglob(pat))] *)
Definition rglob (d : fs) (pat : string) : list file :=
  List.filter (fun f => glob_match pat (path_name (frel f))) (tree d).

(** [(target / name).exists()] and its text, for a plain file name. *)
Definition lookup_child (d : fs) (name : string) : option (option string) :=
  match List.filter (fun f => String.eqb (frel f) name) (tree d) with
  | f :: _ => Some (fcontent f)
  | [] => None
  end.

End Py.

(* ===================================================================== *)
(** * Regular expressions *)
(* ===================================================================== *)

(** What the analyzers use of Python's [re]: [pattern] is the pattern text,
    [ignorecase] says whether [re.IGNORECASE] is passed.
    - [re_search pattern ignorecase text] is
      [re.search(pattern, text, flags) is not None];
    - [re_finditer pattern ignorecase text] lists [m.start()] for the matches
      [m] of [re.finditer(pattern, text, flags)], in order. *)
Class Regex : Type := {
  re_search : string -> bool -> string -> bool;
  re_finditer : string -> bool -> string -> list nat;
}.

Module Re.
Import Py.

(** ** Syntax *)

Inductive item : Type :=
| IRange (lo hi : ascii)     (* a single character is a range of one *)
| IDigit                     (* \d *)
| ISpace                     (* \s *)
| IWord.                     (* \w *)

Inductive re : Type :=
| Eps
| Chr (c : ascii)
| AnyChar                                   (* "." : all but newline *)
| Cls (neg : bool) (its : list item)        (* [...] and [^...] *)
| WordB                                     (* \b *)
| Cat (a b : re)
| Alt (a b : re)
| Rep (lo : nat) (hi : option nat) (a : re) (* greedy a{lo,hi} *)
| NegAhead (a : re).                        (* (?!a) *)

(** ** Parser (recursive descent, fuel bounded by the pattern's length) *)

Definition digit_val (c : ascii) : nat := ord c - 48.

Fixpoint parse_nat (acc : nat) (s : list ascii) : nat * list ascii :=
  match s with
  | c :: s' => if isdigit c then parse_nat (10 * acc + digit_val c) s' else (acc, s)
  | [] => (acc, s)
  end.

(** An escape [\c] outside or inside a class. *)
Definition escape_item (c : ascii) : option item :=
  if Ascii.eqb c "d"%char then Some IDigit
  else if Ascii.eqb c "s"%char then Some ISpace
  else if Ascii.eqb c "w"%char then Some IWord
  else if isword c then None
  else Some (IRange c c).

Fixpoint parse_class (fuel : nat) (s : list ascii) : option (list item * list ascii) :=
  match fuel with
  | 0 => None
  | S fuel' =>
      match s with
      | [] => None
      | c :: s1 =>
          if Ascii.eqb c "]"%char then Some ([], s1)
          else if Ascii.eqb c bs_c then
            match s1 with
            | e :: s2 =>
                match escape_item e, parse_class fuel' s2 with
                | Some it, Some (its, s3) => Some (it :: its, s3)
                | _, _ => None
                end
            | [] => None
            end
          else
            match s1 with
            | d :: hi :: s2 =>
                if Ascii.eqb d "-"%char && negb (Ascii.eqb hi "]"%char) then
                  match parse_class fuel' s2 with
                  | Some (its, s3) => Some (IRange c hi :: its, s3)
                  | None => None
                  end
                else
                  match parse_class fuel' s1 with
                  | Some (its, s3) => Some (IRange c c :: its, s3)
                  | None => None
                  end
            | _ =>
                match parse_class fuel' s1 with
                | Some (its, s3) => Some (IRange c c :: its, s3)
                | None => None
                end
            end
      end
  end.

(** The quantifier, if any, that follows an atom. Lazy and possessive
    quantifiers are not part of the fragment. *)
Definition parse_quant (a : re) (s : list ascii) : option (re * list ascii) :=
  let no_suffix (r : re) (s' : list ascii) :=
    match s' with
    | c :: _ =>
        if Ascii.eqb c "?"%char || Ascii.eqb c "+"%char then None else Some (r, s')
    | [] => Some (r, s')
    end in
  match s with
  | c :: s1 =>
      if Ascii.eqb c "*"%char then no_suffix (Rep 0 None a) s1
      else if Ascii.eqb c "+"%char then no_suffix (Rep 1 None a) s1
      else if Ascii.eqb c "?"%char then no_suffix (Rep 0 (Some 1) a) s1
      else if Ascii.eqb c "{"%char then
        let '(lo, s2) := parse_nat 0 s1 in
        match s2 with
        | d :: s3 =>
            if Ascii.eqb d "}"%char then no_suffix (Rep lo (Some lo) a) s3
            else if Ascii.eqb d ","%char then
              match s3 with
              | e :: s4 =>
                  if Ascii.eqb e "}"%char then no_suffix (Rep lo None a) s4
                  else
                    let '(hi, s5) := parse_nat 0 s3 in
                    match s5 with
                    | f :: s6 =>
                        if Ascii.eqb f "}"%char
                        then no_suffix (Rep lo (Some hi) a) s6
                        else None
                    | [] => None
                    end
              | [] => None
              end
            else None
        | [] => None
        end
      else Some (a, s)
  | [] => Some (a, s)
  end.

Definition expect_close (r : option (re * list ascii)) (wrap : re -> re)
  : option (re * list ascii) :=
  match r with
  | Some (a, c :: s) => if Ascii.eqb c ")"%char then Some (wrap a, s) else None
  | _ => None
  end.

Fixpoint parse_alt (fuel : nat) (s : list ascii) {struct fuel}
  : option (re * list ascii) :=
  match fuel with
  | 0 => None
  | S fuel' =>
      match parse_seq fuel' s with
      | Some (a, c :: s1) =>
          if Ascii.eqb c "|"%char then
            match parse_alt fuel' s1 with
            | Some (b, s2) => Some (Alt a b, s2)
            | None => None
            end
          else Some (a, c :: s1)
      | r => r
      end
  end
with parse_seq (fuel : nat) (s : list ascii) {struct fuel}
  : option (re * list ascii) :=
  match fuel with
  | 0 => None
  | S fuel' =>
      match s with
      | [] => Some (Eps, s)
      | c :: _ =>
          if Ascii.eqb c "|"%char || Ascii.eqb c ")"%char then Some (Eps, s)
          else
            match parse_atom fuel' s with
            | Some (a, s1) =>
                match parse_quant a s1 with
                | Some (a', s2) =>
                    match parse_seq fuel' s2 with
                    | Some (Eps, s3) => Some (a', s3)
                    | Some (b, s3) => Some (Cat a' b, s3)
                    | None => None
                    end
                | None => None
                end
            | None => None
            end
      end
  end
with parse_atom (fuel : nat) (s : list ascii) {struct fuel}
  : option (re * list ascii) :=
  match fuel with
  | 0 => None
  | S fuel' =>
      match s with
      | [] => None
      | c :: s1 =>
          if Ascii.eqb c "("%char then
            match s1 with
            | q :: k :: s2 =>
                if Ascii.eqb q "?"%char then
                  if Ascii.eqb k ":"%char
                  then expect_close (parse_alt fuel' s2) (fun a => a)
                  else if Ascii.eqb k "!"%char
                  then expect_close (parse_alt fuel' s2) NegAhead
                  else None
                else expect_close (parse_alt fuel' s1) (fun a => a)
            | _ => expect_close (parse_alt fuel' s1) (fun a => a)
            end
          else if Ascii.eqb c "["%char then
            match s1 with
            | n :: s2 =>
                if Ascii.eqb n "^"%char then
                  match parse_class fuel' s2 with
                  | Some (its, s3) => Some (Cls true its, s3)
                  | None => None
                  end
                else
                  match parse_class fuel' s1 with
                  | Some (its, s3) => Some (Cls false its, s3)
                  | None => None
                  end
            | [] => None
            end
          else if Ascii.eqb c bs_c then
            match s1 with
            | e :: s2 =>
                if Ascii.eqb e "b"%char then Some (WordB, s2)
                else
                  match escape_item e with
                  | Some (IRange x _) => Some (Chr x, s2)
                  | Some it => Some (Cls false [it], s2)
                  | None => None
                  end
            | [] => None
            end
          else if Ascii.eqb c "."%char then Some (AnyChar, s1)
          else if Ascii.eqb c "*"%char || Ascii.eqb c "+"%char
                  || Ascii.eqb c "?"%char || Ascii.eqb c "{"%char
                  || Ascii.eqb c "^"%char || Ascii.eqb c "$"%char
          then None
          else Some (Chr c, s1)
      end
  end.

(** [re.compile(pattern)]; [None] when the pattern is outside the fragment. *)
Definition compile (pattern : string) : option re :=
  let s := list_ascii_of_string pattern in
  match parse_alt (4 * List.length s + 8) s with
  | Some (r, []) => Some r
  | _ => None
  end.

(** ** Backtracking matcher *)

Definition in_item (it : item) (c : ascii) : bool :=
  match it with
  | IRange lo hi => (ord lo <=? ord c) && (ord c <=? ord hi)
  | IDigit => isdigit c
  | ISpace => isspace c
  | IWord => isword c
  end.

Definition item_match (ic : bool) (it : item) (c : ascii) : bool :=
  in_item it c || (ic && (in_item it (lower c) || in_item it (upper c))).

Definition chr_match (ic : bool) (p c : ascii) : bool :=
  if ic then Ascii.eqb (lower p) (lower c) else Ascii.eqb p c.

Definition is_word_opt (o : option ascii) : bool :=
  match o with Some c => isword c | None => false end.

Definition at_boundary (prev : option ascii) (s : list ascii) : bool :=
  xorb (is_word_opt prev) (is_word_opt (head s)).

Definition or_else {A} (x : option A) (y : option A) : option A :=
  match x with Some _ => x | None => y end.

(** [mt r ic prev s k]: match [r] at the front of [s] ([prev] is the
    character before it), then continue with [k] on what is left; the
    alternatives are tried in Python's order (left branch first, longest
    repetition first), and the first success is returned. *)
Fixpoint mt {A} (r : re) (ic : bool) (prev : option ascii) (s : list ascii)
  (k : option ascii -> list ascii -> option A) {struct r} : option A :=
  match r with
  | Eps => k prev s
  | Chr p =>
      match s with
      | c :: s' => if chr_match ic p c then k (Some c) s' else None
      | [] => None
      end
  | AnyChar =>
      match s with
      | c :: s' => if Ascii.eqb c nl_c then None else k (Some c) s'
      | [] => None
      end
  | Cls neg its =>
      match s with
      | c :: s' =>
          if xorb neg (existsb (fun it => item_match ic it c) its)
          then k (Some c) s' else None
      | [] => None
      end
  | WordB => if at_boundary prev s then k prev s else None
  | Cat a b => mt a ic prev s (fun p' s' => mt b ic p' s' k)
  | Alt a b => or_else (mt a ic prev s k) (mt b ic prev s k)
  | NegAhead a =>
      match mt a ic prev s (fun _ _ => Some tt) with
      | Some _ => None
      | None => k prev s
      end
  | Rep lo hi a =>
      (fix rep (fuel lo : nat) (hi : option nat) (prev : option ascii)
           (s : list ascii) {struct fuel} : option A :=
         match fuel with
         | 0 => None
         | S fuel' =>
             let more :=
               match hi with
               | Some 0 => None
               | _ =>
                   mt a ic prev s (fun p' s' =>
                     if (List.length s' <? List.length s) || (0 <? lo)
                     then rep fuel' (pred lo) (option_map pred hi) p' s'
                     else None)
               end in
             or_else more (if lo =? 0 then k prev s else None)
         end) (S (List.length s + lo)) lo hi prev s
  end.

(** The leftmost match at or after the front of [s]: the number of
    characters skipped before it and consumed by it. *)
Fixpoint search_from (r : re) (ic : bool) (prev : option ascii)
  (s : list ascii) (skipped : nat) : option (nat * nat) :=
  match mt r ic prev s (fun _ rest => Some (List.length s - List.length rest)) with
  | Some len => Some (skipped, len)
  | None =>
      match s with
      | c :: s' => search_from r ic (Some c) s' (S skipped)
      | [] => None
      end
  end.

Definition search (pattern : string) (ic : bool) (text : string) : bool :=
  match compile pattern with
  | Some r =>
      match search_from r ic None (list_ascii_of_string text) 0 with
      | Some _ => true
      | None => false
      end
  | None => false
  end.

Definition last_of (prev : option ascii) (s : list ascii) : option ascii :=
  match List.rev s with c :: _ => Some c | [] => prev end.

(** The starts of the successive non-overlapping matches; after an empty
    match the scan moves on by one character. *)
Fixpoint finditer_from (fuel : nat) (r : re) (ic : bool) (prev : option ascii)
  (s : list ascii) (pos : nat) : list nat :=
  match fuel with
  | 0 => []
  | S fuel' =>
      match search_from r ic prev s 0 with
      | None => []
      | Some (skipped, len) =>
          let adv := skipped + Nat.max len 1 in
          (pos + skipped)
            :: (if List.length s <? adv then []
                else finditer_from fuel' r ic (last_of prev (firstn adv s))
                       (skipn adv s) (pos + adv))
      end
  end.

Definition finditer (pattern : string) (ic : bool) (text : string) : list nat :=
  match compile pattern with
  | Some r =>
      let s := list_ascii_of_string text in
      finditer_from (S (List.length s)) r ic None s 0
  | None => []
  end.

(** The reference implementation of the interface. *)
#[export] Instance py_re : Regex := {|
  re_search := search;
  re_finditer := finditer;
|}.

End Re.

(* ===================================================================== *)
(** * security_auditor.py *)
(* ===================================================================== *)

Module SecurityAuditor.
Import Py.

Record Finding : Type := mkFinding {
  severity : string;  (* CRIT, HIGH, MED, LOW *)
  check : string;
  description : string;
  file_path : string;
  line : nat;
  code_snippet : string;
  recommendation : string;
}.

(** Check definitions:
    (pattern, severity, check_name, description, recommendation, category) *)
Record check_def : Type := mkCheck {
  c_pattern : string;
  c_severity : string;
  c_name : string;
  c_desc : string;
  c_rec : string;
  c_category : string;
}.

Definition CRYPTO_CHECKS : list check_def := [
  mkCheck "\bRandom\(\)"
    "CRIT" "insecure-rng"
    "dart:math Random() is not cryptographically secure"
    "Use sodium.randombytes.buf() or dart:math SecureRandom"
    "crypto";
  mkCheck ("(?:key|secret|password|passphrase)\s*=\s*['\" ++ dq ++ "][^'\"
             ++ dq ++ "]{1,100}['\" ++ dq ++ "]")
    "CRIT" "hardcoded-secret"
    "Possible hardcoded cryptographic key or secret"
    "Load keys from flutter_secure_storage, never hardcode"
    "crypto";
  mkCheck "Uint8List\(\d+\)\s*(?:;|,)"
    "HIGH" "zero-nonce"
    "Zero-initialized Uint8List may be used as nonce (all zeros = nonce reuse)"
    "Use sodium.randombytes.buf() for nonces, or verify this is not a nonce"
    "crypto";
  mkCheck "crypto_aead.*nonce.*=.*(?:0|nonce)"
    "HIGH" "nonce-reuse-risk"
    "Static or reused nonce in AEAD encryption"
    "Generate fresh random nonce per encryption operation"
    "crypto";
  mkCheck "catch\s*\([^)]*\)\s*\{[^}]*return\s+(?:data|raw|bytes|payload|ciphertext)"
    "CRIT" "crypto-fallback"
    "Catch block returns original data on crypto failure — bypasses encryption"
    "On crypto failure, return null or rethrow. Never fall back to plaintext"
    "crypto"
].

Definition STORAGE_CHECKS : list check_def := [
  mkCheck "SharedPreferences.*(?:key|secret|password|token|private)"
    "CRIT" "secret-in-prefs"
    "Cryptographic material stored in SharedPreferences (unencrypted)"
    "Use flutter_secure_storage for all keys and secrets"
    "storage";
  mkCheck "File\(.*\)\.writeAs(?:String|Bytes).*(?:key|secret|private)"
    "CRIT" "secret-in-file"
    "Possible secret written to plain file"
    "Use flutter_secure_storage, not File I/O for secrets"
    "storage";
  mkCheck "SecureStorage.*delete\b"
    "LOW" "key-deletion"
    "Key deletion from secure storage — verify this is intentional"
    "Ensure key deletion is part of planned key rotation or app reset"
    "storage"
].

Definition LOGGING_CHECKS : list check_def := [
  mkCheck "(?:print|debugPrint|log\.)\s*\([^)]*(?:peerId|peer_id|PeerId|sourceId|destId)"
    "HIGH" "pii-log-peerid"
    "Peer ID logged — identity leak"
    "Use SecureLogger, truncate or hash peer IDs before logging"
    "logging";
  mkCheck "(?:print|debugPrint|log\.)\s*\([^)]*(?:secretKey|privateKey|private_key|SecureKey)"
    "CRIT" "key-logged"
    "Private key material may be logged"
    "Never log key material. Remove this logging statement"
    "logging";
  mkCheck "(?:print|debugPrint|log\.)\s*\([^)]*(?:latitude|longitude|lat|lng|coordinates|location)"
    "HIGH" "pii-log-location"
    "GPS coordinates logged — location privacy leak"
    "Use SecureLogger, never log coordinates"
    "logging";
  mkCheck "(?:print|debugPrint|log\.)\s*\([^)]*(?:passphrase|password|groupKey|group_key)"
    "CRIT" "secret-logged"
    "Secret or passphrase logged"
    "Remove this logging statement immediately"
    "logging";
  mkCheck "(?:print|debugPrint)\s*\("
    "LOW" "debug-print"
    "debugPrint/print statement — ensure removed in release builds"
    "Use SecureLogger or conditional logging (kDebugMode guard)"
    "logging"
].

Definition PROTOCOL_CHECKS : list check_def := [
  mkCheck "\.decode\([^)]*\)(?!\s*(?:catch|try))"
    "MED" "unguarded-decode"
    "Decoding without try/catch — malformed BLE data may crash the app"
    "Wrap decode in try/catch, return null on failure"
    "protocol";
  mkCheck "sublist\(\s*\d+"
    "MED" "unchecked-sublist"
    "sublist() without prior length check — may throw RangeError"
    "Check data.length >= offset + needed before sublist()"
    "protocol";
  mkCheck "ByteData\.view.*getUint(?:8|16|32|64)"
    "MED" "unchecked-bytedata"
    "ByteData access without length validation — potential out-of-bounds"
    "Validate buffer length before ByteData access"
    "protocol"
].

Definition PERMISSION_CHECKS_ANDROID : list check_def := [
  mkCheck "ACCESS_BACKGROUND_LOCATION"
    "MED" "background-location"
    "Background location permission requested — high privacy impact"
    "Only request if truly needed for background mesh operation"
    "permissions";
  mkCheck ("android:allowBackup\s*=\s*\" ++ dq ++ "true\" ++ dq)
    "HIGH" "backup-enabled"
    "Android backup enabled — app data (including messages) extractable via ADB"
    ("Set android:allowBackup=" ++ dq ++ "false" ++ dq ++ " in AndroidManifest.xml")
    "permissions";
  mkCheck ("android:debuggable\s*=\s*\" ++ dq ++ "true\" ++ dq)
    "CRIT" "debuggable"
    "App is debuggable — allows runtime inspection and data extraction"
    "Ensure debuggable is false in release builds"
    "permissions";
  mkCheck ("usesCleartextTraffic\s*=\s*\" ++ dq ++ "true\" ++ dq)
    "MED" "cleartext-traffic"
    "Cleartext HTTP traffic allowed"
    ("Set usesCleartextTraffic=" ++ dq ++ "false" ++ dq ++ " or use networkSecurityConfig")
    "permissions"
].

Section Analyzer.
Context `{Regex}.

(** The auditor object: the scanned tree stands for [self.target_path]. *)
Record auditor : Type := mkAuditor {
  world : fs;
  check_filter : option string;
  findings : list Finding;
}.

(** [SecurityAuditor(target, check_filter=...)] *)
Definition init (d : fs) (flt : option string) : auditor := mkAuditor d flt [].

(** [self.findings.append(f)] *)
Definition append (f : Finding) (self : auditor) : auditor :=
  mkAuditor (world self) (check_filter self) (findings self ++ [f]).

(** Truth value of [self.check_filter]: [None] and the empty string are false. *)
Definition truthy (o : option string) : bool :=
  match o with
  | Some s => negb (String.eqb s "")
  | None => false
  end.

(** [c[5] == self.check_filter] *)
Definition eq_filter (cat : string) (o : option string) : bool :=
  match o with
  | Some s => String.eqb cat s
  | None => false
  end.

Definition validate_target (self : auditor) : exn + unit :=
  if target_exists (world self) then inr tt
  else inl (ValueError ("Target path does not exist: " ++ target (world self))).

Definition _get_checks (self : auditor) : list check_def :=
  let all_checks :=
    CRYPTO_CHECKS ++ STORAGE_CHECKS ++ LOGGING_CHECKS ++ PROTOCOL_CHECKS in
  if truthy (check_filter self)
  then List.filter (fun c => eq_filter (c_category c) (check_filter self)) all_checks
  else all_checks.

(** The exclusion test of [audit_dart_files] on [str(f)]. *)
Definition is_source_file (d : fs) (f : file) : bool :=
  negb (contains "/test/" (replace_backslash (fstr d f)))
  && negb (contains ".g.dart" (fstr d f))
  && negb (contains ".freezed.dart" (fstr d f)).

(** The comment test applied to a stripped line. *)
Definition is_comment (stripped : string) : bool :=
  startswith stripped "//" || startswith stripped "*" || startswith stripped "///".

Definition audit_dart_files (self : auditor) : auditor :=
  let dart_files := rglob (world self) "*.dart" in
  (* Exclude test files and generated files *)
  let dart_files := List.filter (is_source_file (world self)) dart_files in
  let checks := _get_checks self in
  for_each dart_files (fun dart_file self =>
    match fcontent dart_file with
    | None => self                      (* except (PermissionError, OSError) *)
    | Some content =>
        let lines := split_nl content in
        for_each checks (fun c self =>
          for_each (enumerate 1 lines) (fun il self =>
            let '(i, line) := il in
            (* Skip comments *)
            let stripped := strip line in
            if is_comment stripped then self
            else if re_search (c_pattern c) true line then
              let rel_path := frel dart_file in
              append (mkFinding (c_severity c) (c_name c) (c_desc c)
                        rel_path i (slice_to 120 stripped) (c_rec c)) self
            else self) self) self
    end) self.

Definition audit_android_manifest (self : auditor) : auditor :=
  if truthy (check_filter self) && negb (eq_filter "permissions" (check_filter self))
  then self
  else
    let manifests := rglob (world self) "AndroidManifest.xml" in
    (* Prefer main manifest over debug/profile *)
    let main_manifests :=
      List.filter (fun m => negb (contains "debug" (fstr (world self) m))
                            && negb (contains "profile" (fstr (world self) m)))
        manifests in
    let chosen := match main_manifests with [] => manifests | _ => main_manifests end in
    for_each chosen (fun manifest self =>
      match fcontent manifest with
      | None => self
      | Some content =>
          let lines := split_nl content in
          for_each PERMISSION_CHECKS_ANDROID (fun c self =>
            for_each (enumerate 1 lines) (fun il self =>
              let '(i, line) := il in
              if re_search (c_pattern c) true line then
                let rel_path := frel manifest in
                append (mkFinding (c_severity c) (c_name c) (c_desc c)
                          rel_path i (slice_to 120 (strip line)) (c_rec c)) self
              else self) self) self
      end) self.

Definition audit_ios_plist (self : auditor) : auditor :=
  if truthy (check_filter self) && negb (eq_filter "permissions" (check_filter self))
  then self
  else
    let plists := rglob (world self) "Info.plist" in
    for_each plists (fun plist self =>
      match fcontent plist with
      | None => self
      | Some content =>
          (* Check for overly permissive background modes *)
          if contains "fetch" content && contains "bluetooth" content then
            let rel_path := frel plist in
            append (mkFinding "LOW" "ios-background-modes"
                      "Multiple background modes enabled — verify all are necessary"
                      rel_path 0 "UIBackgroundModes: bluetooth + fetch"
                      "Only enable background modes that are actively used") self
          else self
      end) self.

Definition http_dependency : Finding :=
  mkFinding "LOW" "http-dependency"
    "HTTP package dependency — ensure HTTPS is enforced in usage"
    "pubspec.yaml" 0 "http dependency in pubspec.yaml"
    "Verify all HTTP calls use HTTPS endpoints".

Definition missing_sodium : Finding :=
  mkFinding "HIGH" "missing-sodium"
    "sodium_libs not found in pubspec — crypto operations may use weak alternatives"
    "pubspec.yaml" 0 "sodium_libs not in dependencies"
    "Add sodium_libs dependency for all cryptographic operations".

Definition missing_secure_storage : Finding :=
  mkFinding "HIGH" "missing-secure-storage"
    "flutter_secure_storage not found — secrets may be stored insecurely"
    "pubspec.yaml" 0 "flutter_secure_storage not in dependencies"
    "Add flutter_secure_storage for key and secret persistence".

Definition audit_pubspec (self : auditor) : auditor :=
  (* check_filter not in ("crypto", None) *)
  if truthy (check_filter self) && negb (eq_filter "crypto" (check_filter self))
  then self
  else
    let pubspec :=
      match lookup_child (world self) "pubspec.yaml" with
      | Some p => Some p
      | None => parent_pubspec (world self)       (* Try parent *)
      end in
    match pubspec with
    | Some (Some content) =>
        let self :=
          (* Check for insecure dependency patterns *)
          if contains "http:" content && negb (contains "http_cache" content)
          then append http_dependency self else self in
        let self :=
          (* Check sodium_libs is present for crypto apps *)
          if negb (contains "sodium_libs" content)
          then append missing_sodium self else self in
        if negb (contains "flutter_secure_storage" content)
        then append missing_secure_storage self else self
    | _ => self
    end.

(** [severity_order.get(sev, 99)] *)
Definition severity_order (sev : string) : nat :=
  if String.eqb sev "CRIT" then 0
  else if String.eqb sev "HIGH" then 1
  else if String.eqb sev "MED" then 2
  else if String.eqb sev "LOW" then 3
  else 99.

(** The dedup key: same check + same file + same line. *)
Definition key (f : Finding) : string * string * nat :=
  (check f, file_path f, line f).

(** The deduplication loop, on the state [(seen, unique_findings)]. *)
Definition dedup_step (f : Finding)
  (st : gset (string * string * nat) * list Finding)
  : gset (string * string * nat) * list Finding :=
  let '(seen, unique_findings) := st in
  if decide (key f ∈ seen) then st
  else ({[key f]} ∪ seen, unique_findings ++ [f]).

Definition dedup (l : list Finding) : list Finding :=
  snd (for_each l dedup_step (∅, [])).

(** The summary loop, on the state [(by_severity, by_check)]. *)
Definition summary_step (f : Finding)
  (st : gmap string nat * gmap string nat) : gmap string nat * gmap string nat :=
  (incr (severity f) (fst st), incr (check f) (snd st)).

Record Report : Type := mkReport {
  r_target : string;
  total_findings : nat;
  by_severity : gmap string nat;
  by_check : gmap string nat;
  r_findings : list Finding;
}.

Definition generate_report (self : auditor) : auditor * Report :=
  (* Sort by severity *)
  let sorted := sort_by (fun f => severity_order (severity f)) (findings self) in
  (* Deduplicate (same check + same file + same line) *)
  let self := mkAuditor (world self) (check_filter self) (dedup sorted) in
  (* Summary *)
  let '(by_sev, by_chk) := for_each (findings self) summary_step (∅, ∅) in
  (self,
   mkReport (target (world self)) (List.length (findings self))
     by_sev by_chk (findings self)).

(** The four scans of [run], in order: the state before [generate_report]. *)
Definition scanned (d : fs) (flt : option string) : auditor :=
  audit_pubspec (audit_ios_plist (audit_android_manifest
    (audit_dart_files (init d flt)))).

(** The findings in discovery order. *)
Definition raw_findings (d : fs) (flt : option string) : list Finding :=
  findings (scanned d flt).

(** The report a run over an existing target returns. *)
Definition report (d : fs) (flt : option string) : Report :=
  snd (generate_report (scanned d flt)).

Definition run (d : fs) (flt : option string) : outcome Report :=
  let self := init d flt in
  try_or_exit
    match validate_target self with
    | inl e => inl e
    | inr _ =>
        let self := audit_dart_files self in
        let self := audit_android_manifest self in
        let self := audit_ios_plist self in
        let self := audit_pubspec self in
        inr (snd (generate_report self))
    end.

End Analyzer.

End SecurityAuditor.

(* ===================================================================== *)
(** * ble_attack_surface.py *)
(* ===================================================================== *)

Module BLE.
Import Py.

Record BLEFinding : Type := mkFinding {
  severity : string;
  category : string;  (* advertising, gatt, connection, transport, config *)
  description : string;
  file_path : string;
  line : nat;
  code_snippet : string;
  recommendation : string;
}.

(** A row of a pattern table: (pattern, severity, check, desc, rec). *)
Record rule : Type := mkRule {
  p_pattern : string;
  p_severity : string;
  p_check : string;
  p_desc : string;
  p_rec : string;
}.

Definition advertising_patterns : list rule := [
  mkRule "localName\s*:" "HIGH" "advertising-name"
    "Device name included in BLE advertising — identity leak to nearby devices"
    "Remove localName from advertising data to prevent tracking";
  mkRule "manufacturerData\s*:.*(?:peerId|peer|id|identity)"
    "CRIT" "advertising-identity"
    "Peer identity data in manufacturer-specific advertising field"
    "Remove identity data from advertising. Use application-layer identity only";
  mkRule "manufacturerData\s*:" "MED" "advertising-manufacturer-data"
    "Manufacturer-specific data in advertising — verify no sensitive info"
    "Review manufacturer data content. Minimize to absolute minimum";
  mkRule "serviceData\s*:.*(?!.*uuid)" "MED" "advertising-service-data"
    "Service data in advertising — may leak application state"
    "Minimize service data. Prefer discovery via GATT connection";
  mkRule "(?:startAdvertising|advertise).*(?:displayName|userName|name)"
    "HIGH" "advertising-display-name"
    "User display name may be broadcast in BLE advertising"
    "Never include user-visible names in advertising data";
  mkRule "txPowerLevel\s*:" "LOW" "advertising-tx-power"
    "TX power level in advertising — enables distance estimation by observers"
    "Consider removing TX power from advertising if not needed"
].

Definition gatt_patterns : list rule := [
  mkRule "(?:read|Read)\s*:\s*true.*(?:key|secret|token|private)"
    "CRIT" "gatt-read-secret"
    "GATT characteristic with read permission may expose secrets"
    "Never expose secrets via GATT characteristics";
  mkRule "(?:write|Write).*(?:WithoutResponse|withoutResponse)"
    "MED" "gatt-write-no-response"
    "Write-without-response on GATT — no acknowledgment of writes"
    "Consider write-with-response for reliability and flow control";
  mkRule "notify\s*:\s*true"
    "LOW" "gatt-notify"
    "GATT notification enabled — verify notification data doesn't leak sensitive info"
    "Review what data is sent via notifications"
].

Definition connection_patterns : list rule := [
  mkRule "autoConnect\s*:\s*true"
    "MED" "auto-connect"
    "Auto-connect enabled — device will connect to known peripherals automatically"
    "Use manual connect with user intent for better security posture";
  mkRule "(?:maxCentral|maxConnect).*(?:\d{2,})"
    "MED" "high-max-connections"
    "High max connection limit may allow connection flooding"
    "Limit to 6 (iOS max) or fewer for resource protection";
  mkRule "timeout.*(?:0|null|none)"
    "HIGH" "no-connection-timeout"
    "BLE connection without timeout — stale connections hold resources"
    "Set reasonable connection timeout (30-60 seconds)";
  mkRule "requestMtu"
    "LOW" "mtu-request"
    "MTU negotiation — verify MTU value doesn't exceed app's handling capacity"
    "Validate negotiated MTU and handle fragments correctly"
].

(** Look for BLE data handlers without length checks *)
Definition handler_patterns : list (string * string) := [
  ("onValueReceived|onCharacteristicReceived|onData|onValueChanged",
   "callback_found")
].

Definition validation_patterns : list string := [
  "\.length\s*[<>=]";
  "if\s*\(\s*data\.length";
  "if\s*\(\s*value\.length"
].

Section Analyzer.
Context `{Regex}.

(** The analyzer object. The [ble_config] dictionary, filled by
    [extract_ble_config] and copied into the report, is not represented:
    no finding depends on it. *)
Record analyzer : Type := mkAnalyzer {
  world : fs;
  findings : list BLEFinding;
}.

Definition init (d : fs) : analyzer := mkAnalyzer d [].

Definition append (f : BLEFinding) (self : analyzer) : analyzer :=
  mkAnalyzer (world self) (findings self ++ [f]).

Definition validate_target (self : analyzer) : exn + unit :=
  if target_exists (world self) then inr tt
  else inl (ValueError ("Target path does not exist: " ++ target (world self))).

(** The exclusion test of [_scan_dart_files] on [str(f)]. *)
Definition is_source_file (d : fs) (f : file) : bool :=
  negb (contains "/test/" (replace_backslash (fstr d f)))
  && negb (contains ".g.dart" (fstr d f)).

(** Get all Dart files excluding tests and generated. *)
Definition _scan_dart_files (self : analyzer) : list file :=
  let dart_files := rglob (world self) "*.dart" in
  List.filter (is_source_file (world self)) dart_files.

(** The loop shared, word for word, by [audit_advertising],
    [audit_gatt_permissions] and [audit_connection_security]: every rule
    against every line of every scanned file. *)
Definition scan_lines (patterns : list rule) (cat : string) (self : analyzer)
  : analyzer :=
  let dart_files := _scan_dart_files self in
  for_each dart_files (fun dart_file self =>
    match fcontent dart_file with
    | None => self                      (* except (PermissionError, OSError) *)
    | Some content =>
        let lines := split_nl content in
        for_each patterns (fun r self =>
          for_each (enumerate 1 lines) (fun il self =>
            let '(i, line) := il in
            if re_search (p_pattern r) true line then
              let rel_path := frel dart_file in
              append (mkFinding (p_severity r) cat (p_desc r) rel_path i
                        (slice_to 120 (strip line)) (p_rec r)) self
            else self) self) self
    end) self.

Definition audit_advertising : analyzer -> analyzer :=
  scan_lines advertising_patterns "advertising".

Definition audit_gatt_permissions : analyzer -> analyzer :=
  scan_lines gatt_patterns "gatt".

Definition audit_connection_security : analyzer -> analyzer :=
  scan_lines connection_patterns "connection".

Definition unvalidated_handler (rel_path : string) (i : nat) (line : string)
  : BLEFinding :=
  mkFinding "HIGH" "transport"
    "BLE data handler without visible length validation — buffer overflow risk"
    rel_path i (slice_to 120 (strip line))
    "Validate data length before parsing. Check min/max bounds.".

(** [any(re.search(vp, context) for vp in validation_patterns)] on the text
    of [lines[i:i + 15]], the lines after the trigger line number [i]. *)
Definition has_validation (lines : list string) (i : nat) : bool :=
  let context := join_nl (slice i (i + 15) lines) in
  any (fun vp => re_search vp false context) validation_patterns.

Definition audit_data_validation (self : analyzer) : analyzer :=
  let dart_files := _scan_dart_files self in
  for_each dart_files (fun dart_file self =>
    match fcontent dart_file with
    | None => self
    | Some content =>
        let lines := split_nl content in
        for_each handler_patterns (fun hp self =>
          let pattern := fst hp in
          for_each (enumerate 1 lines) (fun il self =>
            let '(i, line) := il in
            if re_search pattern true line then
              if negb (has_validation lines i) then
                let rel_path := frel dart_file in
                append (unvalidated_handler rel_path i line) self
              else self
            else self) self) self
    end) self.

Definition audit_ble_permissions (self : analyzer) : analyzer :=
  let d := world self in
  (* Android *)
  let manifests := rglob d "AndroidManifest.xml" in
  let self :=
    for_each manifests (fun manifest self =>
      if contains "debug" (fstr d manifest) || contains "profile" (fstr d manifest)
      then self
      else
        match fcontent manifest with
        | None => self
        | Some content =>
            let rel_path := frel manifest in
            let self :=
              if contains "ACCESS_FINE_LOCATION" content
                 && contains "BLUETOOTH_SCAN" content
              then append (mkFinding "LOW" "config"
                     "Both FINE_LOCATION and BLUETOOTH_SCAN — FINE_LOCATION needed only for Android <12"
                     rel_path 0 "ACCESS_FINE_LOCATION + BLUETOOTH_SCAN"
                     "Consider conditional permission request based on API level") self
              else self in
            if negb (contains "BLUETOOTH_ADVERTISE" content)
               && contains "ble_peripheral" (target d)
            then append (mkFinding "MED" "config"
                   "BLUETOOTH_ADVERTISE permission missing but app uses ble_peripheral"
                   rel_path 0 "Missing BLUETOOTH_ADVERTISE"
                   "Add BLUETOOTH_ADVERTISE permission for Android 12+") self
            else self
        end) self in
  (* iOS *)
  let plists := rglob d "Info.plist" in
  for_each plists (fun plist self =>
    match fcontent plist with
    | None => self
    | Some content =>
        let rel_path := frel plist in
        if negb (contains "NSBluetoothAlwaysUsageDescription" content)
        then append (mkFinding "MED" "config"
               "Missing NSBluetoothAlwaysUsageDescription — iOS may reject BLE access"
               rel_path 0 "Missing NSBluetoothAlwaysUsageDescription"
               "Add Bluetooth usage description to Info.plist") self
        else self
    end) self.

Definition severity_order (sev : string) : nat :=
  if String.eqb sev "CRIT" then 0
  else if String.eqb sev "HIGH" then 1
  else if String.eqb sev "MED" then 2
  else if String.eqb sev "LOW" then 3
  else 99.

Definition key (f : BLEFinding) : string * string * string * nat :=
  (category f, description f, file_path f, line f).

Definition dedup_step (f : BLEFinding)
  (st : gset (string * string * string * nat) * list BLEFinding)
  : gset (string * string * string * nat) * list BLEFinding :=
  let '(seen, unique) := st in
  if decide (key f ∈ seen) then st
  else ({[key f]} ∪ seen, unique ++ [f]).

Definition dedup (l : list BLEFinding) : list BLEFinding :=
  snd (for_each l dedup_step (∅, [])).

Definition summary_step (f : BLEFinding)
  (st : gmap string nat * gmap string nat) : gmap string nat * gmap string nat :=
  (incr (severity f) (fst st), incr (category f) (snd st)).

Record Report : Type := mkReport {
  r_target : string;
  total_findings : nat;
  by_severity : gmap string nat;
  by_category : gmap string nat;
  r_findings : list BLEFinding;
}.

Definition generate_report (self : analyzer) : analyzer * Report :=
  let sorted := sort_by (fun f => severity_order (severity f)) (findings self) in
  (* Deduplicate *)
  let self := mkAnalyzer (world self) (dedup sorted) in
  let '(by_sev, by_cat) := for_each (findings self) summary_step (∅, ∅) in
  (self,
   mkReport (target (world self)) (List.length (findings self))
     by_sev by_cat (findings self)).

(** The audits of [run], in order: the state before [generate_report]. *)
Definition scanned (d : fs) : analyzer :=
  audit_ble_permissions (audit_data_validation (audit_connection_security
    (audit_gatt_permissions (audit_advertising (init d))))).

Definition raw_findings (d : fs) : list BLEFinding := findings (scanned d).

Definition report (d : fs) : Report := snd (generate_report (scanned d)).

Definition run (d : fs) : outcome Report :=
  let self := init d in
  try_or_exit
    match validate_target self with
    | inl e => inl e
    | inr _ =>
        (* extract_ble_config only fills ble_config *)
        let self := audit_advertising self in
        let self := audit_gatt_permissions self in
        let self := audit_connection_security self in
        let self := audit_data_validation self in
        let self := audit_ble_permissions self in
        inr (snd (generate_report self))
    end.

End Analyzer.

End BLE.

(* ===================================================================== *)
(** * threat_modeler.py *)
(* ===================================================================== *)

Module ThreatModeler.
Import Py.



(** A [Threat], and also the dictionary [asdict] makes of one: the custom
    threats are dictionaries with the same six keys. *)
Record Threat : Type := mkThreat {
  category : string;  (* S, T, R, I, D, E *)
  component : string;
  description : string;
  severity : string;
  mitigation : string;
  file_path : option string;
}.

(** [Threat(category, component, description, severity, mitigation)] *)
Definition threat (cat comp desc sev mit : string) : Threat :=
  mkThreat cat comp desc sev mit None.

Record ThreatModel : Type := mkModel {
  m_component : string;
  trust_boundary : string;
  threats : list Threat;
}.

(** BLE Mesh-specific threat catalog (a [dict], in insertion order). *)
Definition BLE_MESH_THREATS : list (string * ThreatModel) := [
  ("transport", mkModel "BLE Transport" "Device ↔ BLE Radio" [
     threat "Spoofing" "BLE Transport" "BLE MAC address cloning to impersonate a peer device" "high"
       "Use application-layer identity (Ed25519 keys) not BLE addresses";
     threat "Tampering" "BLE Transport" "Modification of BLE packets in transit by MITM relay" "medium"
       "Ed25519 signatures on all packets verify integrity end-to-end";
     threat "Info Disclosure" "BLE Transport" "BLE advertising data leaks peer ID, group, or display name" "high"
       "Minimize advertising payload to service UUID only";
     threat "Denial of Service" "BLE Transport" "BLE connection slot exhaustion (max 6 on iOS)" "medium"
       "Enforce max connection limits, timeout idle connections";
     threat "Info Disclosure" "BLE Transport" "BLE signal used for proximity tracking" "medium"
       "Use BLE MAC rotation, randomize advertising intervals" ]);
  ("mesh", mkModel "Mesh Relay" "Local Peer ↔ Relay Network" [
     threat "Spoofing" "Mesh Relay" "Forged topology announcements to corrupt routing" "high"
       "Verify Ed25519 signatures on topology packets";
     threat "Tampering" "Mesh Relay" "TTL manipulation to cause infinite relay loops" "medium"
       "Enforce max TTL (7), decrement on relay, reject TTL > max";
     threat "Repudiation" "Mesh Relay" "Relay node denies having forwarded a packet" "low"
       "Ed25519 signatures provide non-repudiation for origin";
     threat "Denial of Service" "Mesh Relay" "Flood attack: unique packets exhaust dedup cache and CPU" "high"
       "Rate-limit relay, cap dedup cache size (1000), LRU eviction";
     threat "Denial of Service" "Mesh Relay" "Dedup cache poisoning to drop legitimate packets" "medium"
       "Use composite dedup key (source:timestamp:type), time-bound entries" ]);
  ("crypto", mkModel "Cryptography" "Plaintext ↔ Ciphertext" [
     threat "Spoofing" "Cryptography" "Forged Noise XX handshake to establish rogue session" "critical"
       "Verify static key in handshake against known/trusted keys";
     threat "Tampering" "Cryptography" "Modified ciphertext bypasses AEAD authentication" "critical"
       "ChaCha20-Poly1305 AEAD rejects any tampered ciphertext";
     threat "Info Disclosure" "Cryptography" "Nonce reuse leaks XOR of plaintexts" "critical"
       "Random nonces for group cipher, counter for Noise sessions";
     threat "Info Disclosure" "Cryptography" "Weak Argon2id params allow group key brute-force" "high"
       "Use opsLimitModerate/memLimitModerate minimum, enforce passphrase length";
     threat "Elevation" "Cryptography" "Compromised group key allows decryption of all group traffic" "high"
       "Key rotation on member leave, periodic re-keying" ]);
  ("identity", mkModel "Identity & Storage" "App Memory ↔ Persistent Storage" [
     threat "Spoofing" "Identity" "Stolen Ed25519 private key enables peer impersonation" "critical"
       "Store in flutter_secure_storage (Android Keystore / iOS Keychain)";
     threat "Info Disclosure" "Identity" "Keys stored in SharedPreferences readable without root" "critical"
       "Never use SharedPreferences for crypto material";
     threat "Info Disclosure" "Identity" "PII logged: peer IDs, keys, coordinates in debug output" "high"
       "Use SecureLogger throughout, audit all print/debugPrint calls";
     threat "Tampering" "Identity" "Modify persisted group membership to gain unauthorized access" "medium"
       "Group membership validated via passphrase-derived key, not just storage flag";
     threat "Info Disclosure" "Identity" "Chat message JSON files readable on rooted device" "medium"
       "Accept risk or encrypt message files with group key" ]);
  ("protocol", mkModel "Wire Protocol" "Application ↔ Binary Packet Format" [
     threat "Tampering" "Protocol" "Malformed packet causes parser crash (DoS via parsing)" "high"
       "Validate all lengths before parsing, use tryDecode with null return";
     threat "Tampering" "Protocol" "Integer overflow in payload length field" "medium"
       "Cap payload length at 512 bytes, validate before allocation";
     threat "Info Disclosure" "Protocol" "Message type byte reveals communication patterns to observer" "low"
       "Accept risk (metadata analysis) or pad all packets to uniform size";
     threat "Spoofing" "Protocol" "Forged source ID in packet header" "high"
       "Ed25519 signature binds packet to sender's signing key" ])
].

(** [component in BLE_MESH_THREATS] and [BLE_MESH_THREATS[component]] *)
Fixpoint lookup_model (cat : list (string * ThreatModel)) (k : string)
  : option ThreatModel :=
  match cat with
  | [] => None
  | (k', m) :: cat' => if String.eqb k' k then Some m else lookup_model cat' k
  end.

Definition component_patterns : list (string * list string) := [
  ("transport", ["BleTransport"; "Transport\b"; "ble_transport"; "flutter_blue_plus"; "ble_peripheral"]);
  ("mesh", ["MeshService"; "RelayController"; "Deduplicator"; "TopologyTracker"; "GossipSync"]);
  ("crypto", ["NoiseProtocol"; "NoiseSession"; "GroupCipher"; "Signatures\b"; "sodium"; "ChaCha"]);
  ("identity", ["IdentityManager"; "PeerId"; "GroupManager"; "SecureStorage"; "UserProfile"]);
  ("protocol", ["FluxonPacket"; "BinaryProtocol"; "MessageType"; "packet\.dart"])
].

(** A row of [risk_patterns]: (pattern, desc, severity, component). *)
Record risk : Type := mkRisk {
  k_pattern : string;
  k_desc : string;
  k_severity : string;
  k_component : string;
}.

Definition risk_patterns : list risk := [
  mkRisk "Random\(\)" "dart:math Random() usage — not cryptographically secure" "critical" "crypto";
  mkRisk "SharedPreferences.*(?:key|secret|password)" "Possible secret in SharedPreferences" "critical" "identity";
  mkRisk "print\(.*(key|secret|password|peerId|peer_id)" "Possible PII/key in print statement" "high" "identity";
  mkRisk "debugPrint\(.*(key|secret|password|peerId|peer_id)" "Possible PII/key in debugPrint" "high" "identity";
  mkRisk "(?:http://)" "HTTP URL (not HTTPS) — cleartext network traffic" "medium" "transport";
  mkRisk "allowBackup.*true" "Android backup enabled — app data extractable" "medium" "identity";
  mkRisk "\.decode\(.*\)(?!.*try)" "Decoding without try/catch — potential crash on malformed input" "medium" "protocol"
].

(** [self.results["summary"]] once [generate_report] has filled it. *)
Record Summary : Type := mkSummary {
  total_threats : nat;
  by_severity : gmap string nat;
  by_category : gmap string nat;
  components_analyzed : list string;
}.

(** [self.results]; [summary] is [None] while it is the empty dictionary,
    [custom_findings] while the key is absent. *)
Record Results : Type := mkResults {
  r_threats : list Threat;
  summary : option Summary;
  components_found : list string;
  custom_findings : option nat;
}.

Section Modeler.
Context `{Regex}.

Record modeler : Type := mkModeler {
  world : fs;
  results : Results;
}.

Definition init (d : fs) : modeler := mkModeler d (mkResults [] None [] None).

Definition validate_target (self : modeler) : exn + unit :=
  if target_exists (world self) then inr tt
  else inl (ValueError ("Target path does not exist: " ++ target (world self))).

(** Scan Dart files to identify which security components are present. *)
Definition scan_components (self : modeler) : modeler :=
  let dart_files := rglob (world self) "*.dart" in
  let found_components : gset string :=
    for_each dart_files (fun dart_file found =>
      match fcontent dart_file with
      | None => found
      | Some content =>
          for_each component_patterns (fun cp found =>
            let '(comp, patterns) := cp in
            (* the first pattern that hits adds the component and breaks *)
            if any (fun pattern => re_search pattern false content) patterns
            then {[comp]} ∪ found else found) found
      end) ∅ in
  let r := results self in
  mkModeler (world self)
    (mkResults (r_threats r) (summary r) (sorted_set found_components)
       (custom_findings r)).

(** [self.results["threats"].append(asdict(threat))] for the threats of a model. *)
Definition append_model (m : ThreatModel) (ts : list Threat) : list Threat :=
  for_each (threats m) (fun t ts => ts ++ [t]) ts.

(** Apply BLE mesh threat catalog for detected components. *)
Definition apply_threat_catalog (self : modeler) : modeler :=
  let r := results self in
  let ts :=
    for_each (components_found r) (fun comp ts =>
      match lookup_model BLE_MESH_THREATS comp with
      | Some model => append_model model ts
      | None => ts
      end) (r_threats r) in
  (* Always include all threats if no components detected (conservative) *)
  let ts :=
    match components_found r with
    | [] => for_each (List.map snd BLE_MESH_THREATS) append_model ts
    | _ => ts
    end in
  mkModeler (world self)
    (mkResults ts (summary r) (components_found r) (custom_findings r)).

(** Scan for additional threat indicators in source code. *)
Definition check_custom_threats (self : modeler) : modeler :=
  let dart_files := rglob (world self) "*.dart" in
  let custom_threats :=
    for_each dart_files (fun dart_file custom =>
      match fcontent dart_file with
      | None => custom
      | Some content =>
          for_each risk_patterns (fun rp custom =>
            let matches := re_finditer (k_pattern rp) true content in
            for_each matches (fun start custom =>
              let line_num := count_nl (slice_to start content) + 1 in
              let rel_path := frel dart_file in
              custom ++ [mkThreat "Custom" (k_component rp) (k_desc rp)
                           (k_severity rp) "Review and fix"
                           (Some (rel_path ++ ":" ++ str_of_nat line_num)%string)])
              custom) custom
      end) [] in
  let r := results self in
  mkModeler (world self)
    (mkResults (r_threats r ++ custom_threats) (summary r) (components_found r)
       (Some (List.length custom_threats))).

Definition summary_step (t : Threat)
  (st : gmap string nat * gmap string nat) : gmap string nat * gmap string nat :=
  (incr (severity t) (fst st), incr (category t) (snd st)).

(** Generate the threat model report: only the summary is added. *)
Definition generate_report (self : modeler) : modeler :=
  let r := results self in
  let ts := r_threats r in
  (* Summary counts *)
  let '(by_sev, by_cat) := for_each ts summary_step (∅, ∅) in
  mkModeler (world self)
    (mkResults (r_threats r)
       (Some (mkSummary (List.length ts) by_sev by_cat (components_found r)))
       (components_found r) (custom_findings r)).

(** The results a run over an existing target returns. *)
Definition modelled (d : fs) : Results :=
  results (generate_report (check_custom_threats (apply_threat_catalog
    (scan_components (init d))))).

Definition run (d : fs) : outcome Results :=
  let self := init d in
  try_or_exit
    match validate_target self with
    | inl e => inl e
    | inr _ =>
        let self := scan_components self in
        let self := apply_threat_catalog self in
        let self := check_custom_threats self in
        let self := generate_report self in
        inr (results self)
    end.


End Modeler.

End ThreatModeler.

(* ===================================================================== *)
(** * Vocabulary of the properties *)
(* ===================================================================== *)


(** The entries of [l] that have the key [k], in the order of [l]. *)
Definition with_key {A K} `{EqDecision K} (key : A -> K) (k : K) (l : list A)
  : list A :=
  List.filter (fun x => bool_decide (key x = k)) l.

(** The number of entries of [l] that satisfy [p]. *)
Definition count_if {A} (p : A -> bool) (l : list A) : nat :=
  List.length (List.filter p l).

(** Is a table of pairs the graph of a function? *)
Definition functional_table (t : list (string * string)) : bool :=
  forallb (fun p =>
    forallb (fun q => implb (String.eqb (fst p) (fst q))
                            (String.eqb (snd p) (snd q))) t) t.

Section DedupLoop.
Context {A K : Type} `{Countable K} (key : A -> K).

(** The deduplication loops of the analyzers, for any key. *)
Definition dedup_step_of (f : A) (st : gset K * list A) : gset K * list A :=
  let '(seen, unique) := st in
  if decide (key f ∈ seen) then st
  else ({[key f]} ∪ seen, unique ++ [f]).

(** What such a loop appends, as a recursive function. *)
Fixpoint first_by_key (seen : gset K) (l : list A) : list A :=
  match l with
  | [] => []
  | x :: l' =>
      if decide (key x ∈ seen) then first_by_key seen l'
      else x :: first_by_key ({[key x]} ∪ seen) l'
  end.

End DedupLoop.

(** ** What each scan of the security auditor appends *)

Section AuditorEmits.
Context `{Regex}.
Import Py SecurityAuditor.

(** One rule on one numbered line of a Dart file. *)
Definition sa_line_hit (c : check_def) (rel : string) (il : nat * string)
  : list Finding :=
  let '(i, line) := il in
  if is_comment (strip line) then []
  else if re_search (c_pattern c) true line
  then [mkFinding (c_severity c) (c_name c) (c_desc c) rel i
          (slice_to 120 (strip line)) (c_rec c)]
  else [].

Definition sa_dart_file (checks : list check_def) (f : file) : list Finding :=
  match fcontent f with
  | None => []
  | Some content =>
      flat_map (fun c =>
        flat_map (sa_line_hit c (frel f)) (enumerate 1 (split_nl content)))
        checks
  end.

Definition sa_dart (d : fs) (flt : option string) : list Finding :=
  flat_map (sa_dart_file (_get_checks (init d flt)))
    (List.filter (is_source_file d) (rglob d "*.dart")).

(** One rule on one numbered line of a manifest. *)
Definition sa_manifest_hit (c : check_def) (rel : string) (il : nat * string)
  : list Finding :=
  let '(i, line) := il in
  if re_search (c_pattern c) true line
  then [mkFinding (c_severity c) (c_name c) (c_desc c) rel i
          (slice_to 120 (strip line)) (c_rec c)]
  else [].

Definition sa_manifest_file (f : file) : list Finding :=
  match fcontent f with
  | None => []
  | Some content =>
      flat_map (fun c =>
        flat_map (sa_manifest_hit c (frel f)) (enumerate 1 (split_nl content)))
        PERMISSION_CHECKS_ANDROID
  end.

Definition sa_chosen_manifests (d : fs) : list file :=
  let manifests := rglob d "AndroidManifest.xml" in
  let main_manifests :=
    List.filter (fun m => negb (contains "debug" (fstr d m))
                          && negb (contains "profile" (fstr d m))) manifests in
  match main_manifests with [] => manifests | _ => main_manifests end.

Definition sa_manifests (d : fs) (flt : option string) : list Finding :=
  if truthy flt && negb (eq_filter "permissions" flt) then []
  else flat_map sa_manifest_file (sa_chosen_manifests d).

Definition sa_plist_file (f : file) : list Finding :=
  match fcontent f with
  | None => []
  | Some content =>
      if contains "fetch" content && contains "bluetooth" content
      then [mkFinding "LOW" "ios-background-modes"
              "Multiple background modes enabled — verify all are necessary"
              (frel f) 0 "UIBackgroundModes: bluetooth + fetch"
              "Only enable background modes that are actively used"]
      else []
  end.

Definition sa_plists (d : fs) (flt : option string) : list Finding :=
  if truthy flt && negb (eq_filter "permissions" flt) then []
  else flat_map sa_plist_file (rglob d "Info.plist").

Definition sa_pubspec_text (content : string) : list Finding :=
  (if contains "http:" content && negb (contains "http_cache" content)
   then [http_dependency] else [])
  ++ (if negb (contains "sodium_libs" content) then [missing_sodium] else [])
  ++ (if negb (contains "flutter_secure_storage" content)
      then [missing_secure_storage] else []).

Definition sa_pubspec (d : fs) (flt : option string) : list Finding :=
  if truthy flt && negb (eq_filter "crypto" flt) then []
  else
    match match lookup_child d "pubspec.yaml" with
          | Some p => Some p
          | None => parent_pubspec d
          end with
    | Some (Some content) => sa_pubspec_text content
    | _ => []
    end.

End AuditorEmits.

(** ** What each audit of the BLE analyzer appends *)

Section AnalyzerEmits.
Context `{Regex}.
Import Py BLE.

(** One rule on one numbered line. *)
Definition ble_line_hit (cat : string) (r : rule) (rel : string)
  (il : nat * string) : list BLEFinding :=
  let '(i, line) := il in
  if re_search (p_pattern r) true line
  then [mkFinding (p_severity r) cat (p_desc r) rel i
          (slice_to 120 (strip line)) (p_rec r)]
  else [].

Definition ble_scan_file (patterns : list rule) (cat : string) (f : file)
  : list BLEFinding :=
  match fcontent f with
  | None => []
  | Some content =>
      flat_map (fun r =>
        flat_map (ble_line_hit cat r (frel f)) (enumerate 1 (split_nl content)))
        patterns
  end.

Definition ble_scan (patterns : list rule) (cat : string) (d : fs)
  : list BLEFinding :=
  flat_map (ble_scan_file patterns cat) (_scan_dart_files (init d)).

(** One handler pattern on one numbered line of a file with these lines. *)
Definition ble_handler_hit (lines : list string) (pattern rel : string)
  (il : nat * string) : list BLEFinding :=
  let '(i, line) := il in
  if re_search pattern true line
  then if negb (has_validation lines i)
       then [unvalidated_handler rel i line] else []
  else [].

Definition ble_validation_file (f : file) : list BLEFinding :=
  match fcontent f with
  | None => []
  | Some content =>
      let lines := split_nl content in
      flat_map (fun hp =>
        flat_map (ble_handler_hit lines (fst hp) (frel f)) (enumerate 1 lines))
        handler_patterns
  end.

Definition ble_validation (d : fs) : list BLEFinding :=
  flat_map ble_validation_file (_scan_dart_files (init d)).

Definition ble_manifest_file (d : fs) (f : file) : list BLEFinding :=
  if contains "debug" (fstr d f) || contains "profile" (fstr d f) then []
  else
    match fcontent f with
    | None => []
    | Some content =>
        (if contains "ACCESS_FINE_LOCATION" content
            && contains "BLUETOOTH_SCAN" content
         then [mkFinding "LOW" "config"
                 "Both FINE_LOCATION and BLUETOOTH_SCAN — FINE_LOCATION needed only for Android <12"
                 (frel f) 0 "ACCESS_FINE_LOCATION + BLUETOOTH_SCAN"
                 "Consider conditional permission request based on API level"]
         else [])
        ++ (if negb (contains "BLUETOOTH_ADVERTISE" content)
               && contains "ble_peripheral" (target d)
            then [mkFinding "MED" "config"
                    "BLUETOOTH_ADVERTISE permission missing but app uses ble_peripheral"
                    (frel f) 0 "Missing BLUETOOTH_ADVERTISE"
                    "Add BLUETOOTH_ADVERTISE permission for Android 12+"]
            else [])
    end.

Definition ble_plist_file (f : file) : list BLEFinding :=
  match fcontent f with
  | None => []
  | Some content =>
      if negb (contains "NSBluetoothAlwaysUsageDescription" content)
      then [mkFinding "MED" "config"
              "Missing NSBluetoothAlwaysUsageDescription — iOS may reject BLE access"
              (frel f) 0 "Missing NSBluetoothAlwaysUsageDescription"
              "Add Bluetooth usage description to Info.plist"]
      else []
  end.

Definition ble_permissions (d : fs) : list BLEFinding :=
  flat_map (ble_manifest_file d) (rglob d "AndroidManifest.xml")
  ++ flat_map ble_plist_file (rglob d "Info.plist").

End AnalyzerEmits.

(** ** What each step of the threat modeler appends *)

Section ModelerEmits.
Context `{Regex}.
Import Py ThreatModeler.

(** The component keys the detector reports for a tree. *)
Definition tm_components (d : fs) : list string :=
  components_found (results (scan_components (init d))).

(** The catalog threats for a list of detected components. *)
Definition tm_catalog (comps : list string) : list Threat :=
  flat_map (fun comp =>
    match lookup_model BLE_MESH_THREATS comp with
    | Some model => threats model
    | None => []
    end) comps
  ++ match comps with
     | [] => flat_map threats (List.map snd BLE_MESH_THREATS)
     | _ => []
     end.

(** The custom threat of one match of one risk pattern. *)
Definition tm_custom_threat (rel content : string) (rp : risk) (start : nat)
  : Threat :=
  mkThreat "Custom" (k_component rp) (k_desc rp) (k_severity rp)
    "Review and fix"
    (Some (rel ++ ":" ++ str_of_nat (count_nl (slice_to start content) + 1))%string).

Definition tm_custom_file (f : file) : list Threat :=
  match fcontent f with
  | None => []
  | Some content =>
      flat_map (fun rp =>
        List.map (tm_custom_threat (frel f) content rp)
          (re_finditer (k_pattern rp) true content)) risk_patterns
  end.

Definition tm_custom (d : fs) : list Threat :=
  flat_map tm_custom_file (rglob d "*.dart").

End ModelerEmits.

(** ** The rules behind the findings *)

Section Origins.
Import Py.

(** Every rule table of the security auditor. *)
Definition sa_all_checks : list SecurityAuditor.check_def :=
  SecurityAuditor.CRYPTO_CHECKS ++ SecurityAuditor.STORAGE_CHECKS
  ++ SecurityAuditor.LOGGING_CHECKS ++ SecurityAuditor.PROTOCOL_CHECKS
  ++ SecurityAuditor.PERMISSION_CHECKS_ANDROID.

(** [x] carries the severity, name, description and recommendation of [c]. *)
Definition sa_from_rule (c : SecurityAuditor.check_def)
  (x : SecurityAuditor.Finding) : Prop :=
  SecurityAuditor.severity x = SecurityAuditor.c_severity c
  /\ SecurityAuditor.check x = SecurityAuditor.c_name c
  /\ SecurityAuditor.description x = SecurityAuditor.c_desc c
  /\ SecurityAuditor.recommendation x = SecurityAuditor.c_rec c.

(** The three findings of the pubspec scan. *)
Definition sa_pubspec_findings : list SecurityAuditor.Finding :=
  [SecurityAuditor.http_dependency; SecurityAuditor.missing_sodium;
   SecurityAuditor.missing_secure_storage].

(** The severity that goes with each check id of the security auditor. *)
Definition sa_check_severity : list (string * string) :=
  List.map (fun c => (SecurityAuditor.c_name c, SecurityAuditor.c_severity c))
    sa_all_checks
  ++ ("ios-background-modes", "LOW")
  :: List.map (fun x => (SecurityAuditor.check x, SecurityAuditor.severity x))
       sa_pubspec_findings.

(** Every rule table of the BLE analyzer. *)
Definition ble_all_rules : list BLE.rule :=
  BLE.advertising_patterns ++ BLE.gatt_patterns ++ BLE.connection_patterns.

(** The severity that goes with each description of the BLE analyzer. *)
Definition ble_description_severity : list (string * string) :=
  List.map (fun r => (BLE.p_desc r, BLE.p_severity r)) ble_all_rules
  ++ [ (BLE.description (BLE.unvalidated_handler "" 0 ""), "HIGH");
       ("Both FINE_LOCATION and BLUETOOTH_SCAN — FINE_LOCATION needed only for Android <12", "LOW");
       ("BLUETOOTH_ADVERTISE permission missing but app uses ble_peripheral", "MED");
       ("Missing NSBluetoothAlwaysUsageDescription — iOS may reject BLE access", "MED") ].

(** [x] comes from a rule or from a file-level scan of the category [c]:
    a rule of the tables tagged [c]; the [Info.plist] check, which runs with
    the Android manifest rules under "permissions"; or one of the three
    pubspec checks, which run under "crypto". *)
Definition sa_from_category (c : string) (x : SecurityAuditor.Finding) : Prop :=
  (exists r, In r sa_all_checks /\ SecurityAuditor.c_category r = c
             /\ sa_from_rule r x)
  \/ (c = "permissions" /\ SecurityAuditor.check x = "ios-background-modes")
  \/ (c = "crypto" /\ In x sa_pubspec_findings).

(** [str(f)] shows a test directory or a generated file: what
    [audit_dart_files] excludes, and what [_scan_dart_files] excludes. *)
Definition sa_excluded (d : fs) (f : file) : Prop :=
  contains "/test/" (replace_backslash (fstr d f)) = true
  \/ contains ".g.dart" (fstr d f) = true
  \/ contains ".freezed.dart" (fstr d f) = true.

Definition ble_excluded (d : fs) (f : file) : Prop :=
  contains "/test/" (replace_backslash (fstr d f)) = true
  \/ contains ".g.dart" (fstr d f) = true.

(** [f] is one of the files [rglob("*.dart")] yields. *)
Definition is_dart (f : file) : Prop :=
  glob_match "*.dart" (path_name (frel f)) = true.

(** [x] is an unvalidated-handler finding at line [i] of the file [rel]:
    only the data-validation audit makes findings of category "transport". *)
Definition ble_unvalidated_at (rel : string) (i : nat) (x : BLE.BLEFinding) : bool :=
  String.eqb (BLE.category x) "transport"
  && String.eqb (BLE.file_path x) rel
  && (BLE.line x =? i).

(** Every pattern of every table of the three analyzers. *)
Definition all_patterns : list string :=
  List.map SecurityAuditor.c_pattern sa_all_checks
  ++ List.map BLE.p_pattern ble_all_rules
  ++ List.map fst BLE.handler_patterns ++ BLE.validation_patterns
  ++ flat_map snd ThreatModeler.component_patterns
  ++ List.map ThreatModeler.k_pattern ThreatModeler.risk_patterns.

(** The four severities of a finding. *)
Definition finding_severities : list string := ["CRIT"; "HIGH"; "MED"; "LOW"].

(** The categories the [--check] option accepts. *)
Definition known_categories : list string :=
  ["crypto"; "storage"; "logging"; "protocol"; "permissions"].

End Origins.

(** ** Threats that count as the same, and concrete trees *)

Section ConcreteInputs.
Import Py.

(** The key under which two threats are the same threat: the description
    and the location (for a custom threat, [file:line]). *)
Definition tm_key (t : ThreatModeler.Threat) : string * option string :=
  (ThreatModeler.description t, ThreatModeler.file_path t).

(** [lib/] with a single file in which no component pattern occurs. *)
Definition tree_plain : fs :=
  FS "lib" true [File "main.dart" (Some "void main() {}")] None.

(** [lib/] with a file that calls [Random()] twice on its first line. *)
Definition tree_two_randoms : fs :=
  FS "lib" true [File "a.dart" (Some "Random() Random()")] None.

(** [n] spaces. *)
Definition indent (n : nat) : string := string_of_list_ascii (repeat " "%char n).

(** [lib/] with a file whose only line is a comment that mentions
    [Random()] and an advertising name. *)
Definition comment_line : string := "// final r = Random(); localName: 'Fluxon'".
Definition comment_file : file := File "a.dart" (Some comment_line).
Definition tree_comment : fs := FS "lib" true [comment_file] None.

(** [lib/] with a file whose only line calls [Random()] after 125 spaces. *)
Definition indented_line : string := indent 125 ++ "Random()".
Definition tree_indented : fs :=
  FS "lib" true [File "a.dart" (Some indented_line)] None.

(** [lib/] with a file whose only line is 153 characters long. *)
Definition long_line : string :=
  "final r = Random(); // " ++ string_of_list_ascii (repeat "x"%char 130).
Definition long_file : file := File "a.dart" (Some long_line).
Definition tree_long : fs := FS "lib" true [long_file] None.

(** [lib/] with a file that handles received data without a length check. *)
Definition handler_line : string := "void onData(List<int> data) {".
Definition handler_text : string := handler_line ++ nl ++ "}".
Definition handler_file : file := File "h.dart" (Some handler_text).
Definition tree_handler : fs := FS "lib" true [handler_file] None.

(** [lib/] with a test file that calls [Random()]. *)
Definition test_file : file := File "test/a.dart" (Some "Random()").
Definition tree_test_file : fs := FS "lib" true [test_file] None.

End ConcreteInputs.

(* ===================================================================== *)
(** * Further vocabulary *)
(* ===================================================================== *)

(** ** Counting by a heading *)

(** The counting loop of the summaries, for one heading. *)
Definition count_by {A} (h : A -> string) (l : list A) (d : gmap string nat)
  : gmap string nat :=
  Py.for_each l (fun x d => Py.incr (h x) d) d.

(** The number of entries of [l] under the heading [k]. *)
Definition occurrences {A} (h : A -> string) (k : string) (l : list A) : nat :=
  count_if (fun x => String.eqb (h x) k) l.


(** ** The category of a finding of the security auditor *)

(** The category that goes with each check id: the sixth field of a rule of
    the tables; "permissions" for the [Info.plist] check and "crypto" for the
    pubspec checks, the filters under which the code runs them. *)
Definition sa_check_category : list (string * string) :=
  List.map (fun c => (SecurityAuditor.c_name c, SecurityAuditor.c_category c))
    sa_all_checks
  ++ ("ios-background-modes", "permissions")
  :: List.map (fun x => (SecurityAuditor.check x, "crypto")) sa_pubspec_findings.

Definition sa_category (x : SecurityAuditor.Finding) : option string :=
  option_map snd
    (List.find (fun p => String.eqb (fst p) (SecurityAuditor.check x))
       sa_check_category).

Definition sa_in_category (c : string) (x : SecurityAuditor.Finding) : bool :=
  match sa_category x with
  | Some c' => String.eqb c' c
  | None => false
  end.


(** ** Manifests *)

(** The test of [audit_android_manifest] for a main manifest:
    ["debug" not in str(m) and "profile" not in str(m)]. *)
Definition sa_main_manifest (d : Py.fs) (m : Py.file) : bool :=
  negb (Py.contains "debug" (Py.fstr d m))
  && negb (Py.contains "profile" (Py.fstr d m)).

(** [lib/] with a debuggable main manifest, a debug manifest that allows
    backups, a property list and two Dart files. *)
Definition manifest_main : Py.file :=
  Py.File "android/app/src/main/AndroidManifest.xml"
    (Some ("<application android:debuggable=" ++ Py.dq ++ "true" ++ Py.dq ++ ">")%string).
Definition manifest_debug : Py.file :=
  Py.File "android/app/src/debug/AndroidManifest.xml"
    (Some ("<application android:allowBackup=" ++ Py.dq ++ "true" ++ Py.dq ++ ">")%string).
Definition tree_app : Py.fs :=
  Py.FS "lib" true
    [ Py.File "a.dart" (Some "final r = Random();");
      Py.File "ble/adv.dart" (Some "localName: 'Fluxon',");
      manifest_main; manifest_debug;
      Py.File "ios/Runner/Info.plist" (Some "fetch bluetooth") ]
    None.

(** [lib/] with a debug manifest only. *)
Definition tree_debug_only : Py.fs := Py.FS "lib" true [manifest_debug] None.

(** [lib/] with a file that imports the sodium bindings. *)
Definition tree_crypto : Py.fs :=
  Py.FS "lib" true [Py.File "c.dart" (Some "import 'package:sodium/sodium.dart';")] None.

(** [lib/] whose own [pubspec.yaml] cannot be read, below a directory whose
    [pubspec.yaml] lists no dependency. *)
Definition tree_pubspec_unreadable : Py.fs :=
  Py.FS "lib" true [Py.File "pubspec.yaml" None] (Some (Some "name: app")).

(** [lib/] without a [pubspec.yaml], below a directory whose [pubspec.yaml]
    depends on [sodium_libs] only. *)
Definition tree_parent_pubspec : Py.fs :=
  Py.FS "lib" true [Py.File "main.dart" (Some "void main() {}")]
    (Some (Some "dependencies: sodium_libs: ^2.0.0")).


(* ===================================================================== *)
(** * ble_attack_surface.py: the configuration extraction *)
(* ===================================================================== *)

(** What [extract_ble_config] uses of Python's [re]:
    [re_finditer_group1 pattern text] lists the pairs of [m.start()] and
    [m.group(1)] for the matches [m] of
    [re.compile(pattern).finditer(text)], in order. *)
Class RegexGroups : Type := {
  re_finditer_group1 : string -> string -> list (nat * string);
}.

Module BLEConfig.
Import Py.

(** An entry of [ble_config["service_uuids"]] and of
    [ble_config["characteristic_uuids"]]: the dictionary with the keys
    "uuid", "file" and "line". *)
Record uuid_info : Type := mkUuid {
  uuid : string;
  u_file : string;
  u_line : nat;
}.

(** [self.ble_config]; only the first two lists are ever appended to. *)
Record ble_config : Type := mkConfig {
  service_uuids : list uuid_info;
  characteristic_uuids : list uuid_info;
  advertising_data : list string;
  connection_params : list string;
  scan_settings : list string;
}.

(** The value [__init__] gives it. *)
Definition init_config : ble_config := mkConfig [] [] [] [] [].

Definition uuid_pattern : string :=
  "['\" ++ dq ++ "]([0-9a-fA-F]{8}-[0-9a-fA-F]{4}-[0-9a-fA-F]{4}-[0-9a-fA-F]{4}-[0-9a-fA-F]{12})['\"
  ++ dq ++ "]".

(** [s.upper()] for a string of ASCII characters, which the group of a match
    of [uuid_pattern] is (hexadecimal digits and dashes). *)
Fixpoint str_upper (s : string) : string :=
  match s with
  | EmptyString => EmptyString
  | String c s' => String (upper c) (str_upper s')
  end.

(** [c.lower()] for a character below 256: the ASCII capitals and the
    capitals of Latin-1 (192 to 222, the multiplication sign 215 apart). *)
Definition lower_chr (c : ascii) : ascii :=
  let n := ord c in
  if ((65 <=? n) && (n <=? 90))
     || ((192 <=? n) && (n <=? 222) && negb (n =? 215))
  then chr (n + 32) else c.

(** [s.lower()] *)
Fixpoint str_lower (s : string) : string :=
  match s with
  | EmptyString => EmptyString
  | String c s' => String (lower_chr c) (str_lower s')
  end.

(** What can end [run] early: the [ValueError] of [validate_target], and the
    [IndexError] of an index past the end of a list. *)
Inductive error : Type :=
| Raised (e : exn)
| IndexError.

(** A [for x in xs: body] loop whose body may raise. *)
Fixpoint for_each_err {A S : Type} (xs : list A) (body : A -> S -> error + S)
  (s : S) : error + S :=
  match xs with
  | [] => inr s
  | x :: xs' =>
      match body x s with
      | inl e => inl e
      | inr s' => for_each_err xs' body s'
      end
  end.

(** [self.ble_config["service_uuids"].append(entry)] *)
Definition add_service (entry : uuid_info) (cfg : ble_config) : ble_config :=
  mkConfig (service_uuids cfg ++ [entry]) (characteristic_uuids cfg)
    (advertising_data cfg) (connection_params cfg) (scan_settings cfg).

(** [self.ble_config["characteristic_uuids"].append(entry)] *)
Definition add_characteristic (entry : uuid_info) (cfg : ble_config) : ble_config :=
  mkConfig (service_uuids cfg) (characteristic_uuids cfg ++ [entry])
    (advertising_data cfg) (connection_params cfg) (scan_settings cfg).

(** The body of the loop over the matches of one file. *)
Definition record_uuid (content rel_path : string) (m : nat * string)
  (cfg : ble_config) : error + ble_config :=
  let '(start, group1) := m in
  let uuid := str_upper group1 in
  let line_num := count_nl (slice_to start content) + 1 in
  (* Classify UUID *)
  match (if 0 <? line_num then split_nl content !! (line_num - 1)
         else Some EmptyString) with
  | None => inl IndexError
  | Some context_line =>
      let entry := mkUuid uuid rel_path line_num in
      if contains "service" (str_lower context_line)
      then inr (add_service entry cfg)
      else if contains "characteristic" (str_lower context_line)
      then inr (add_characteristic entry cfg)
      else inr (add_service entry cfg)
  end.

Section Extract.
Context `{RegexGroups}.

(** Extract BLE configuration from source code. A file that cannot be read
    is passed over; an [IndexError] would not be caught here. *)
Definition extract_ble_config (d : fs) (cfg : ble_config) : error + ble_config :=
  let dart_files := BLE._scan_dart_files (BLE.init d) in
  for_each_err dart_files (fun dart_file cfg =>
    match fcontent dart_file with
    | None => inr cfg
    | Some content =>
        for_each_err (re_finditer_group1 uuid_pattern content)
          (record_uuid content (frel dart_file)) cfg
    end) cfg.

Context `{Regex}.

(** [run], with the extraction step and the [ble_config] entry of the
    report: [try: ... except Exception: sys.exit(1)]. *)
Definition run (d : fs) : outcome (BLE.Report * ble_config) :=
  let self := BLE.init d in
  match
    match BLE.validate_target self with
    | inl e => inl (Raised e)
    | inr _ =>
        match extract_ble_config d init_config with
        | inl e => inl e
        | inr cfg =>
            let self := BLE.audit_advertising self in
            let self := BLE.audit_gatt_permissions self in
            let self := BLE.audit_connection_security self in
            let self := BLE.audit_data_validation self in
            let self := BLE.audit_ble_permissions self in
            inr (snd (BLE.generate_report self), cfg)
        end
    end
  with
  | inr a => Return a
  | inl _ => SysExit 1
  end.

End Extract.

(** The matches of one file, as entries, with the line each one lies in. *)
Definition entry_of (content rel_path : string) (m : nat * string) : uuid_info :=
  mkUuid (str_upper (snd m)) rel_path (count_nl (slice_to (fst m) content) + 1).

Definition line_of (content : string) (m : nat * string) : string :=
  default EmptyString (split_nl content !! count_nl (slice_to (fst m) content)).

(** The test that sends an entry to [characteristic_uuids]. *)
Definition is_characteristic (context_line : string) : bool :=
  negb (contains "service" (str_lower context_line))
  && contains "characteristic" (str_lower context_line).

End BLEConfig.

(** A reference implementation of [RegexGroups] for patterns made of one
    capturing group between two atoms that match one character each, as
    [BLEConfig.uuid_pattern] is: the group is the match without its first and
    last character. *)
Module ReGroups.
Import Py.

Fixpoint finditer_spans_from (fuel : nat) (r : Re.re) (ic : bool)
  (prev : option ascii) (s : list ascii) (pos : nat) : list (nat * nat) :=
  match fuel with
  | 0 => []
  | S fuel' =>
      match Re.search_from r ic prev s 0 with
      | None => []
      | Some (skipped, len) =>
          let adv := skipped + Nat.max len 1 in
          (pos + skipped, len)
            :: (if List.length s <? adv then []
                else finditer_spans_from fuel' r ic
                       (Re.last_of prev (firstn adv s)) (skipn adv s) (pos + adv))
      end
  end.

Definition finditer_group1 (pattern text : string) : list (nat * string) :=
  match Re.compile pattern with
  | Some r =>
      let s := list_ascii_of_string text in
      List.map (fun sp => (fst sp, substring (fst sp + 1) (snd sp - 2) text))
        (finditer_spans_from (S (List.length s)) r false None s 0)
  | None => []
  end.

#[export] Instance py_groups : RegexGroups := {|
  re_finditer_group1 := finditer_group1;
|}.

End ReGroups.

Section ConfigEmits.
Context `{RegexGroups}.
Import Py BLEConfig.

(** The entries one file adds to [characteristic_uuids] ([to_char] true) or
    to [service_uuids] ([to_char] false). *)
Definition file_entries (to_char : bool) (f : file) : list uuid_info :=
  match fcontent f with
  | None => []
  | Some content =>
      List.map (entry_of content (frel f))
        (List.filter
           (fun m => Bool.eqb (is_characteristic (line_of content m)) to_char)
           (re_finditer_group1 uuid_pattern content))
  end.

End ConfigEmits.

(** [lib/] with a file that names a service UUID and a characteristic UUID. *)
Definition uuid_text : string :=
  "final serviceUuid = '0000180f-0000-1000-8000-00805f9b34fb';" ++ Py.nl
  ++ "final rx = '6e400002-b5a3-f393-e0a9-e50e24dcca9e'; // Characteristic".
Definition tree_uuids : Py.fs :=
  Py.FS "lib" true [Py.File "ble/uuids.dart" (Some uuid_text)] None.


(* ===================================================================== *)
(** * security_auditor.py: what [generate_report] prints *)
(* ===================================================================== *)

Module AuditorConsole.
Import Py SecurityAuditor.

(** The calls of [print] in [generate_report], one constructor for each. *)
Inductive out_line : Type :=
| Banner                                        (* "\n" + "=" * 60 *)
| Title                                         (* "SECURITY AUDIT REPORT" *)
| Rule                                          (* "=" * 60 *)
| Target (t : string)                           (* f"Target: {self.target_path}" *)
| Total (n : nat)                               (* f"Total findings: {len(self.findings)}" *)
| Blank                                         (* print() *)
| Breakdown (icon sev : string) (count : nat)   (* f"  {icon} [{sev}] {count} findings" *)
| Dashes                                        (* "-" * 60 *)
| SeverityHeader (sev : string)                 (* f"\n--- [{current_severity}] ---" *)
| FindingHead (check description : string)      (* f"\n  {f.check}: {f.description}" *)
| FindingFile (file_path : string) (line : nat) (* f"  File: {f.file_path}:{f.line}" *)
| FindingCode (code_snippet : string)           (* f"  Code: {f.code_snippet}" *)
| FindingFix (recommendation : string)          (* f"  Fix:  {f.recommendation}" *)
| Clean.                                        (* "\nNo findings. Clean scan." *)

(** [c * n] for a one-character string [c]. *)
Definition times (c : ascii) (n : nat) : string :=
  string_of_list_ascii (repeat c n).

(** The text each call prints. *)
Definition render (l : out_line) : string :=
  match l with
  | Banner => nl ++ times "="%char 60
  | Title => "SECURITY AUDIT REPORT"
  | Rule => times "="%char 60
  | Target t => "Target: " ++ t
  | Total n => "Total findings: " ++ str_of_nat n
  | Blank => ""
  | Breakdown icon sev count =>
      "  " ++ icon ++ " [" ++ sev ++ "] " ++ str_of_nat count ++ " findings"
  | Dashes => times "-"%char 60
  | SeverityHeader sev => nl ++ "--- [" ++ sev ++ "] ---"
  | FindingHead check description => nl ++ "  " ++ check ++ ": " ++ description
  | FindingFile file_path line => "  File: " ++ file_path ++ ":" ++ str_of_nat line
  | FindingCode code_snippet => "  Code: " ++ code_snippet
  | FindingFix recommendation => "  Fix:  " ++ recommendation
  | Clean => nl ++ "No findings. Clean scan."
  end.

(** ["!!!" if sev == "CRIT" else "! " if sev == "HIGH" else "  "] *)
Definition icon_of (sev : string) : string :=
  if String.eqb sev "CRIT" then "!!!"
  else if String.eqb sev "HIGH" then "! "
  else "  ".

(** The loop over the four severities. *)
Definition print_breakdown (by_severity : gmap string nat) (out : list out_line)
  : list out_line :=
  for_each ["CRIT"; "HIGH"; "MED"; "LOW"] (fun sev out =>
    let count := default 0 (by_severity !! sev) in
    if 0 <? count then out ++ [Breakdown (icon_of sev) sev count] else out) out.

(** [f.severity != current_severity], where [current_severity] starts as
    [None]. *)
Definition differs (sev : string) (current_severity : option string) : bool :=
  match current_severity with
  | Some c => negb (String.eqb sev c)
  | None => true
  end.

(** The body of the loop over the findings, on the state
    [(current_severity, printed lines)]. *)
Definition print_finding (f : Finding) (st : option string * list out_line)
  : option string * list out_line :=
  let st :=
    if differs (severity f) (fst st)
    then (Some (severity f), snd st ++ [SeverityHeader (severity f)])
    else st in
  (fst st,
   snd st ++ [FindingHead (check f) (description f);
              FindingFile (file_path f) (line f);
              FindingCode (code_snippet f);
              FindingFix (recommendation f)]).

(** The lines printed for a target, the findings left by the deduplication
    and the severity counts. *)
Definition print_report (target_path : string) (findings : list Finding)
  (by_severity : gmap string nat) : list out_line :=
  let out := [Banner; Title; Rule; Target target_path;
              Total (List.length findings); Blank] in
  let out := print_breakdown by_severity out in
  let out :=
    match findings with
    | _ :: _ =>
        snd (for_each findings print_finding (None, out ++ [Blank; Dashes]))
    | [] => out ++ [Clean]
    end in
  out ++ [Banner].

(** What [generate_report] prints beside the report it returns. *)
Definition console (R : Report) : list out_line :=
  print_report (r_target R) (r_findings R) (by_severity R).

Definition stdout (R : Report) : list string := List.map render (console R).

End AuditorConsole.

Section ConsoleVocabulary.
Import AuditorConsole.

(** The severities of the severity headers among the lines, in order. *)
Definition headers (ls : list out_line) : list string :=
  flat_map (fun l => match l with SeverityHeader s => [s] | _ => [] end) ls.

(** The severities and counts of the summary lines, in order. *)
Definition breakdown (ls : list out_line) : list (string * nat) :=
  flat_map (fun l => match l with Breakdown _ s n => [(s, n)] | _ => [] end) ls.

(** The headers the loop over the findings prints. *)
Fixpoint headers_of {A} (sev : A -> string) (current : option string)
  (l : list A) : list string :=
  match l with
  | [] => []
  | x :: l' =>
      (if differs (sev x) current then [sev x] else [])
      ++ headers_of sev (Some (sev x)) l'
  end.

End ConsoleVocabulary.


(** ** The findings of the platform configuration checks *)

(** The findings [audit_ble_permissions] makes for a manifest and for a
    property list with the relative path [rel], and the finding
    [audit_ios_plist] makes. *)
Definition ble_fine_location (rel : string) : BLE.BLEFinding :=
  BLE.mkFinding "LOW" "config"
    "Both FINE_LOCATION and BLUETOOTH_SCAN — FINE_LOCATION needed only for Android <12"
    rel 0 "ACCESS_FINE_LOCATION + BLUETOOTH_SCAN"
    "Consider conditional permission request based on API level".

Definition ble_missing_advertise (rel : string) : BLE.BLEFinding :=
  BLE.mkFinding "MED" "config"
    "BLUETOOTH_ADVERTISE permission missing but app uses ble_peripheral"
    rel 0 "Missing BLUETOOTH_ADVERTISE"
    "Add BLUETOOTH_ADVERTISE permission for Android 12+".

Definition ble_missing_usage_description (rel : string) : BLE.BLEFinding :=
  BLE.mkFinding "MED" "config"
    "Missing NSBluetoothAlwaysUsageDescription — iOS may reject BLE access"
    rel 0 "Missing NSBluetoothAlwaysUsageDescription"
    "Add Bluetooth usage description to Info.plist".

Definition sa_background_modes (rel : string) : SecurityAuditor.Finding :=
  SecurityAuditor.mkFinding "LOW" "ios-background-modes"
    "Multiple background modes enabled — verify all are necessary"
    rel 0 "UIBackgroundModes: bluetooth + fetch"
    "Only enable background modes that are actively used".

(** [ble_peripheral/lib]: a target whose path names the peripheral plugin,
    with a manifest that asks for scanning and fine location, and a bare
    property list. *)
Definition manifest_scan : Py.file :=
  Py.File "android/app/src/main/AndroidManifest.xml"
    (Some "<uses-permission ACCESS_FINE_LOCATION/> <uses-permission BLUETOOTH_SCAN/>").
Definition plist_bare : Py.file :=
  Py.File "ios/Runner/Info.plist" (Some "<dict></dict>").
Definition tree_peripheral : Py.fs :=
  Py.FS "ble_peripheral/lib" true [manifest_scan; plist_bare] None.

(* ===================================================================== *)
(** * Loops, sorting, deduplication and counting: general facts *)
(* ===================================================================== *)

Section Loops.
Context {A S B : Type}.

(** A loop whose body only appends to the projection [proj] of the state
    appends the concatenation of what each round appends. *)
Lemma for_each_emits (proj : S -> list B) (body : A -> S -> S)
  (g : A -> list B) (xs : list A) :
  (forall x st, proj (body x st) = proj st ++ g x) ->
  forall st, proj (Py.for_each xs body st) = proj st ++ flat_map g xs.
Proof.
  intros Hbody. unfold Py.for_each.
  induction xs as [|x xs IH]; intros st; simpl.
  - now rewrite app_nil_r.
  - rewrite IH, Hbody. now rewrite <- app_assoc.
Qed.

(** A loop whose body leaves a projection of the state alone leaves it alone. *)
Lemma for_each_keeps {C} (proj : S -> C) (body : A -> S -> S) (xs : list A) :
  (forall x st, proj (body x st) = proj st) ->
  forall st, proj (Py.for_each xs body st) = proj st.
Proof.
  intros Hbody. unfold Py.for_each.
  induction xs as [|x xs IH]; intros st; simpl; [reflexivity|].
  now rewrite IH, Hbody.
Qed.

End Loops.

Lemma flat_map_singleton {A B} (f : A -> B) (l : list A) :
  flat_map (fun x => [f x]) l = List.map f l.
Proof. induction l as [|x l IH]; simpl; [reflexivity|now rewrite IH]. Qed.

Section Sorting.
Context {A : Type} (rank : A -> nat).

Local Abbreviation le_rank := (fun x y : A => rank x <= rank y).

Lemma insert_by_In x y l : In y (Py.insert_by rank x l) <-> y = x \/ In y l.
Proof.
  induction l as [|z l IH]; simpl.
  - intuition.
  - destruct (rank x <=? rank z); simpl; [intuition|].
    rewrite IH. intuition.
Qed.

Lemma sort_by_In y l : In y (Py.sort_by rank l) <-> In y l.
Proof.
  unfold Py.sort_by. induction l as [|x l IH]; simpl; [reflexivity|].
  rewrite insert_by_In, IH. intuition.
Qed.

Lemma sort_by_length l : List.length (Py.sort_by rank l) = List.length l.
Proof.
  unfold Py.sort_by. induction l as [|x l IH]; simpl; [reflexivity|].
  rewrite <- IH. generalize (fold_right (Py.insert_by rank) [] l) as s.
  induction s as [|z s IHs]; simpl; [reflexivity|].
  destruct (rank x <=? rank z); simpl; [reflexivity|]. now rewrite IHs.
Qed.

Lemma insert_by_sorted x l :
  StronglySorted le_rank l -> StronglySorted le_rank (Py.insert_by rank x l).
Proof.
  induction 1 as [|z l Hs IH Hz]; simpl.
  - constructor; [constructor|constructor].
  - destruct (rank x <=? rank z) eqn:E.
    + apply Nat.leb_le in E. constructor.
      * now constructor.
      * constructor; [exact E|].
        rewrite List.Forall_forall in Hz |- *. intros w Hw.
        apply Hz in Hw. lia.
    + apply Nat.leb_gt in E. constructor; [exact IH|].
      rewrite List.Forall_forall in Hz |- *. intros w Hw.
      apply insert_by_In in Hw. destruct Hw as [->|Hw]; [lia|].
      now apply Hz.
Qed.

Lemma sort_by_sorted l : StronglySorted le_rank (Py.sort_by rank l).
Proof.
  unfold Py.sort_by. induction l as [|x l IH]; simpl.
  - constructor.
  - now apply insert_by_sorted.
Qed.

(** Sorting a list that is already in order changes nothing. *)
Lemma sort_by_sorted_id l : StronglySorted le_rank l -> Py.sort_by rank l = l.
Proof.
  unfold Py.sort_by. induction 1 as [|z l Hs IH Hz]; simpl; [reflexivity|].
  rewrite IH. destruct l as [|w l]; simpl; [reflexivity|].
  inversion Hz as [|? ? Hw _]; subst.
  apply Nat.leb_le in Hw. now rewrite Hw.
Qed.

(** Stability: the sort keeps the order of the entries that [p] selects. *)
Lemma filter_insert_by (p : A -> bool) x l :
  StronglySorted le_rank l ->
  List.filter p (Py.insert_by rank x l)
  = if p x then Py.insert_by rank x (List.filter p l) else List.filter p l.
Proof.
  induction 1 as [|z l Hs IH Hz]; simpl.
  - now destruct (p x).
  - destruct (rank x <=? rank z) eqn:E; simpl.
    + destruct (p x) eqn:Px; [|reflexivity].
      destruct (p z) eqn:Pz; simpl.
      * now rewrite E.
      * destruct (List.filter p l) as [|w l'] eqn:Hf; simpl; [reflexivity|].
        assert (Hw : In w l).
        { apply (proj1 (filter_In p w l)). rewrite Hf. now left. }
        rewrite List.Forall_forall in Hz. apply Hz in Hw.
        apply Nat.leb_le in E.
        assert (Hle : (rank x <=? rank w) = true) by (apply Nat.leb_le; lia).
        now rewrite Hle.
    + rewrite IH. destruct (p z) eqn:Pz; simpl.
      * destruct (p x); [|reflexivity]. now rewrite E.
      * reflexivity.
Qed.

Lemma filter_sort_by (p : A -> bool) l :
  List.filter p (Py.sort_by rank l) = Py.sort_by rank (List.filter p l).
Proof.
  induction l as [|x l IH]; [reflexivity|].
  change (Py.sort_by rank (x :: l))
    with (Py.insert_by rank x (Py.sort_by rank l)).
  rewrite filter_insert_by by apply sort_by_sorted.
  simpl. destruct (p x); [|exact IH].
  now rewrite IH.
Qed.

(** A list whose entries all have the same rank is in order. *)
Lemma same_rank_sorted l :
  (forall x y, In x l -> In y l -> rank x = rank y) -> StronglySorted le_rank l.
Proof.
  induction l as [|z l IH]; intros Hsame; constructor.
  - apply IH. intros x y Hx Hy. apply Hsame; now right.
  - rewrite List.Forall_forall. intros w Hw.
    rewrite (Hsame z w); [lia|now left|now right].
Qed.

(** The sort is stable: entries of one rank stay in the order they had. *)
Lemma sort_by_stable (r : nat) l :
  List.filter (fun x => rank x =? r) (Py.sort_by rank l)
  = List.filter (fun x => rank x =? r) l.
Proof.
  rewrite filter_sort_by. apply sort_by_sorted_id, same_rank_sorted.
  intros x y Hx Hy. apply filter_In in Hx, Hy.
  destruct Hx as [_ Hx], Hy as [_ Hy]. apply Nat.eqb_eq in Hx, Hy. lia.
Qed.

(** Two lists in order that hold, rank by rank, the same entries in the
    same order are the same list: the result of a stable sort is unique. *)
Lemma sorted_same_ranks_eq l1 l2 :
  StronglySorted le_rank l1 -> StronglySorted le_rank l2 ->
  (forall r, List.filter (fun x => rank x =? r) l1
             = List.filter (fun x => rank x =? r) l2) ->
  l1 = l2.
Proof.
  intros S1. revert l2. induction S1 as [|x l1 S1 IH F1]; intros l2 S2 Hf.
  - destruct l2 as [|y l2]; [reflexivity|].
    specialize (Hf (rank y)). simpl in Hf. rewrite Nat.eqb_refl in Hf. discriminate.
  - destruct S2 as [|y l2 S2 F2].
    { specialize (Hf (rank x)). simpl in Hf. rewrite Nat.eqb_refl in Hf. discriminate. }
    rewrite List.Forall_forall in F1, F2.
    assert (Hxy : rank x = rank y).
    { apply Nat.le_antisymm.
      - pose proof (Hf (rank y)) as Hy. simpl in Hy.
        rewrite (Nat.eqb_refl (rank y)) in Hy.
        destruct (rank x =? rank y) eqn:E; [apply Nat.eqb_eq in E; lia|].
        assert (Hin : In y (List.filter (fun z => rank z =? rank y) l1))
          by (rewrite Hy; now left).
        apply filter_In in Hin. now apply F1.
      - pose proof (Hf (rank x)) as Hx. simpl in Hx.
        rewrite (Nat.eqb_refl (rank x)) in Hx.
        destruct (rank y =? rank x) eqn:E; [apply Nat.eqb_eq in E; lia|].
        assert (Hin : In x (List.filter (fun z => rank z =? rank x) l2))
          by (rewrite <- Hx; now left).
        apply filter_In in Hin. now apply F2. }
    pose proof (Hf (rank x)) as Hx. simpl in Hx.
    rewrite Nat.eqb_refl in Hx. rewrite <- Hxy, Nat.eqb_refl in Hx.
    injection Hx as <- Hx. f_equal. apply IH; [exact S2|].
    intros r. destruct (Nat.eq_dec r (rank x)) as [->|Hr]; [exact Hx|].
    specialize (Hf r). simpl in Hf.
    apply Nat.eqb_neq in Hr. rewrite Nat.eqb_sym in Hr. now rewrite Hr in Hf.
Qed.

(** [sort_by] computes the one stable sort of a list. *)
Lemma sort_by_unique l l' :
  StronglySorted le_rank l' ->
  (forall r, List.filter (fun x => rank x =? r) l'
             = List.filter (fun x => rank x =? r) l) ->
  l' = Py.sort_by rank l.
Proof.
  intros S' Hf. apply sorted_same_ranks_eq; [exact S'|apply sort_by_sorted|].
  intros r. now rewrite sort_by_stable.
Qed.


End Sorting.

Section DedupFacts.
Context {A K : Type} `{Countable K} (key : A -> K).

Lemma dedup_loop_spec (l : list A) (seen : gset K) (unique : list A) :
  snd (Py.for_each l (dedup_step_of key) (seen, unique))
  = unique ++ first_by_key key seen l.
Proof.
  unfold Py.for_each. revert seen unique.
  induction l as [|x l IH]; intros seen unique; simpl.
  - now rewrite app_nil_r.
  - destruct (decide (key x ∈ seen)).
    + apply IH.
    + rewrite IH. now rewrite <- app_assoc.
Qed.

Lemma first_by_key_In seen l x :
  In x (first_by_key key seen l) -> In x l /\ key x ∉ seen.
Proof.
  revert seen. induction l as [|y l IH]; intros seen; simpl.
  - tauto.
  - destruct (decide (key y ∈ seen)) as [Hy|Hy].
    + intros Hx. apply IH in Hx. tauto.
    + intros [<-|Hx]; [tauto|].
      apply IH in Hx. destruct Hx as [Hx Hn]. split; [tauto|].
      intros Hin. apply Hn, elem_of_union. now right.
Qed.

Lemma first_by_key_NoDup seen l : List.NoDup (List.map key (first_by_key key seen l)).
Proof.
  revert seen. induction l as [|y l IH]; intros seen; simpl.
  - constructor.
  - destruct (decide (key y ∈ seen)) as [Hy|Hy]; [apply IH|].
    simpl. constructor; [|apply IH].
    intros Hin. apply in_map_iff in Hin. destruct Hin as (z & Hz & Hin).
    apply first_by_key_In in Hin. destruct Hin as [_ Hn].
    rewrite Hz in Hn. apply Hn, elem_of_union. left. now apply elem_of_singleton.
Qed.

(** For every key, the loop keeps the first entry that has it, and only
    that one, unless the key was seen before. *)
Lemma with_key_first_by_key (k : K) seen l :
  with_key key k (first_by_key key seen l)
  = if decide (k ∈ seen) then [] else firstn 1 (with_key key k l).
Proof.
  unfold with_key. revert seen.
  induction l as [|x l IH]; intros seen; simpl.
  - now destruct (decide (k ∈ seen)).
  - destruct (decide (key x ∈ seen)) as [Hx|Hx].
    + rewrite IH. destruct (decide (k ∈ seen)) as [Hk|Hk]; [reflexivity|].
      rewrite bool_decide_eq_false_2; [reflexivity|].
      intros E. rewrite E in Hx. tauto.
    + simpl. destruct (bool_decide (key x = k)) eqn:E.
      * apply bool_decide_eq_true in E. subst k.
        rewrite IH. rewrite decide_True
          by (apply elem_of_union; left; now apply elem_of_singleton).
        now rewrite decide_False by assumption.
      * apply bool_decide_eq_false in E. rewrite IH.
        destruct (decide (k ∈ seen)) as [Hk|Hk].
        -- now rewrite decide_True by (apply elem_of_union; now right).
        -- rewrite decide_False; [reflexivity|].
           intros Hin. apply elem_of_union in Hin. destruct Hin as [Hin|Hin].
           ++ apply elem_of_singleton in Hin. congruence.
           ++ tauto.
Qed.

Lemma first_by_key_sorted (R : A -> A -> Prop) seen l :
  StronglySorted R l -> StronglySorted R (first_by_key key seen l).
Proof.
  intros Hs. revert seen.
  induction Hs as [|y l Hs IH Hy]; intros seen; simpl.
  - constructor.
  - destruct (decide (key y ∈ seen)); [apply IH|].
    constructor; [apply IH|].
    rewrite List.Forall_forall in Hy |- *. intros z Hz.
    apply first_by_key_In in Hz. now apply Hy.
Qed.

End DedupFacts.

Section Counting.

Lemma with_key_In {A K} `{EqDecision K} (key : A -> K) k l x :
  In x (with_key key k l) <-> In x l /\ key x = k.
Proof.
  unfold with_key. rewrite filter_In.
  now rewrite bool_decide_eq_true.
Qed.

Lemma count_if_with_key {A K} `{EqDecision K} (key : A -> K) k (p : A -> bool) l :
  (forall x, In x l -> p x = bool_decide (key x = k)) ->
  count_if p l = List.length (with_key key k l).
Proof.
  intros Hp. unfold count_if, with_key. f_equal. now apply filter_ext_in.
Qed.

Lemma sum_values_empty : Py.sum_values ∅ = 0.
Proof. unfold Py.sum_values. apply map_fold_empty. Qed.

Lemma sum_values_insert_fresh (k : string) (v : nat) (d : gmap string nat) :
  d !! k = None -> Py.sum_values (<[k := v]> d) = v + Py.sum_values d.
Proof.
  intros Hk. unfold Py.sum_values.
  apply (map_fold_insert_L (fun _ v acc => v + acc)); [|exact Hk].
  intros. lia.
Qed.

(** Counting one more occurrence adds one to the sum of the counts. *)
Lemma sum_values_incr (k : string) (d : gmap string nat) :
  Py.sum_values (Py.incr k d) = S (Py.sum_values d).
Proof.
  unfold Py.incr. destruct (d !! k) as [v|] eqn:Hk; simpl.
  - rewrite <- (insert_delete_eq d k (v + 1)).
    rewrite sum_values_insert_fresh by apply lookup_delete_eq.
    rewrite <- (insert_delete_id d k v Hk) at 2.
    rewrite sum_values_insert_fresh by apply lookup_delete_eq. lia.
  - rewrite sum_values_insert_fresh by assumption. lia.
Qed.

(** A summary loop that counts every entry once under two headings. *)
Lemma summary_loop_sums {A} (h1 h2 : A -> string) (l : list A)
  (d1 d2 : gmap string nat) :
  let st := Py.for_each l
              (fun x st => (Py.incr (h1 x) (fst st), Py.incr (h2 x) (snd st)))
              (d1, d2) in
  Py.sum_values (fst st) = Py.sum_values d1 + List.length l
  /\ Py.sum_values (snd st) = Py.sum_values d2 + List.length l.
Proof.
  unfold Py.for_each. revert d1 d2.
  induction l as [|x l IH]; intros d1 d2; simpl.
  - split; lia.
  - destruct (IH (Py.incr (h1 x) d1) (Py.incr (h2 x) d2)) as [E1 E2].
    rewrite !sum_values_incr in *. simpl in *. split; lia.
Qed.

Lemma functional_table_spec t a b b' :
  functional_table t = true -> In (a, b) t -> In (a, b') t -> b = b'.
Proof.
  unfold functional_table. rewrite forallb_forall. intros Hf Hb Hb'.
  specialize (Hf _ Hb). rewrite forallb_forall in Hf. specialize (Hf _ Hb').
  simpl in Hf. rewrite String.eqb_refl in Hf. simpl in Hf.
  now apply String.eqb_eq in Hf.
Qed.

End Counting.

(* ===================================================================== *)
(** * security_auditor.py: what the scans append *)
(* ===================================================================== *)

Section AuditorFacts.
Context `{Regex}.
Import Py SecurityAuditor.

Lemma sa_append_findings f self :
  findings (append f self) = findings self ++ [f].
Proof. reflexivity. Qed.

Lemma sa_dart_files_spec self :
  findings (audit_dart_files self)
  = findings self ++ sa_dart (world self) (check_filter self)
  /\ world (audit_dart_files self) = world self
  /\ check_filter (audit_dart_files self) = check_filter self.
Proof.
  unfold audit_dart_files. split; [|split].
  - unfold sa_dart. apply for_each_emits. intros f st.
    unfold sa_dart_file. destruct (fcontent f) as [content|].
    + apply for_each_emits. intros c st'.
      apply for_each_emits. intros [i line] st''. unfold sa_line_hit.
      destruct (is_comment (strip line)); [now rewrite app_nil_r|].
      destruct (re_search (c_pattern c) true line); [reflexivity|].
      now rewrite app_nil_r.
    + now rewrite app_nil_r.
  - apply for_each_keeps. intros f st. destruct (fcontent f); [|reflexivity].
    apply for_each_keeps. intros c st'. apply for_each_keeps. intros [i line] st''.
    destruct (is_comment (strip line)); [reflexivity|].
    now destruct (re_search (c_pattern c) true line).
  - apply for_each_keeps. intros f st. destruct (fcontent f); [|reflexivity].
    apply for_each_keeps. intros c st'. apply for_each_keeps. intros [i line] st''.
    destruct (is_comment (strip line)); [reflexivity|].
    now destruct (re_search (c_pattern c) true line).
Qed.

Lemma sa_android_manifest_spec self :
  findings (audit_android_manifest self)
  = findings self ++ sa_manifests (world self) (check_filter self)
  /\ world (audit_android_manifest self) = world self
  /\ check_filter (audit_android_manifest self) = check_filter self.
Proof.
  unfold audit_android_manifest, sa_manifests.
  destruct (truthy (check_filter self) && negb (eq_filter "permissions" (check_filter self))).
  { now rewrite app_nil_r. }
  split; [|split].
  - apply for_each_emits. intros f st.
    unfold sa_manifest_file. destruct (fcontent f) as [content|].
    + apply for_each_emits. intros c st'.
      apply for_each_emits. intros [i line] st''. unfold sa_manifest_hit.
      destruct (re_search (c_pattern c) true line); [reflexivity|].
      now rewrite app_nil_r.
    + now rewrite app_nil_r.
  - apply for_each_keeps. intros f st. destruct (fcontent f); [|reflexivity].
    apply for_each_keeps. intros c st'. apply for_each_keeps. intros [i line] st''.
    now destruct (re_search (c_pattern c) true line).
  - apply for_each_keeps. intros f st. destruct (fcontent f); [|reflexivity].
    apply for_each_keeps. intros c st'. apply for_each_keeps. intros [i line] st''.
    now destruct (re_search (c_pattern c) true line).
Qed.

Lemma sa_ios_plist_spec self :
  findings (audit_ios_plist self)
  = findings self ++ sa_plists (world self) (check_filter self)
  /\ world (audit_ios_plist self) = world self
  /\ check_filter (audit_ios_plist self) = check_filter self.
Proof.
  unfold audit_ios_plist, sa_plists.
  destruct (truthy (check_filter self) && negb (eq_filter "permissions" (check_filter self))).
  { now rewrite app_nil_r. }
  split; [|split].
  - apply for_each_emits. intros f st.
    unfold sa_plist_file. destruct (fcontent f) as [content|].
    + destruct (contains "fetch" content && contains "bluetooth" content);
        [reflexivity|now rewrite app_nil_r].
    + now rewrite app_nil_r.
  - apply for_each_keeps. intros f st. destruct (fcontent f) as [content|]; [|reflexivity].
    now destruct (contains "fetch" content && contains "bluetooth" content).
  - apply for_each_keeps. intros f st. destruct (fcontent f) as [content|]; [|reflexivity].
    now destruct (contains "fetch" content && contains "bluetooth" content).
Qed.

Lemma sa_pubspec_spec self :
  findings (audit_pubspec self)
  = findings self ++ sa_pubspec (world self) (check_filter self)
  /\ world (audit_pubspec self) = world self
  /\ check_filter (audit_pubspec self) = check_filter self.
Proof.
  unfold audit_pubspec, sa_pubspec.
  destruct (truthy (check_filter self) && negb (eq_filter "crypto" (check_filter self))).
  { now rewrite app_nil_r. }
  destruct (match lookup_child (world self) "pubspec.yaml" with
            | Some p => Some p
            | None => parent_pubspec (world self)
            end) as [[content|]|]; try (now rewrite app_nil_r).
  unfold sa_pubspec_text.
  destruct (contains "http:" content && negb (contains "http_cache" content));
    destruct (negb (contains "sodium_libs" content));
    destruct (negb (contains "flutter_secure_storage" content));
    simpl; rewrite ?app_nil_r, <- ?app_assoc; auto.
Qed.

(** The findings in discovery order: the four scans, one after the other. *)
Lemma sa_raw_findings_spec d flt :
  raw_findings d flt
  = sa_dart d flt ++ sa_manifests d flt ++ sa_plists d flt ++ sa_pubspec d flt.
Proof.
  unfold raw_findings, scanned.
  destruct (sa_dart_files_spec (init d flt)) as (F1 & W1 & C1).
  destruct (sa_android_manifest_spec (audit_dart_files (init d flt))) as (F2 & W2 & C2).
  destruct (sa_ios_plist_spec (audit_android_manifest (audit_dart_files (init d flt))))
    as (F3 & W3 & C3).
  destruct (sa_pubspec_spec (audit_ios_plist (audit_android_manifest
              (audit_dart_files (init d flt))))) as (F4 & W4 & C4).
  rewrite F4, F3, F2, F1, W3, W2, W1, C3, C2, C1. simpl.
  now rewrite <- !app_assoc.
Qed.

End AuditorFacts.

(* ===================================================================== *)
(** * ble_attack_surface.py: what the audits append *)
(* ===================================================================== *)

Section AnalyzerFacts.
Context `{Regex}.
Import Py BLE.

Lemma ble_scan_lines_spec patterns cat self :
  findings (scan_lines patterns cat self)
  = findings self ++ ble_scan patterns cat (world self)
  /\ world (scan_lines patterns cat self) = world self.
Proof.
  unfold scan_lines. split.
  - unfold ble_scan. apply for_each_emits. intros f st.
    unfold ble_scan_file. destruct (fcontent f) as [content|].
    + apply for_each_emits. intros r st'.
      apply for_each_emits. intros [i line] st''. unfold ble_line_hit.
      destruct (re_search (p_pattern r) true line); [reflexivity|].
      now rewrite app_nil_r.
    + now rewrite app_nil_r.
  - apply for_each_keeps. intros f st. destruct (fcontent f); [|reflexivity].
    apply for_each_keeps. intros r st'. apply for_each_keeps. intros [i line] st''.
    now destruct (re_search (p_pattern r) true line).
Qed.

Lemma ble_data_validation_spec self :
  findings (audit_data_validation self)
  = findings self ++ ble_validation (world self)
  /\ world (audit_data_validation self) = world self.
Proof.
  unfold audit_data_validation. split.
  - unfold ble_validation. apply for_each_emits. intros f st.
    unfold ble_validation_file. destruct (fcontent f) as [content|].
    + apply for_each_emits. intros hp st'.
      apply for_each_emits. intros [i line] st''. unfold ble_handler_hit.
      destruct (re_search (fst hp) true line); [|now rewrite app_nil_r].
      destruct (negb (has_validation (split_nl content) i)); [reflexivity|].
      now rewrite app_nil_r.
    + now rewrite app_nil_r.
  - apply for_each_keeps. intros f st. destruct (fcontent f) as [content|]; [|reflexivity].
    apply for_each_keeps. intros hp st'. apply for_each_keeps. intros [i line] st''.
    destruct (re_search (fst hp) true line); [|reflexivity].
    now destruct (negb (has_validation (split_nl content) i)).
Qed.

Lemma ble_permissions_spec self :
  findings (audit_ble_permissions self)
  = findings self ++ ble_permissions (world self)
  /\ world (audit_ble_permissions self) = world self.
Proof.
  unfold audit_ble_permissions, ble_permissions. cbv zeta.
  set (body2 := fun (plist : file) (self0 : analyzer) => _).
  set (body1 := fun (manifest : file) (self0 : analyzer) => _).
  assert (W1 : forall xs st, world (for_each xs body1 st) = world st).
  { intros xs. apply for_each_keeps. intros f st. unfold body1.
    destruct (contains "debug" (fstr (world self) f)
              || contains "profile" (fstr (world self) f)); [reflexivity|].
    destruct (fcontent f) as [content|]; [|reflexivity].
    destruct (contains "ACCESS_FINE_LOCATION" content && contains "BLUETOOTH_SCAN" content);
      destruct (negb (contains "BLUETOOTH_ADVERTISE" content)
                && contains "ble_peripheral" (target (world self))); reflexivity. }
  assert (W2 : forall xs st, world (for_each xs body2 st) = world st).
  { intros xs. apply for_each_keeps. intros f st. unfold body2.
    destruct (fcontent f) as [content|]; [|reflexivity].
    now destruct (negb (contains "NSBluetoothAlwaysUsageDescription" content)). }
  split; [|now rewrite W2, W1].
  rewrite (for_each_emits findings body2 ble_plist_file).
  - rewrite (for_each_emits findings body1 (ble_manifest_file (world self))).
    + now rewrite <- app_assoc.
    + intros f st. unfold body1, ble_manifest_file.
      destruct (contains "debug" (fstr (world self) f)
                || contains "profile" (fstr (world self) f)); [now rewrite app_nil_r|].
      destruct (fcontent f) as [content|]; [|now rewrite app_nil_r].
      destruct (contains "ACCESS_FINE_LOCATION" content && contains "BLUETOOTH_SCAN" content);
        destruct (negb (contains "BLUETOOTH_ADVERTISE" content)
                  && contains "ble_peripheral" (target (world self)));
        simpl; rewrite ?app_nil_r, <- ?app_assoc; reflexivity.
  - intros f st. unfold body2, ble_plist_file.
    destruct (fcontent f) as [content|]; [|now rewrite app_nil_r].
    destruct (negb (contains "NSBluetoothAlwaysUsageDescription" content));
      [reflexivity|now rewrite app_nil_r].
Qed.

(** The findings in discovery order: the five audits, one after the other. *)
Lemma ble_raw_findings_spec d :
  raw_findings d
  = ble_scan advertising_patterns "advertising" d
    ++ ble_scan gatt_patterns "gatt" d
    ++ ble_scan connection_patterns "connection" d
    ++ ble_validation d ++ ble_permissions d.
Proof.
  unfold raw_findings, scanned,
    audit_advertising, audit_gatt_permissions, audit_connection_security.
  set (s1 := scan_lines advertising_patterns "advertising" (init d)).
  set (s2 := scan_lines gatt_patterns "gatt" s1).
  set (s3 := scan_lines connection_patterns "connection" s2).
  set (s4 := audit_data_validation s3).
  destruct (ble_scan_lines_spec advertising_patterns "advertising" (init d)) as (F1 & W1).
  destruct (ble_scan_lines_spec gatt_patterns "gatt" s1) as (F2 & W2).
  destruct (ble_scan_lines_spec connection_patterns "connection" s2) as (F3 & W3).
  destruct (ble_data_validation_spec s3) as (F4 & W4).
  destruct (ble_permissions_spec s4) as (F5 & W5).
  fold s1 in F1, W1. fold s2 in F2, W2. fold s3 in F3, W3. fold s4 in F4, W4.
  rewrite F5, F4, F3, F2, F1, W4, W3, W2, W1. simpl.
  now rewrite <- !app_assoc.
Qed.

End AnalyzerFacts.

(* ===================================================================== *)
(** * threat_modeler.py: what the steps append *)
(* ===================================================================== *)

Section ModelerFacts.
Context `{Regex}.
Import Py ThreatModeler.

Lemma tm_append_model_spec m ts : append_model m ts = ts ++ threats m.
Proof.
  unfold append_model.
  rewrite (for_each_emits (fun ts : list Threat => ts) _ (fun t => [t])).
  - f_equal. rewrite (flat_map_singleton (fun t => t)). apply map_id.
  - reflexivity.
Qed.

Lemma tm_apply_threat_catalog_spec self :
  r_threats (results (apply_threat_catalog self))
  = r_threats (results self) ++ tm_catalog (components_found (results self))
  /\ components_found (results (apply_threat_catalog self))
     = components_found (results self)
  /\ world (apply_threat_catalog self) = world self.
Proof.
  unfold apply_threat_catalog, tm_catalog. cbv zeta.
  cbn [results r_threats components_found world].
  split; [|split; reflexivity].
  set (comps := components_found (results self)).
  rewrite (for_each_emits (fun ts : list Threat => ts) _
             (fun comp => match lookup_model BLE_MESH_THREATS comp with
                          | Some model => threats model
                          | None => []
                          end)).
  - destruct comps; [|now rewrite app_nil_r].
    rewrite (for_each_emits (fun ts : list Threat => ts) _ threats).
    + simpl. now rewrite !app_nil_r.
    + intros m ts. apply tm_append_model_spec.
  - intros comp ts. destruct (lookup_model BLE_MESH_THREATS comp).
    + apply tm_append_model_spec.
    + now rewrite app_nil_r.
Qed.

Lemma tm_check_custom_threats_spec self :
  r_threats (results (check_custom_threats self))
  = r_threats (results self) ++ tm_custom (world self)
  /\ components_found (results (check_custom_threats self))
     = components_found (results self)
  /\ world (check_custom_threats self) = world self.
Proof.
  unfold check_custom_threats. cbv zeta.
  cbn [results r_threats components_found world].
  split; [|split; reflexivity].
  f_equal. unfold tm_custom.
  rewrite (for_each_emits (fun ts : list Threat => ts) _ tm_custom_file);
    [reflexivity|].
  intros f ts. unfold tm_custom_file. destruct (fcontent f) as [content|].
  - apply (for_each_emits (fun ts : list Threat => ts)). intros rp ts'.
    rewrite (for_each_emits (fun ts : list Threat => ts) _
               (fun start => [tm_custom_threat (frel f) content rp start])).
    + now rewrite flat_map_singleton.
    + reflexivity.
  - now rewrite app_nil_r.
Qed.

(** The threats of the results: catalog threats, then custom threats;
    [generate_report] adds the summary and nothing else. *)
Lemma tm_modelled_spec d :
  let R := modelled d in
  r_threats R = tm_catalog (tm_components d) ++ tm_custom d
  /\ components_found R = tm_components d
  /\ exists s, summary R = Some s
       /\ total_threats s = List.length (r_threats R)
       /\ Py.sum_values (by_severity s) = List.length (r_threats R)
       /\ Py.sum_values (by_category s) = List.length (r_threats R).
Proof.
  unfold modelled. cbv zeta.
  set (s1 := scan_components (init d)).
  set (s2 := apply_threat_catalog s1).
  set (s3 := check_custom_threats s2).
  destruct (tm_apply_threat_catalog_spec s1) as (T2 & C2 & W2).
  destruct (tm_check_custom_threats_spec s2) as (T3 & C3 & W3).
  fold s2 in T2, C2, W2. fold s3 in T3, C3, W3.
  assert (W1 : world s1 = d) by reflexivity.
  assert (T1 : r_threats (results s1) = []) by reflexivity.
  unfold generate_report. cbv zeta.
  pose proof (summary_loop_sums severity category (r_threats (results s3)) ∅ ∅)
    as Hsum. cbv zeta in Hsum.
  change (fun x st => (incr (severity x) (fst st), incr (category x) (snd st)))
    with summary_step in Hsum.
  destruct (for_each (r_threats (results s3)) summary_step (∅, ∅))
    as [by_sev by_cat].
  cbn [fst snd] in Hsum. rewrite sum_values_empty in Hsum.
  destruct Hsum as [S1 S2].
  cbn [results r_threats summary components_found].
  split; [|split].
  - rewrite T3, T2, T1, W2, W1. reflexivity.
  - rewrite C3, C2. reflexivity.
  - eexists. split; [reflexivity|].
    cbn [total_threats by_severity by_category]. auto.
Qed.

End ModelerFacts.

(* ===================================================================== *)
(** * The reports of the two finding analyzers *)
(* ===================================================================== *)

Section ReportFacts.
Context `{Regex}.
Import Py.

Lemma sa_report_spec d flt :
  let R := SecurityAuditor.report d flt in
  SecurityAuditor.r_findings R
  = first_by_key SecurityAuditor.key ∅
      (sort_by (fun f => SecurityAuditor.severity_order (SecurityAuditor.severity f))
         (SecurityAuditor.raw_findings d flt))
  /\ SecurityAuditor.total_findings R = List.length (SecurityAuditor.r_findings R)
  /\ sum_values (SecurityAuditor.by_severity R) = List.length (SecurityAuditor.r_findings R)
  /\ sum_values (SecurityAuditor.by_check R) = List.length (SecurityAuditor.r_findings R).
Proof.
  unfold SecurityAuditor.report, SecurityAuditor.generate_report,
    SecurityAuditor.raw_findings. cbv zeta.
  set (raw := SecurityAuditor.findings (SecurityAuditor.scanned d flt)).
  cbn [SecurityAuditor.findings].
  set (l := SecurityAuditor.dedup _).
  assert (Hl : l = first_by_key SecurityAuditor.key ∅
                     (sort_by (fun f => SecurityAuditor.severity_order
                                          (SecurityAuditor.severity f)) raw)).
  { unfold l, SecurityAuditor.dedup.
    exact (dedup_loop_spec SecurityAuditor.key _ ∅ []). }
  pose proof (summary_loop_sums SecurityAuditor.severity SecurityAuditor.check l ∅ ∅)
    as Hsum. cbv zeta in Hsum.
  change (fun x st => (incr (SecurityAuditor.severity x) (fst st),
                       incr (SecurityAuditor.check x) (snd st)))
    with SecurityAuditor.summary_step in Hsum.
  destruct (for_each l SecurityAuditor.summary_step (∅, ∅)) as [by_sev by_chk].
  cbn [fst snd] in Hsum. rewrite sum_values_empty in Hsum.
  cbn [snd SecurityAuditor.r_findings SecurityAuditor.total_findings
       SecurityAuditor.by_severity SecurityAuditor.by_check].
  tauto.
Qed.

Lemma ble_report_spec d :
  let R := BLE.report d in
  BLE.r_findings R
  = first_by_key BLE.key ∅
      (sort_by (fun f => BLE.severity_order (BLE.severity f)) (BLE.raw_findings d))
  /\ BLE.total_findings R = List.length (BLE.r_findings R)
  /\ sum_values (BLE.by_severity R) = List.length (BLE.r_findings R)
  /\ sum_values (BLE.by_category R) = List.length (BLE.r_findings R).
Proof.
  unfold BLE.report, BLE.generate_report, BLE.raw_findings. cbv zeta.
  set (raw := BLE.findings (BLE.scanned d)).
  cbn [BLE.findings].
  set (l := BLE.dedup _).
  assert (Hl : l = first_by_key BLE.key ∅
                     (sort_by (fun f => BLE.severity_order (BLE.severity f)) raw)).
  { unfold l, BLE.dedup. exact (dedup_loop_spec BLE.key _ ∅ []). }
  pose proof (summary_loop_sums BLE.severity BLE.category l ∅ ∅) as Hsum.
  cbv zeta in Hsum.
  change (fun x st => (incr (BLE.severity x) (fst st), incr (BLE.category x) (snd st)))
    with BLE.summary_step in Hsum.
  destruct (for_each l BLE.summary_step (∅, ∅)) as [by_sev by_cat].
  cbn [fst snd] in Hsum. rewrite sum_values_empty in Hsum.
  cbn [snd BLE.r_findings BLE.total_findings BLE.by_severity BLE.by_category].
  tauto.
Qed.

(** A finding is reported exactly when it was found. *)
Lemma first_by_key_sort_In {A K} `{Countable K} (key : A -> K) (rank : A -> nat)
  (l : list A) (x : A) :
  In x (first_by_key key ∅ (sort_by rank l)) -> In x l.
Proof.
  intros Hx. apply first_by_key_In in Hx. destruct Hx as [Hx _].
  now apply sort_by_In in Hx.
Qed.

Lemma sa_report_In d flt x :
  In x (SecurityAuditor.r_findings (SecurityAuditor.report d flt)) ->
  In x (SecurityAuditor.raw_findings d flt).
Proof.
  destruct (sa_report_spec d flt) as (E & _). rewrite E.
  apply first_by_key_sort_In.
Qed.

Lemma ble_report_In d x :
  In x (BLE.r_findings (BLE.report d)) -> In x (BLE.raw_findings d).
Proof.
  destruct (ble_report_spec d) as (E & _). rewrite E.
  apply first_by_key_sort_In.
Qed.

End ReportFacts.

(* ===================================================================== *)
(** * Where the findings of the security auditor come from *)
(* ===================================================================== *)

Section Enumerate.

Lemma enumerate_In {A} (l : list A) (start i : nat) (x : A) :
  In (i, x) (Py.enumerate start l) <-> exists n, i = start + n /\ l !! n = Some x.
Proof.
  revert start. induction l as [|y l IH]; intros start; simpl.
  - split; [tauto|]. intros (n & _ & Hn). now rewrite lookup_nil in Hn.
  - rewrite IH. split.
    + intros [E|(n & -> & Hn)].
      * injection E as <- <-. exists 0. split; [lia|reflexivity].
      * exists (S n). split; [lia|exact Hn].
    + intros ([|n] & -> & Hn).
      * left. simpl in Hn. injection Hn as ->. f_equal. lia.
      * right. exists n. split; [lia|exact Hn].
Qed.

Lemma enumerate_NoDup_fst {A} (l : list A) (start : nat) :
  List.NoDup (List.map fst (Py.enumerate start l)).
Proof.
  revert start. induction l as [|y l IH]; intros start; simpl; constructor.
  - intros Hin. apply in_map_iff in Hin. destruct Hin as ([i x] & E & Hin).
    simpl in E. subst i. apply enumerate_In in Hin. destruct Hin as (n & E & _). lia.
  - apply IH.
Qed.

End Enumerate.

Section AuditorOrigins.
Context `{Regex}.
Import Py SecurityAuditor.

Lemma sa_get_checks_In self c :
  In c (_get_checks self) ->
  In c sa_all_checks
  /\ (truthy (check_filter self) = true ->
      eq_filter (c_category c) (check_filter self) = true).
Proof.
  unfold _get_checks, sa_all_checks.
  destruct (truthy (check_filter self)).
  - rewrite filter_In. intros [Hc Hf]. split; [|tauto].
    rewrite !in_app_iff in *. tauto.
  - intros Hc. split; [|discriminate]. rewrite !in_app_iff in *. tauto.
Qed.

(** A finding of the Dart scan: a scanned, readable file, a rule in force,
    a line that is no comment and that the rule's pattern matches. *)
Lemma sa_dart_In d flt x :
  In x (sa_dart d flt) <->
  exists f content c n ln,
    In f (rglob d "*.dart") /\ is_source_file d f = true
    /\ fcontent f = Some content
    /\ In c (_get_checks (init d flt))
    /\ split_nl content !! n = Some ln
    /\ is_comment (strip ln) = false
    /\ re_search (c_pattern c) true ln = true
    /\ x = mkFinding (c_severity c) (c_name c) (c_desc c) (frel f) (S n)
             (slice_to 120 (strip ln)) (c_rec c).
Proof.
  unfold sa_dart. rewrite in_flat_map. split.
  - intros (f & Hf & Hx). apply filter_In in Hf. destruct Hf as [Hf Hs].
    unfold sa_dart_file in Hx. destruct (fcontent f) as [content|] eqn:Hc; [|easy].
    apply in_flat_map in Hx. destruct Hx as (c & Hc' & Hx).
    apply in_flat_map in Hx. destruct Hx as ([i ln] & Hi & Hx).
    apply enumerate_In in Hi. destruct Hi as (n & -> & Hn).
    unfold sa_line_hit in Hx.
    destruct (is_comment (strip ln)) eqn:Hcm; [easy|].
    destruct (re_search (c_pattern c) true ln) eqn:Hre; [|easy].
    destruct Hx as [<-|[]]. exists f, content, c, n, ln. tauto.
  - intros (f & content & c & n & ln & Hf & Hs & Hc & Hc' & Hn & Hcm & Hre & ->).
    exists f. split; [apply filter_In; tauto|].
    unfold sa_dart_file. rewrite Hc. apply in_flat_map. exists c. split; [exact Hc'|].
    apply in_flat_map. exists (S n, ln). split.
    + apply enumerate_In. exists n. split; [reflexivity|exact Hn].
    + unfold sa_line_hit. rewrite Hcm, Hre. now left.
Qed.

Lemma sa_manifests_In d flt x :
  In x (sa_manifests d flt) ->
  (truthy flt = true -> eq_filter "permissions" flt = true)
  /\ exists f content c n ln,
       In f (rglob d "AndroidManifest.xml")
       /\ fcontent f = Some content
       /\ In c PERMISSION_CHECKS_ANDROID
       /\ split_nl content !! n = Some ln
       /\ x = mkFinding (c_severity c) (c_name c) (c_desc c) (frel f) (S n)
                (slice_to 120 (strip ln)) (c_rec c).
Proof.
  unfold sa_manifests.
  destruct (truthy flt); destruct (eq_filter "permissions" flt); simpl; try easy.
  all: rewrite in_flat_map; intros (f & Hf & Hx); (split; [tauto|]).
  all: assert (Hf' : In f (rglob d "AndroidManifest.xml"))
         by (unfold sa_chosen_manifests in Hf; cbv zeta in Hf;
             destruct (List.filter _ (rglob d "AndroidManifest.xml")) eqn:E;
             [exact Hf|rewrite <- E in Hf; now apply filter_In in Hf]).
  all: unfold sa_manifest_file in Hx;
       destruct (fcontent f) as [content|] eqn:Hc; [|easy];
       apply in_flat_map in Hx; destruct Hx as (c & Hc' & Hx);
       apply in_flat_map in Hx; destruct Hx as ([i ln] & Hi & Hx);
       apply enumerate_In in Hi; destruct Hi as (n & -> & Hn);
       unfold sa_manifest_hit in Hx;
       destruct (re_search (c_pattern c) true ln); [|easy];
       destruct Hx as [<-|[]]; exists f, content, c, n, ln; tauto.
Qed.

Lemma sa_plists_In d flt x :
  In x (sa_plists d flt) ->
  (truthy flt = true -> eq_filter "permissions" flt = true)
  /\ exists f,
       In f (rglob d "Info.plist")
       /\ x = mkFinding "LOW" "ios-background-modes"
                "Multiple background modes enabled — verify all are necessary"
                (frel f) 0 "UIBackgroundModes: bluetooth + fetch"
                "Only enable background modes that are actively used".
Proof.
  unfold sa_plists.
  destruct (truthy flt); destruct (eq_filter "permissions" flt); simpl; try easy.
  all: rewrite in_flat_map; intros (f & Hf & Hx); (split; [tauto|]).
  all: unfold sa_plist_file in Hx; destruct (fcontent f) as [content|]; [|easy];
       destruct (contains "fetch" content && contains "bluetooth" content); [|easy];
       destruct Hx as [<-|[]]; exists f; tauto.
Qed.

Lemma sa_pubspec_In d flt x :
  In x (sa_pubspec d flt) ->
  (truthy flt = true -> eq_filter "crypto" flt = true)
  /\ In x sa_pubspec_findings.
Proof.
  unfold sa_pubspec.
  destruct (truthy flt); destruct (eq_filter "crypto" flt); simpl; try easy.
  all: destruct (match lookup_child d "pubspec.yaml" with
                 | Some p => Some p
                 | None => parent_pubspec d
                 end) as [[content|]|]; try easy.
  all: unfold sa_pubspec_text, sa_pubspec_findings; intros Hx; (split; [tauto|]).
  all: destruct (contains "http:" content && negb (contains "http_cache" content));
       destruct (negb (contains "sodium_libs" content));
       destruct (negb (contains "flutter_secure_storage" content));
       simpl in *; tauto.
Qed.

End AuditorOrigins.

(* ===================================================================== *)
(** * Where the findings of the BLE analyzer come from *)
(* ===================================================================== *)

Section AnalyzerOrigins.
Context `{Regex}.
Import Py BLE.

Lemma ble_scan_dart_files_In d f :
  In f (_scan_dart_files (init d)) <->
  In f (rglob d "*.dart") /\ is_source_file d f = true.
Proof. unfold _scan_dart_files. apply filter_In. Qed.

(** A finding of a line scan: a scanned, readable file, a rule of the
    table and a line that the rule's pattern matches. *)
Lemma ble_scan_In patterns cat d x :
  In x (ble_scan patterns cat d) <->
  exists f content r n ln,
    In f (rglob d "*.dart") /\ is_source_file d f = true
    /\ fcontent f = Some content
    /\ In r patterns
    /\ split_nl content !! n = Some ln
    /\ re_search (p_pattern r) true ln = true
    /\ x = mkFinding (p_severity r) cat (p_desc r) (frel f) (S n)
             (slice_to 120 (strip ln)) (p_rec r).
Proof.
  unfold ble_scan. rewrite in_flat_map. split.
  - intros (f & Hf & Hx). apply ble_scan_dart_files_In in Hf. destruct Hf as [Hf Hs].
    unfold ble_scan_file in Hx. destruct (fcontent f) as [content|] eqn:Hc; [|easy].
    apply in_flat_map in Hx. destruct Hx as (r & Hr & Hx).
    apply in_flat_map in Hx. destruct Hx as ([i ln] & Hi & Hx).
    apply enumerate_In in Hi. destruct Hi as (n & -> & Hn).
    unfold ble_line_hit in Hx.
    destruct (re_search (p_pattern r) true ln) eqn:Hre; [|easy].
    destruct Hx as [<-|[]]. exists f, content, r, n, ln. tauto.
  - intros (f & content & r & n & ln & Hf & Hs & Hc & Hr & Hn & Hre & ->).
    exists f. split; [apply ble_scan_dart_files_In; tauto|].
    unfold ble_scan_file. rewrite Hc. apply in_flat_map. exists r. split; [exact Hr|].
    apply in_flat_map. exists (S n, ln). split.
    + apply enumerate_In. exists n. split; [reflexivity|exact Hn].
    + unfold ble_line_hit. rewrite Hre. now left.
Qed.

(** A finding of the data-validation audit: a trigger line of a scanned,
    readable file with no validation pattern in the lines after it. *)
Lemma ble_validation_In d x :
  In x (ble_validation d) <->
  exists f content n ln,
    In f (rglob d "*.dart") /\ is_source_file d f = true
    /\ fcontent f = Some content
    /\ split_nl content !! n = Some ln
    /\ re_search "onValueReceived|onCharacteristicReceived|onData|onValueChanged"
         true ln = true
    /\ has_validation (split_nl content) (S n) = false
    /\ x = unvalidated_handler (frel f) (S n) ln.
Proof.
  unfold ble_validation. rewrite in_flat_map. split.
  - intros (f & Hf & Hx). apply ble_scan_dart_files_In in Hf. destruct Hf as [Hf Hs].
    unfold ble_validation_file in Hx.
    destruct (fcontent f) as [content|] eqn:Hc; [|easy].
    cbv zeta in Hx. apply in_flat_map in Hx. destruct Hx as (hp & Hhp & Hx).
    destruct Hhp as [<-|[]]. cbn [fst] in Hx.
    apply in_flat_map in Hx. destruct Hx as ([i ln] & Hi & Hx).
    apply enumerate_In in Hi. destruct Hi as (n & -> & Hn).
    unfold ble_handler_hit in Hx.
    destruct (re_search _ true ln) eqn:Hre; [|easy].
    destruct (has_validation (split_nl content) (1 + n)) eqn:Hv; [easy|].
    destruct Hx as [<-|[]]. exists f, content, n, ln. tauto.
  - intros (f & content & n & ln & Hf & Hs & Hc & Hn & Hre & Hv & ->).
    exists f. split; [apply ble_scan_dart_files_In; tauto|].
    unfold ble_validation_file. rewrite Hc. cbv zeta.
    apply in_flat_map. eexists. split; [left; reflexivity|]. cbn [fst].
    apply in_flat_map. exists (S n, ln). split.
    + apply enumerate_In. exists n. split; [reflexivity|exact Hn].
    + unfold ble_handler_hit. rewrite Hre, Hv. now left.
Qed.

(** A finding of the permission audit is about a manifest or a property
    list, has no line and one of three descriptions. *)
Lemma ble_permissions_In d x :
  In x (ble_permissions d) ->
  category x = "config" /\ line x = 0
  /\ In (description x, severity x) ble_description_severity
  /\ exists f, (In f (rglob d "AndroidManifest.xml") \/ In f (rglob d "Info.plist"))
               /\ file_path x = frel f.
Proof.
  unfold ble_permissions. rewrite in_app_iff, !in_flat_map.
  intros [(f & Hf & Hx)|(f & Hf & Hx)].
  - unfold ble_manifest_file in Hx.
    destruct (contains "debug" (fstr d f) || contains "profile" (fstr d f)); [easy|].
    destruct (fcontent f) as [content|]; [|easy].
    apply in_app_iff in Hx.
    destruct (contains "ACCESS_FINE_LOCATION" content && contains "BLUETOOTH_SCAN" content);
      destruct (negb (contains "BLUETOOTH_ADVERTISE" content)
                && contains "ble_peripheral" (target d));
      simpl in Hx; destruct Hx as [Hx|Hx]; try easy;
      destruct Hx as [<-|[]]; (repeat split; [| exists f; tauto]).
    all: unfold ble_description_severity; apply in_app_iff; right; cbn;
         tauto.
  - unfold ble_plist_file in Hx. destruct (fcontent f) as [content|]; [|easy].
    destruct (negb (contains "NSBluetoothAlwaysUsageDescription" content)); [|easy].
    destruct Hx as [<-|[]]. repeat split; [| exists f; tauto].
    unfold ble_description_severity. apply in_app_iff. right. cbn. tauto.
Qed.

End AnalyzerOrigins.

(* ===================================================================== *)
(** * Severities of the findings *)
(* ===================================================================== *)

Section Severities.
Context `{Regex}.
Import Py.

(** Every finding of the security auditor carries the severity that goes
    with its check id. *)
Lemma sa_raw_severity d flt x :
  In x (SecurityAuditor.raw_findings d flt) ->
  In (SecurityAuditor.check x, SecurityAuditor.severity x) sa_check_severity.
Proof.
  rewrite sa_raw_findings_spec, !in_app_iff. unfold sa_check_severity.
  intros [Hx|[Hx|[Hx|Hx]]].
  - apply sa_dart_In in Hx.
    destruct Hx as (f & content & c & n & ln & _ & _ & _ & Hc & _ & _ & _ & ->).
    apply sa_get_checks_In in Hc. destruct Hc as [Hc _].
    apply in_app_iff. left.
    apply (in_map (fun c => (SecurityAuditor.c_name c, SecurityAuditor.c_severity c))
             _ _ Hc).
  - apply sa_manifests_In in Hx.
    destruct Hx as (_ & f & content & c & n & ln & _ & _ & Hc & _ & ->).
    apply in_app_iff. left.
    apply (in_map (fun c => (SecurityAuditor.c_name c, SecurityAuditor.c_severity c))).
    unfold sa_all_checks. rewrite !in_app_iff. tauto.
  - apply sa_plists_In in Hx. destruct Hx as (_ & f & _ & ->).
    apply in_app_iff. right. now left.
  - apply sa_pubspec_In in Hx. destruct Hx as (_ & Hx).
    apply in_app_iff. right. right.
    apply (in_map (fun x => (SecurityAuditor.check x, SecurityAuditor.severity x))
             _ _ Hx).
Qed.

(** Every finding of the BLE analyzer carries the severity that goes with
    its description. *)
Lemma ble_raw_severity d x :
  In x (BLE.raw_findings d) ->
  In (BLE.description x, BLE.severity x) ble_description_severity.
Proof.
  rewrite ble_raw_findings_spec, !in_app_iff.
  assert (Hscan : forall patterns cat,
            (forall r, In r patterns -> In r ble_all_rules) ->
            In x (ble_scan patterns cat d) ->
            In (BLE.description x, BLE.severity x) ble_description_severity).
  { intros patterns cat Hsub Hx. apply ble_scan_In in Hx.
    destruct Hx as (f & content & r & n & ln & _ & _ & _ & Hr & _ & _ & ->).
    unfold ble_description_severity. apply in_app_iff. left.
    apply (in_map (fun r => (BLE.p_desc r, BLE.p_severity r)) _ _ (Hsub _ Hr)). }
  unfold ble_all_rules in Hscan.
  intros [Hx|[Hx|[Hx|[Hx|Hx]]]].
  - apply (Hscan BLE.advertising_patterns "advertising"); [|exact Hx].
    intros r Hr. rewrite !in_app_iff. tauto.
  - apply (Hscan BLE.gatt_patterns "gatt"); [|exact Hx].
    intros r Hr. rewrite !in_app_iff. tauto.
  - apply (Hscan BLE.connection_patterns "connection"); [|exact Hx].
    intros r Hr. rewrite !in_app_iff. tauto.
  - apply ble_validation_In in Hx.
    destruct Hx as (f & content & n & ln & _ & _ & _ & _ & _ & _ & ->).
    unfold ble_description_severity. apply in_app_iff. right. now left.
  - now apply ble_permissions_In in Hx.
Qed.

Lemma table_severities_known (t : list (string * string)) a b :
  forallb (fun p => existsb (String.eqb (snd p)) finding_severities) t = true ->
  In (a, b) t -> In b finding_severities.
Proof.
  rewrite forallb_forall. intros Ht Hab. specialize (Ht _ Hab).
  apply existsb_exists in Ht. destruct Ht as (s & Hs & E).
  apply String.eqb_eq in E. simpl in E. now subst.
Qed.

Lemma sa_check_severity_functional : functional_table sa_check_severity = true.
Proof. vm_compute. reflexivity. Qed.

Lemma ble_description_severity_functional :
  functional_table ble_description_severity = true.
Proof. vm_compute. reflexivity. Qed.

End Severities.

(* ===================================================================== *)
(** * The claims *)
(* ===================================================================== *)

Section Claims.
Context `{Regex}.
Import Py.


(** C10: in every report the counts agree: the values of [by_severity] add
    up to the number of findings (or threats) listed, which is the reported
    total, and so do the values of [by_check] / [by_category]. *)
Theorem C10_summary_counts_consistent :
  (forall d flt,
     let R := SecurityAuditor.report d flt in
     sum_values (SecurityAuditor.by_severity R)
       = List.length (SecurityAuditor.r_findings R)
     /\ List.length (SecurityAuditor.r_findings R) = SecurityAuditor.total_findings R
     /\ sum_values (SecurityAuditor.by_check R) = SecurityAuditor.total_findings R)
  /\ (forall d,
        let R := BLE.report d in
        sum_values (BLE.by_severity R) = List.length (BLE.r_findings R)
        /\ List.length (BLE.r_findings R) = BLE.total_findings R
        /\ sum_values (BLE.by_category R) = BLE.total_findings R)
  /\ (forall d,
        let R := ThreatModeler.modelled d in
        exists s, ThreatModeler.summary R = Some s
          /\ sum_values (ThreatModeler.by_severity s)
               = List.length (ThreatModeler.r_threats R)
          /\ List.length (ThreatModeler.r_threats R) = ThreatModeler.total_threats s
          /\ sum_values (ThreatModeler.by_category s) = ThreatModeler.total_threats s).
Proof.
  split; [|split].
  - intros d flt R. destruct (sa_report_spec d flt) as (_ & T & S1 & S2).
    fold R in T, S1, S2. rewrite T. auto.
  - intros d R. destruct (ble_report_spec d) as (_ & T & S1 & S2).
    fold R in T, S1, S2. rewrite T. auto.
  - intros d R. destruct (tm_modelled_spec d) as (_ & _ & s & Hs & T & S1 & S2).
    fold R in Hs, T, S1, S2. exists s. rewrite T. auto.
Qed.


(** Sorting first and deduplicating afterwards keeps, for every key, the
    first entry found with that key, as long as entries with the same key
    have the same rank. *)
Lemma dedup_after_sort_keeps_first {A K} `{Countable K} (key : A -> K)
  (rank : A -> nat) (raw : list A) (k : K) :
  (forall x y, In x raw -> In y raw -> key x = key y -> rank x = rank y) ->
  with_key key k (first_by_key key ∅ (sort_by rank raw))
  = firstn 1 (with_key key k raw).
Proof.
  intros Hsame. rewrite with_key_first_by_key.
  rewrite decide_False by apply not_elem_of_empty.
  unfold with_key. rewrite filter_sort_by. f_equal.
  apply sort_by_sorted_id, same_rank_sorted.
  intros x y Hx Hy. apply filter_In in Hx, Hy.
  destruct Hx as [Hx Kx], Hy as [Hy Ky].
  apply bool_decide_eq_true in Kx, Ky. apply Hsame; congruence.
Qed.

Lemma sa_report_with_key d flt k :
  with_key SecurityAuditor.key k
    (SecurityAuditor.r_findings (SecurityAuditor.report d flt))
  = firstn 1 (with_key SecurityAuditor.key k (SecurityAuditor.raw_findings d flt)).
Proof.
  destruct (sa_report_spec d flt) as (E & _). rewrite E.
  apply dedup_after_sort_keeps_first.
  intros x y Hx Hy Hk. apply sa_raw_severity in Hx, Hy.
  unfold SecurityAuditor.key in Hk. injection Hk as Hc _ _.
  rewrite Hc in Hx.
  now rewrite (functional_table_spec _ _ _ _ sa_check_severity_functional Hx Hy).
Qed.

Lemma ble_report_with_key d k :
  with_key BLE.key k (BLE.r_findings (BLE.report d))
  = firstn 1 (with_key BLE.key k (BLE.raw_findings d)).
Proof.
  destruct (ble_report_spec d) as (E & _). rewrite E.
  apply dedup_after_sort_keeps_first.
  intros x y Hx Hy Hk. apply ble_raw_severity in Hx, Hy.
  unfold BLE.key in Hk. injection Hk as _ Hc _ _.
  rewrite Hc in Hx.
  now rewrite (functional_table_spec _ _ _ _ ble_description_severity_functional Hx Hy).
Qed.

(** C2 (as amended): the reports of the security auditor and of the BLE
    analyzer hold no two findings with the same key (check, file, line for
    the auditor; category, description, file, line for the analyzer); for
    every key the finding kept is the first one found with it; and
    [total_findings] is the number of findings kept. The threat modeler
    removes nothing: every catalog and custom threat is listed, and
    [total_threats] is the number of threats listed. *)
Theorem C2_findings_deduplicated_first_kept :
  (forall d flt,
     let R := SecurityAuditor.report d flt in
     List.NoDup (List.map SecurityAuditor.key (SecurityAuditor.r_findings R))
     /\ (forall k,
           with_key SecurityAuditor.key k (SecurityAuditor.r_findings R)
           = firstn 1 (with_key SecurityAuditor.key k
                         (SecurityAuditor.raw_findings d flt)))
     /\ SecurityAuditor.total_findings R
        = List.length (SecurityAuditor.r_findings R))
  /\ (forall d,
        let R := BLE.report d in
        List.NoDup (List.map BLE.key (BLE.r_findings R))
        /\ (forall k,
              with_key BLE.key k (BLE.r_findings R)
              = firstn 1 (with_key BLE.key k (BLE.raw_findings d)))
        /\ BLE.total_findings R = List.length (BLE.r_findings R))
  /\ (forall d,
        let R := ThreatModeler.modelled d in
        ThreatModeler.r_threats R
        = tm_catalog (ThreatModeler.components_found R)
          ++ ThreatModeler.r_threats
               (ThreatModeler.results
                  (ThreatModeler.check_custom_threats (ThreatModeler.init d)))
        /\ exists s, ThreatModeler.summary R = Some s
             /\ ThreatModeler.total_threats s
                = List.length (ThreatModeler.r_threats R)).
Proof.
  split; [|split].
  - intros d flt R. destruct (sa_report_spec d flt) as (E & T & _).
    fold R in E, T. split; [|split].
    + rewrite E. apply first_by_key_NoDup.
    + intros k. apply sa_report_with_key.
    + exact T.
  - intros d R. destruct (ble_report_spec d) as (E & T & _).
    fold R in E, T. split; [|split].
    + rewrite E. apply first_by_key_NoDup.
    + intros k. apply ble_report_with_key.
    + exact T.
  - intros d R. destruct (tm_modelled_spec d) as (E & C & s & Hs & T & _).
    fold R in E, C, Hs, T. split.
    + rewrite E, C.
      destruct (tm_check_custom_threats_spec (ThreatModeler.init d)) as (E' & _).
      rewrite E'. reflexivity.
    + exists s. tauto.
Qed.

(** C3: when the component detector finds no component, the threats of the
    results contain every threat of every model of the catalog, and every
    custom threat as well. *)
Theorem C3_no_component_includes_whole_catalog (d : fs) :
  ThreatModeler.components_found (ThreatModeler.modelled d) = [] ->
  (forall k m t,
     In (k, m) ThreatModeler.BLE_MESH_THREATS ->
     In t (ThreatModeler.threats m) ->
     In t (ThreatModeler.r_threats (ThreatModeler.modelled d)))
  /\ (forall t,
        In t (ThreatModeler.r_threats
                (ThreatModeler.results
                   (ThreatModeler.check_custom_threats (ThreatModeler.init d)))) ->
        In t (ThreatModeler.r_threats (ThreatModeler.modelled d))).
Proof.
  intros Hnone. destruct (tm_modelled_spec d) as (E & C & _). cbv zeta in E, C.
  rewrite Hnone in C. rewrite E, <- C. split.
  - intros k m t Hm Ht. apply in_app_iff. left.
    unfold tm_catalog. cbn [flat_map app]. apply in_flat_map.
    exists m. split; [|exact Ht].
    apply in_map_iff. exists (k, m). tauto.
  - intros t Ht.
    destruct (tm_check_custom_threats_spec (ThreatModeler.init d)) as (E' & _).
    rewrite E' in Ht. apply in_app_iff. right. exact Ht.
Qed.

Lemma rglob_In d pat f :
  In f (rglob d pat) <-> In f (tree d) /\ glob_match pat (path_name (frel f)) = true.
Proof. unfold rglob. apply filter_In. Qed.

(** No file is both a Dart file and a file with a name that does not end
    in [.dart]. *)
Lemma dart_not_named (f g : file) (name : string) :
  is_dart f -> frel g = frel f ->
  String.eqb name (path_name (frel g)) = true ->
  glob_match "*.dart" name = true.
Proof.
  unfold is_dart. intros Hf E Hg. apply String.eqb_eq in Hg.
  now rewrite Hg, E.
Qed.

(** C7: with a filter chosen among the known categories, every finding of
    the report comes from a rule tagged with that category or from the
    file-level scan that runs under it; the manifest and property-list
    scans add nothing unless the filter is "permissions", and the pubspec
    scan adds nothing unless it is "crypto". *)
Theorem C7_filter_keeps_only_its_category (c : string) :
  In c known_categories ->
  (forall d x,
     In x (SecurityAuditor.r_findings (SecurityAuditor.report d (Some c))) ->
     sa_from_category c x)
  /\ (forall self,
        SecurityAuditor.check_filter self = Some c -> c <> "permissions" ->
        SecurityAuditor.findings (SecurityAuditor.audit_android_manifest self)
          = SecurityAuditor.findings self
        /\ SecurityAuditor.findings (SecurityAuditor.audit_ios_plist self)
           = SecurityAuditor.findings self)
  /\ (forall self,
        SecurityAuditor.check_filter self = Some c -> c <> "crypto" ->
        SecurityAuditor.findings (SecurityAuditor.audit_pubspec self)
          = SecurityAuditor.findings self).
Proof.
  intros Hc.
  assert (Ht : SecurityAuditor.truthy (Some c) = true).
  { simpl in Hc. destruct Hc as [<-|[<-|[<-|[<-|[<-|[]]]]]]; reflexivity. }
  split; [|split].
  - intros d x Hx. apply sa_report_In in Hx.
    rewrite sa_raw_findings_spec, !in_app_iff in Hx.
    destruct Hx as [Hx|[Hx|[Hx|Hx]]].
    + apply sa_dart_In in Hx.
      destruct Hx as (f & content & r & n & ln & _ & _ & _ & Hr & _ & _ & _ & ->).
      apply sa_get_checks_In in Hr. destruct Hr as [Hr Hf].
      specialize (Hf Ht). apply String.eqb_eq in Hf.
      left. exists r. unfold sa_from_rule. cbn. tauto.
    + apply sa_manifests_In in Hx.
      destruct Hx as (Hf & f & content & r & n & ln & _ & _ & Hr & _ & ->).
      specialize (Hf Ht). apply String.eqb_eq in Hf. subst c.
      left. exists r. split; [|split].
      * unfold sa_all_checks. rewrite !in_app_iff. tauto.
      * simpl in Hr. destruct Hr as [<-|[<-|[<-|[<-|[]]]]]; reflexivity.
      * unfold sa_from_rule. cbn. tauto.
    + apply sa_plists_In in Hx. destruct Hx as (Hf & f & _ & ->).
      specialize (Hf Ht). apply String.eqb_eq in Hf. subst c.
      right. left. split; reflexivity.
    + apply sa_pubspec_In in Hx. destruct Hx as (Hf & Hx).
      specialize (Hf Ht). apply String.eqb_eq in Hf. subst c.
      right. right. split; [reflexivity|exact Hx].
  - intros self Hs Hne.
    assert (En : SecurityAuditor.eq_filter "permissions" (Some c) = false).
    { unfold SecurityAuditor.eq_filter. apply String.eqb_neq. congruence. }
    unfold SecurityAuditor.audit_android_manifest, SecurityAuditor.audit_ios_plist.
    rewrite Hs, Ht, En. split; reflexivity.
  - intros self Hs Hne.
    assert (En : SecurityAuditor.eq_filter "crypto" (Some c) = false).
    { unfold SecurityAuditor.eq_filter. apply String.eqb_neq. congruence. }
    unfold SecurityAuditor.audit_pubspec.
    rewrite Hs, Ht, En. reflexivity.
Qed.

(** C4 (as amended): a Dart file whose path shows a test directory
    ([/test/], after the separators are unified) or contains [.g.dart] gets
    no finding in the report of the security auditor or of the BLE analyzer;
    for the security auditor the same holds of a path that contains
    [.freezed.dart]. (The threat modeler excludes no file.) *)
Theorem C4_excluded_files_get_no_finding :
  (forall d flt f x,
     is_dart f -> sa_excluded d f ->
     In x (SecurityAuditor.r_findings (SecurityAuditor.report d flt)) ->
     SecurityAuditor.file_path x <> frel f)
  /\ (forall d f x,
        is_dart f -> ble_excluded d f ->
        In x (BLE.r_findings (BLE.report d)) ->
        BLE.file_path x <> frel f).
Proof.
  split.
  - intros d flt f x Hd Hex Hx Hp.
    assert (Hns : forall g, frel g = frel f -> SecurityAuditor.is_source_file d g = false).
    { intros g E. unfold SecurityAuditor.is_source_file, fstr. rewrite E.
      unfold sa_excluded, fstr in Hex.
      destruct Hex as [-> | [-> | ->]]; simpl; rewrite ?andb_false_r; reflexivity. }
    apply sa_report_In in Hx.
    rewrite sa_raw_findings_spec, !in_app_iff in Hx.
    destruct Hx as [Hx|[Hx|[Hx|Hx]]].
    + apply sa_dart_In in Hx.
      destruct Hx as (g & content & r & n & ln & _ & Hs & _ & _ & _ & _ & _ & ->).
      simpl in Hp. rewrite (Hns g Hp) in Hs. discriminate.
    + apply sa_manifests_In in Hx.
      destruct Hx as (_ & g & content & r & n & ln & Hg & _ & _ & _ & ->).
      simpl in Hp. apply rglob_In in Hg. destruct Hg as [_ Hg].
      pose proof (dart_not_named f g "AndroidManifest.xml" Hd Hp Hg). discriminate.
    + apply sa_plists_In in Hx. destruct Hx as (_ & g & Hg & ->).
      simpl in Hp. apply rglob_In in Hg. destruct Hg as [_ Hg].
      pose proof (dart_not_named f g "Info.plist" Hd Hp Hg). discriminate.
    + apply sa_pubspec_In in Hx. destruct Hx as (_ & Hx).
      unfold is_dart in Hd.
      simpl in Hx. destruct Hx as [<-|[<-|[<-|[]]]]; simpl in Hp;
        rewrite <- Hp in Hd; discriminate.
  - intros d f x Hd Hex Hx Hp.
    assert (Hns : forall g, frel g = frel f -> BLE.is_source_file d g = false).
    { intros g E. unfold BLE.is_source_file, fstr. rewrite E.
      unfold ble_excluded, fstr in Hex.
      destruct Hex as [-> | ->]; simpl; rewrite ?andb_false_r; reflexivity. }
    apply ble_report_In in Hx.
    rewrite ble_raw_findings_spec, !in_app_iff in Hx.
    assert (Hscan : forall patterns cat, ~ In x (ble_scan patterns cat d)).
    { intros patterns cat Hx'. apply ble_scan_In in Hx'.
      destruct Hx' as (g & content & r & n & ln & _ & Hs & _ & _ & _ & _ & ->).
      simpl in Hp. rewrite (Hns g Hp) in Hs. discriminate. }
    destruct Hx as [Hx|[Hx|[Hx|[Hx|Hx]]]]; try (now apply Hscan in Hx).
    + apply ble_validation_In in Hx.
      destruct Hx as (g & content & n & ln & _ & Hs & _ & _ & _ & _ & ->).
      simpl in Hp. rewrite (Hns g Hp) in Hs. discriminate.
    + apply ble_permissions_In in Hx.
      destruct Hx as (_ & _ & _ & g & Hg & E). rewrite E in Hp.
      destruct Hg as [Hg|Hg]; apply rglob_In in Hg; destruct Hg as [_ Hg].
      * pose proof (dart_not_named f g "AndroidManifest.xml" Hd Hp Hg). discriminate.
      * pose proof (dart_not_named f g "Info.plist" Hd Hp Hg). discriminate.
Qed.

Lemma frel_inj_in (l : list file) (a b : file) :
  List.NoDup (List.map frel l) -> In a l -> In b l -> frel a = frel b -> a = b.
Proof.
  induction l as [|c l IH]; simpl; [tauto|].
  intros Hnd Ha Hb E. apply NoDup_cons_iff in Hnd. destruct Hnd as [Hc Hnd].
  destruct Ha as [->|Ha], Hb as [->|Hb]; auto.
  - exfalso. apply Hc. rewrite E. now apply in_map.
  - exfalso. apply Hc. rewrite <- E. now apply in_map.
Qed.

(** Stripping the right end keeps a prefix that has no white space. *)
Lemma prefix_rstrip (p s : string) :
  forallb (fun c => negb (isspace c)) (list_ascii_of_string p) = true ->
  String.prefix p s = true -> String.prefix p (rstrip s) = true.
Proof.
  revert s. induction p as [|a p IH]; intros s Hp Hs.
  { now destruct (rstrip s). }
  destruct s as [|c s]; [discriminate|].
  simpl in Hp. apply andb_true_iff in Hp. destruct Hp as [Ha Hp].
  simpl in Hs. destruct (ascii_dec a c) as [<-|]; [|discriminate].
  specialize (IH s Hp Hs). simpl.
  destruct (rstrip s) as [|c' r] eqn:Er.
  - apply negb_true_iff in Ha. rewrite Ha. simpl.
    destruct (ascii_dec a a); [exact IH|congruence].
  - simpl. destruct (ascii_dec a a); [exact IH|congruence].
Qed.

Lemma is_comment_strip (ln : string) :
  SecurityAuditor.is_comment (lstrip ln) = true ->
  SecurityAuditor.is_comment (strip ln) = true.
Proof.
  unfold SecurityAuditor.is_comment, strip, startswith.
  rewrite !orb_true_iff. intros [[Hp|Hp]|Hp].
  - left. left. now apply prefix_rstrip.
  - left. right. now apply prefix_rstrip.
  - right. now apply prefix_rstrip.
Qed.

(** C5 (as amended): in the Dart scan of the security auditor, a line that
    begins, after its leading white space, with [//], [*] or [///] yields no
    finding: the report has no finding at that line of that file. (The line
    scans of the BLE analyzer do not look at comment markers.) *)
Theorem C5_comment_lines_yield_no_finding
  (d : fs) (flt : option string) (f : file) (content : string) (n : nat)
  (ln : string) :
  List.NoDup (List.map frel (tree d)) ->
  In f (tree d) -> is_dart f ->
  fcontent f = Some content ->
  split_nl content !! n = Some ln ->
  SecurityAuditor.is_comment (lstrip ln) = true ->
  forall x,
    In x (SecurityAuditor.r_findings (SecurityAuditor.report d flt)) ->
    ~ (SecurityAuditor.file_path x = frel f /\ SecurityAuditor.line x = S n).
Proof.
  intros Hnd Hf Hd Hc Hn Hcm x Hx [Hp Hl].
  apply is_comment_strip in Hcm.
  apply sa_report_In in Hx.
  rewrite sa_raw_findings_spec, !in_app_iff in Hx.
  destruct Hx as [Hx|[Hx|[Hx|Hx]]].
  - apply sa_dart_In in Hx.
    destruct Hx as (g & content' & r & n' & ln' & Hg & _ & Hc' & _ & Hn' & Hcm' & _ & ->).
    simpl in Hp, Hl. apply rglob_In in Hg. destruct Hg as [Hg _].
    assert (g = f) by (eapply frel_inj_in; eauto). subst g.
    injection Hl as ->. congruence.
  - apply sa_manifests_In in Hx.
    destruct Hx as (_ & g & content' & r & n' & ln' & Hg & _ & _ & _ & ->).
    simpl in Hp. apply rglob_In in Hg. destruct Hg as [_ Hg].
    pose proof (dart_not_named f g "AndroidManifest.xml" Hd Hp Hg). discriminate.
  - apply sa_plists_In in Hx. destruct Hx as (_ & g & _ & ->). discriminate.
  - apply sa_pubspec_In in Hx. destruct Hx as (_ & Hx).
    simpl in Hx. destruct Hx as [<-|[<-|[<-|[]]]]; discriminate.
Qed.

Lemma length_slice_to (n : nat) (s : string) :
  String.length (slice_to n s) = Nat.min n (String.length s).
Proof.
  unfold slice_to. revert s. induction n as [|n IH]; intros s.
  - now destruct s.
  - destruct s as [|c s]; [reflexivity|]. simpl. now rewrite IH.
Qed.

(** C8 (as amended): the snippet of a finding made from a line is the
    first 120 characters of the line without its leading and trailing white
    space: its length is the smaller of 120 and the length of the stripped
    line, hence exactly 120 when the stripped line is longer than that. *)
Theorem C8_snippet_is_stripped_line_cut_at_120 :
  (forall d flt x,
     In x (SecurityAuditor.r_findings (SecurityAuditor.report d flt)) ->
     SecurityAuditor.line x <> 0 ->
     exists f content ln,
       In f (tree d) /\ fcontent f = Some content
       /\ SecurityAuditor.file_path x = frel f
       /\ split_nl content !! (SecurityAuditor.line x - 1) = Some ln
       /\ SecurityAuditor.code_snippet x = slice_to 120 (strip ln)
       /\ String.length (SecurityAuditor.code_snippet x)
          = Nat.min 120 (String.length (strip ln)))
  /\ (forall d x,
        In x (BLE.r_findings (BLE.report d)) ->
        BLE.line x <> 0 ->
        exists f content ln,
          In f (tree d) /\ fcontent f = Some content
          /\ BLE.file_path x = frel f
          /\ split_nl content !! (BLE.line x - 1) = Some ln
          /\ BLE.code_snippet x = slice_to 120 (strip ln)
          /\ String.length (BLE.code_snippet x)
             = Nat.min 120 (String.length (strip ln))).
Proof.
  split.
  - intros d flt x Hx Hl. apply sa_report_In in Hx.
    rewrite sa_raw_findings_spec, !in_app_iff in Hx.
    destruct Hx as [Hx|[Hx|[Hx|Hx]]].
    + apply sa_dart_In in Hx.
      destruct Hx as (f & content & r & n & ln & Hf & _ & Hc & _ & Hn & _ & _ & ->).
      apply rglob_In in Hf. exists f, content, ln. cbn.
      rewrite Nat.sub_0_r, length_slice_to. tauto.
    + apply sa_manifests_In in Hx.
      destruct Hx as (_ & f & content & r & n & ln & Hf & Hc & _ & Hn & ->).
      apply rglob_In in Hf. exists f, content, ln. cbn.
      rewrite Nat.sub_0_r, length_slice_to. tauto.
    + apply sa_plists_In in Hx. destruct Hx as (_ & f & _ & ->). now cbn in Hl.
    + apply sa_pubspec_In in Hx. destruct Hx as (_ & Hx).
      simpl in Hx. destruct Hx as [<-|[<-|[<-|[]]]]; now cbn in Hl.
  - intros d x Hx Hl. apply ble_report_In in Hx.
    rewrite ble_raw_findings_spec, !in_app_iff in Hx.
    assert (Hscan : forall patterns cat, In x (ble_scan patterns cat d) ->
              exists f content ln,
                In f (tree d) /\ fcontent f = Some content
                /\ BLE.file_path x = frel f
                /\ split_nl content !! (BLE.line x - 1) = Some ln
                /\ BLE.code_snippet x = slice_to 120 (strip ln)
                /\ String.length (BLE.code_snippet x)
                   = Nat.min 120 (String.length (strip ln))).
    { intros patterns cat Hx'. apply ble_scan_In in Hx'.
      destruct Hx' as (f & content & r & n & ln & Hf & _ & Hc & _ & Hn & _ & ->).
      apply rglob_In in Hf. exists f, content, ln. cbn.
      rewrite Nat.sub_0_r, length_slice_to. tauto. }
    destruct Hx as [Hx|[Hx|[Hx|[Hx|Hx]]]]; try (now apply Hscan in Hx).
    + apply ble_validation_In in Hx.
      destruct Hx as (f & content & n & ln & Hf & _ & Hc & Hn & _ & _ & ->).
      apply rglob_In in Hf. exists f, content, ln. cbn.
      rewrite Nat.sub_0_r, length_slice_to. tauto.
    + apply ble_permissions_In in Hx. destruct Hx as (_ & E & _). congruence.
Qed.

(** A finding of category "transport" was made by the data-validation audit. *)
Lemma ble_transport_In d x :
  In x (BLE.raw_findings d) -> BLE.category x = "transport" ->
  In x (ble_validation d).
Proof.
  rewrite ble_raw_findings_spec, !in_app_iff.
  assert (Hscan : forall patterns cat, cat <> "transport" ->
            In x (ble_scan patterns cat d) -> BLE.category x <> "transport").
  { intros patterns cat Hne Hx. apply ble_scan_In in Hx.
    destruct Hx as (f & content & r & n & ln & _ & _ & _ & _ & _ & _ & ->).
    exact Hne. }
  intros [Hx|[Hx|[Hx|[Hx|Hx]]]] Hc; try exact Hx.
  - now apply Hscan in Hx.
  - now apply Hscan in Hx.
  - now apply Hscan in Hx.
  - apply ble_permissions_In in Hx. destruct Hx as (E & _). congruence.
Qed.

Lemma window_after (lines : list string) (i : nat) :
  slice i (i + 15) lines = firstn 15 (skipn i lines).
Proof. unfold slice. now replace (i + 15 - i) with 15 by lia. Qed.

(** C6: for a trigger line of a scanned, readable Dart file, the report
    holds no unvalidated-handler finding at that line when one of the
    validation patterns occurs in the text of the 15 lines after it, and
    exactly one, at the 1-based number of the trigger line, when none does. *)
Theorem C6_windowed_validation
  (d : fs) (f : file) (content : string) (n : nat) (ln : string) :
  List.NoDup (List.map frel (tree d)) ->
  In f (rglob d "*.dart") -> BLE.is_source_file d f = true ->
  fcontent f = Some content ->
  split_nl content !! n = Some ln ->
  any (fun hp => re_search (fst hp) true ln) BLE.handler_patterns = true ->
  let window := join_nl (firstn 15 (skipn (S n) (split_nl content))) in
  let validated := any (fun vp => re_search vp false window) BLE.validation_patterns in
  count_if (ble_unvalidated_at (frel f) (S n)) (BLE.r_findings (BLE.report d))
  = if validated then 0 else 1.
Proof.
  intros Hnd Hf Hs Hc Hn Htrig window validated.
  assert (Hv : BLE.has_validation (split_nl content) (S n) = validated).
  { unfold BLE.has_validation. cbv zeta. now rewrite window_after. }
  assert (Hre : re_search
                  "onValueReceived|onCharacteristicReceived|onData|onValueChanged"
                  true ln = true).
  { unfold any in Htrig. cbn in Htrig. now rewrite orb_false_r in Htrig. }
  set (k0 := BLE.key (BLE.unvalidated_handler (frel f) (S n) ln)).
  assert (Hkey : forall x, BLE.key x = k0 ->
             BLE.category x = "transport" /\ BLE.file_path x = frel f
             /\ BLE.line x = S n).
  { intros x Ek. split; [|split].
    - apply (f_equal (fun k => fst (fst (fst k)))) in Ek. exact Ek.
    - apply (f_equal (fun k => snd (fst k))) in Ek. exact Ek.
    - apply (f_equal snd) in Ek. exact Ek. }
  assert (Hp : forall x, In x (BLE.raw_findings d) ->
             ble_unvalidated_at (frel f) (S n) x = bool_decide (BLE.key x = k0)).
  { intros x Hx. unfold ble_unvalidated_at.
    destruct (bool_decide (BLE.key x = k0)) eqn:Ek.
    - apply bool_decide_eq_true, Hkey in Ek. destruct Ek as (E1 & E2 & E3).
      rewrite E1, E2, E3, Nat.eqb_refl, !String.eqb_refl. reflexivity.
    - apply bool_decide_eq_false in Ek.
      destruct (String.eqb (BLE.category x) "transport") eqn:E1; [|reflexivity].
      destruct (String.eqb (BLE.file_path x) (frel f)) eqn:E2; [|reflexivity].
      destruct (BLE.line x =? S n) eqn:E3; [|reflexivity].
      exfalso. apply Ek. apply String.eqb_eq in E1, E2. apply Nat.eqb_eq in E3.
      apply ble_transport_In, ble_validation_In in Hx; [|exact E1].
      destruct Hx as (g & c' & n' & ln' & _ & _ & _ & _ & _ & _ & ->).
      change (frel g = frel f) in E2. change (S n' = S n) in E3.
      unfold k0, BLE.key, BLE.unvalidated_handler.
      cbn [BLE.category BLE.description BLE.file_path BLE.line].
      rewrite E2, E3. reflexivity. }
  assert (Hk0 : BLE.key (BLE.unvalidated_handler (frel f) (S n) ln) = k0)
    by reflexivity.
  clearbody k0 validated. clear window.
  rewrite (count_if_with_key BLE.key k0 (ble_unvalidated_at (frel f) (S n))
             (BLE.r_findings (BLE.report d))).
  2:{ intros x Hx. apply Hp, ble_report_In, Hx. }
  rewrite (ble_report_with_key d k0).
  destruct validated.
  - assert (E : with_key BLE.key k0 (BLE.raw_findings d) = []).
    { destruct (with_key BLE.key k0 (BLE.raw_findings d)) as [|x l] eqn:El;
        [reflexivity|exfalso].
      assert (Hx : In x (with_key BLE.key k0 (BLE.raw_findings d)))
        by (rewrite El; now left).
      apply with_key_In in Hx. destruct Hx as [Hx Hk].
      apply Hkey in Hk. destruct Hk as (E1 & E2 & E3).
      apply ble_transport_In, ble_validation_In in Hx; [|exact E1].
      destruct Hx as (g & c' & n' & ln' & Hg & _ & Hc' & _ & _ & Hv' & ->).
      change (frel g = frel f) in E2. change (S n' = S n) in E3.
      injection E3 as ->.
      apply rglob_In in Hg, Hf. destruct Hg as [Hg _], Hf as [Hf _].
      assert (g = f) by (eapply frel_inj_in; eauto). subst g.
      rewrite Hc in Hc'. injection Hc' as <-.
      rewrite Hv in Hv'. discriminate. }
    now rewrite E.
  - assert (Hin : In (BLE.unvalidated_handler (frel f) (S n) ln)
                    (with_key BLE.key k0 (BLE.raw_findings d))).
    { apply with_key_In. split; [|exact Hk0].
      rewrite ble_raw_findings_spec, !in_app_iff. do 3 right. left.
      apply ble_validation_In. exists f, content, n, ln.
      apply rglob_In in Hf as Hf'. repeat split; tauto. }
    destruct (with_key BLE.key k0 (BLE.raw_findings d)); [destruct Hin|reflexivity].
Qed.

End Claims.

(* ===================================================================== *)
(** * The reference matcher on the rule tables *)
(* ===================================================================== *)

Section Matcher.
Import Py.

(** Every pattern of the analyzers is within the fragment [Re.compile] reads. *)
Lemma all_patterns_compile :
  forallb (fun p => match Re.compile p with Some _ => true | None => false end)
    all_patterns = true.
Proof. vm_compute. reflexivity. Qed.

Example search_word_boundary :
  Re.search "\bRandom\(\)" true "final r = Random();" = true
  /\ Re.search "\bRandom\(\)" true "final r = SecureRandom();" = false.
Proof. split; vm_compute; reflexivity. Qed.

Example search_ignores_case :
  Re.search "requestMtu" true "await device.REQUESTMTU(512);" = true
  /\ Re.search "sodium" false "import 'Sodium.dart';" = false.
Proof. split; vm_compute; reflexivity. Qed.

Example search_negative_lookahead :
  Re.search "\.decode\([^)]*\)(?!\s*(?:catch|try))" true "x.decode(data);" = true
  /\ Re.search "\.decode\([^)]*\)(?!\s*(?:catch|try))" true "x.decode(data) try" = false.
Proof. split; vm_compute; reflexivity. Qed.

Example search_bounded_repeat :
  Re.search "(?:maxCentral|maxConnect).*(?:\d{2,})" true "maxConnect = 12" = true
  /\ Re.search "(?:maxCentral|maxConnect).*(?:\d{2,})" true "maxConnect = 6" = false.
Proof. split; vm_compute; reflexivity. Qed.

Example finditer_starts :
  Re.finditer "Random\(\)" true ("a" ++ nl ++ "Random() x random()") = [2; 13].
Proof. vm_compute. reflexivity. Qed.

End Matcher.

(* ===================================================================== *)
(** * The claims on concrete trees *)
(* ===================================================================== *)

Section Concrete.
Import Py.


(** C2, as stated, fails for the threat modeler: two calls of [Random()] on
    one line give two custom threats with the same description and the same
    location, and both are listed. *)
Lemma C2_threats_not_deduplicated :
  ~ List.NoDup
      (List.map tm_key
         (ThreatModeler.r_threats (@ThreatModeler.modelled Re.py_re tree_two_randoms))).
Proof.
  remember (List.map tm_key _) as l eqn:El.
  vm_compute in El. subst l. intros Hnd.
  rewrite NoDup_nth_error in Hnd.
  specialize (Hnd 24 25 ltac:(simpl; lia) eq_refl). discriminate.
Qed.

(** C3 on a tree in which no component pattern occurs. *)
Lemma C3_witness :
  ThreatModeler.components_found (@ThreatModeler.modelled Re.py_re tree_plain) = []
  /\ List.Forall
       (fun t => In t (ThreatModeler.r_threats
                         (@ThreatModeler.modelled Re.py_re tree_plain)))
       (flat_map ThreatModeler.threats (List.map snd ThreatModeler.BLE_MESH_THREATS)).
Proof.
  assert (E : ThreatModeler.components_found
                (@ThreatModeler.modelled Re.py_re tree_plain) = [])
    by (vm_compute; reflexivity).
  split; [exact E|].
  apply List.Forall_forall. intros t Ht.
  apply in_flat_map in Ht. destruct Ht as (m & Hm & Ht).
  apply in_map_iff in Hm. destruct Hm as ([k m'] & Em & Hm). simpl in Em. subst m'.
  exact (proj1 (@C3_no_component_includes_whole_catalog Re.py_re tree_plain E)
           k m t Hm Ht).
Defined.

(** C4, as stated, fails for the threat modeler: a file below [test/] gets
    a custom threat. *)
Lemma C4_test_file_gets_custom_threat :
  is_dart test_file
  /\ contains "/test/" (replace_backslash (fstr tree_test_file test_file)) = true
  /\ exists t,
       In t (ThreatModeler.r_threats (@ThreatModeler.modelled Re.py_re tree_test_file))
       /\ ThreatModeler.file_path t = Some "test/a.dart:1".
Proof.
  split; [reflexivity|]. split; [reflexivity|].
  remember (ThreatModeler.r_threats (@ThreatModeler.modelled Re.py_re tree_test_file))
    as l eqn:El.
  vm_compute in El. subst l.
  eexists. split; [do 24 right; left; reflexivity|reflexivity].
Qed.

(** C4 on the same tree, for the security auditor. *)
Lemma C4_witness :
  List.Forall (fun x => SecurityAuditor.file_path x <> "test/a.dart")
    (SecurityAuditor.r_findings
       (@SecurityAuditor.report Re.py_re tree_test_file None)).
Proof.
  apply List.Forall_forall. intros x Hx.
  apply (proj1 (@C4_excluded_files_get_no_finding Re.py_re)
           tree_test_file None test_file x); [reflexivity| |exact Hx].
  left. reflexivity.
Defined.

(** C5, as stated, fails for the BLE analyzer: a comment line that mentions
    an advertising name gets a finding. *)
Lemma C5_comment_line_gets_ble_finding :
  SecurityAuditor.is_comment (lstrip comment_line) = true
  /\ exists x,
       In x (BLE.r_findings (@BLE.report Re.py_re tree_comment))
       /\ BLE.file_path x = "a.dart" /\ BLE.line x = 1
       /\ BLE.code_snippet x = comment_line.
Proof.
  split; [reflexivity|].
  remember (BLE.r_findings (@BLE.report Re.py_re tree_comment)) as l eqn:El.
  vm_compute in El. subst l.
  eexists. split; [left; reflexivity|]. repeat split.
Qed.

(** C5 on the same tree, for the security auditor. *)
Lemma C5_witness :
  List.Forall
    (fun x => ~ (SecurityAuditor.file_path x = "a.dart" /\ SecurityAuditor.line x = 1))
    (SecurityAuditor.r_findings (@SecurityAuditor.report Re.py_re tree_comment None)).
Proof.
  apply List.Forall_forall. intros x Hx.
  apply (@C5_comment_lines_yield_no_finding Re.py_re tree_comment None
           comment_file comment_line 0 comment_line).
  - repeat constructor. simpl. tauto.
  - now left.
  - reflexivity.
  - reflexivity.
  - reflexivity.
  - reflexivity.
  - exact Hx.
Defined.

(** C6 on a handler with no length check in the lines after it. *)
Lemma C6_witness :
  count_if (ble_unvalidated_at (frel handler_file) 1)
    (BLE.r_findings (@BLE.report Re.py_re tree_handler)) = 1.
Proof.
  assert (W := @C6_windowed_validation Re.py_re tree_handler handler_file
                 handler_text 0 handler_line).
  assert (H1 : List.NoDup (List.map frel (tree tree_handler)))
    by (repeat constructor; simpl; tauto).
  assert (H2 : In handler_file (rglob tree_handler "*.dart")) by (now left).
  assert (H3 : any (fun hp => @re_search Re.py_re (fst hp) true handler_line)
                 BLE.handler_patterns = true) by (vm_compute; reflexivity).
  specialize (W H1 H2 eq_refl eq_refl eq_refl H3). cbv zeta in W.
  rewrite W. vm_compute. reflexivity.
Defined.

(** C7 with the filter "crypto". *)
Lemma C7_witness :
  List.Forall (sa_from_category "crypto")
    (SecurityAuditor.r_findings
       (@SecurityAuditor.report Re.py_re tree_two_randoms (Some "crypto"))).
Proof.
  apply List.Forall_forall. intros x Hx.
  apply (proj1 (@C7_filter_keeps_only_its_category Re.py_re "crypto"
                  ltac:(simpl; tauto)) tree_two_randoms x Hx).
Defined.

(** C8, as stated, fails: a matched line of 133 characters, 125 of them
    leading spaces, gives a snippet of 8 characters. *)
Lemma C8_long_line_short_snippet :
  exists x,
    In x (SecurityAuditor.r_findings
            (@SecurityAuditor.report Re.py_re tree_indented None))
    /\ SecurityAuditor.line x = 1
    /\ split_nl indented_line !! 0 = Some indented_line
    /\ 120 < String.length indented_line
    /\ String.length (SecurityAuditor.code_snippet x) <> 120.
Proof.
  remember (SecurityAuditor.r_findings
              (@SecurityAuditor.report Re.py_re tree_indented None)) as l eqn:El.
  vm_compute in El. subst l.
  eexists. split; [left; reflexivity|].
  split; [reflexivity|]. split; [reflexivity|].
  split; [vm_compute; lia|vm_compute; lia].
Qed.

(** C8 on a matched line that is longer than 120 characters when stripped. *)
Lemma C8_witness :
  List.Forall
    (fun x => SecurityAuditor.line x <> 0 ->
              String.length (SecurityAuditor.code_snippet x) = 120)
    (SecurityAuditor.r_findings (@SecurityAuditor.report Re.py_re tree_long None)).
Proof.
  apply List.Forall_forall. intros x Hx Hl.
  destruct (proj1 (@C8_snippet_is_stripped_line_cut_at_120 Re.py_re)
              tree_long None x Hx Hl)
    as (f & content & ln & Hf & Hc & _ & Hn & _ & Hlen).
  destruct Hf as [<-|[]]. injection Hc as <-.
  change (split_nl long_line) with [long_line] in Hn.
  destruct (SecurityAuditor.line x - 1) as [|k].
  - change ([long_line] !! 0) with (Some long_line) in Hn. injection Hn as <-.
    rewrite Hlen. vm_compute. reflexivity.
  - change ([long_line] !! S k) with (@nil string !! k) in Hn.
    rewrite lookup_nil in Hn. discriminate.
Defined.

End Concrete.

(* ===================================================================== *)
(** * Aggregation: further facts *)
(* ===================================================================== *)

Section AggregationFacts.
Context {A K : Type} `{Countable K} (key : A -> K).

(** Deduplicating a list without duplicate keys changes nothing. *)
Lemma first_by_key_NoDup_id seen l :
  List.NoDup (List.map key l) ->
  (forall x, In x l -> key x ∉ seen) ->
  first_by_key key seen l = l.
Proof.
  revert seen. induction l as [|x l IH]; intros seen Hnd Hs; [reflexivity|].
  simpl. simpl in Hnd. apply NoDup_cons_iff in Hnd. destruct Hnd as [Hx Hnd].
  rewrite decide_False by (apply Hs; now left).
  f_equal. apply IH; [exact Hnd|].
  intros y Hy Hin. apply elem_of_union in Hin. destruct Hin as [Hin|Hin].
  - apply elem_of_singleton in Hin. apply Hx. rewrite <- Hin. now apply in_map.
  - apply (Hs y); [now right|exact Hin].
Qed.

(** Selecting by a test that entries with the same key pass or fail
    together commutes with the deduplication. *)
Lemma filter_first_by_key (p : A -> bool) s1 s2 l :
  (forall x y, In x l -> In y l -> key x = key y -> p x = p y) ->
  (forall y, In y l -> p y = true -> (key y ∈ s1 <-> key y ∈ s2)) ->
  List.filter p (first_by_key key s1 l) = first_by_key key s2 (List.filter p l).
Proof.
  revert s1 s2. induction l as [|x l IH]; intros s1 s2 Hp Hs; [reflexivity|].
  assert (Hp' : forall a b, In a l -> In b l -> key a = key b -> p a = p b).
  { intros a b Ha Hb. apply Hp; now right. }
  simpl. destruct (p x) eqn:Px.
  - simpl. destruct (decide (key x ∈ s1)) as [H1|H1].
    + rewrite decide_True by (apply (Hs x); [now left|exact Px|exact H1]).
      apply IH; [exact Hp'|]. intros y Hy. apply Hs. now right.
    + rewrite decide_False
        by (intros H2; apply H1, (Hs x); [now left|exact Px|exact H2]).
      simpl. rewrite Px. f_equal. apply IH; [exact Hp'|].
      intros y Hy Py. rewrite !elem_of_union.
      specialize (Hs y (or_intror Hy) Py). tauto.
  - destruct (decide (key x ∈ s1)) as [H1|H1].
    + apply IH; [exact Hp'|]. intros y Hy. apply Hs. now right.
    + simpl. rewrite Px. apply IH; [exact Hp'|].
      intros y Hy Py. rewrite elem_of_union, elem_of_singleton.
      specialize (Hs y (or_intror Hy) Py).
      assert (key y <> key x).
      { intros E. pose proof (Hp y x (or_intror Hy) (or_introl eq_refl) E). congruence. }
      tauto.
Qed.

(** When entries with the same key have the same rank, sorting and then
    deduplicating gives what deduplicating and then sorting gives. *)
Lemma dedup_sort_commute (rank : A -> nat) (l : list A) :
  (forall x y, In x l -> In y l -> key x = key y -> rank x = rank y) ->
  first_by_key key ∅ (Py.sort_by rank l)
  = Py.sort_by rank (first_by_key key ∅ l).
Proof.
  intros Hsame. apply sort_by_unique.
  - apply first_by_key_sorted, sort_by_sorted.
  - intros r.
    assert (Hsame' : forall l', (forall x, In x l' -> In x l) ->
              forall x y, In x l' -> In y l' -> key x = key y ->
              (rank x =? r) = (rank y =? r)).
    { intros l' Hsub x y Hx Hy E. now rewrite (Hsame x y (Hsub _ Hx) (Hsub _ Hy) E). }
    rewrite (filter_first_by_key _ ∅ ∅ (Py.sort_by rank l)).
    + rewrite sort_by_stable.
      symmetry. apply filter_first_by_key; [|tauto].
      apply Hsame'. tauto.
    + apply Hsame'. intros x. apply sort_by_In.
    + tauto.
Qed.

End AggregationFacts.

Section CountFacts.
Context {A : Type} (h : A -> string).

Lemma count_by_lookup (l : list A) (d : gmap string nat) (k : string) :
  count_by h l d !! k
  = match d !! k with
    | Some v => Some (v + occurrences h k l)
    | None => if occurrences h k l =? 0 then None else Some (occurrences h k l)
    end.
Proof.
  unfold count_by, Py.for_each, occurrences, count_if. revert d.
  induction l as [|x l IH]; intros d; simpl.
  - destruct (d !! k) as [v|]; [f_equal; lia|reflexivity].
  - rewrite IH. unfold Py.incr.
    destruct (String.eqb (h x) k) eqn:E.
    + apply String.eqb_eq in E. subst k. rewrite lookup_insert_eq. simpl.
      destruct (d !! h x) as [v|]; simpl; f_equal; lia.
    + apply String.eqb_neq in E. rewrite lookup_insert_ne by exact E.
      reflexivity.
Qed.

(** A summary loop counts, under every heading, the entries that have it,
    and has no entry for a heading that does not occur. *)
Lemma count_by_empty_lookup (l : list A) (k : string) (n : nat) :
  count_by h l ∅ !! k = Some n <-> n = occurrences h k l /\ 0 < n.
Proof.
  rewrite count_by_lookup, lookup_empty.
  destruct (occurrences h k l =? 0) eqn:E.
  - apply Nat.eqb_eq in E. split; [discriminate|]. lia.
  - apply Nat.eqb_neq in E. split.
    + intros [= <-]. lia.
    + intros [-> _]. reflexivity.
Qed.

Lemma summary_loop_split (h2 : A -> string) (l : list A)
  (d1 d2 : gmap string nat) :
  Py.for_each l (fun x st => (Py.incr (h x) (fst st), Py.incr (h2 x) (snd st)))
    (d1, d2)
  = (count_by h l d1, count_by h2 l d2).
Proof.
  unfold count_by, Py.for_each. revert d1 d2.
  induction l as [|x l IH]; intros d1 d2; simpl; [reflexivity|apply IH].
Qed.

End CountFacts.

(* ===================================================================== *)
(** * The aggregators, in full *)
(* ===================================================================== *)

Section AggregatorFacts.
Context `{Regex}.
Import Py.

Lemma sa_dedup_eq l :
  SecurityAuditor.dedup l = first_by_key SecurityAuditor.key ∅ l.
Proof. exact (dedup_loop_spec SecurityAuditor.key l ∅ []). Qed.

Lemma ble_dedup_eq l : BLE.dedup l = first_by_key BLE.key ∅ l.
Proof. exact (dedup_loop_spec BLE.key l ∅ []). Qed.

(** The report of the security auditor as a function of its findings. *)
Lemma sa_generate_report_eq self :
  let l := first_by_key SecurityAuditor.key ∅
             (sort_by (fun f => SecurityAuditor.severity_order (SecurityAuditor.severity f))
                (SecurityAuditor.findings self)) in
  SecurityAuditor.generate_report self
  = (SecurityAuditor.mkAuditor (SecurityAuditor.world self)
       (SecurityAuditor.check_filter self) l,
     SecurityAuditor.mkReport (target (SecurityAuditor.world self)) (List.length l)
       (count_by SecurityAuditor.severity l ∅)
       (count_by SecurityAuditor.check l ∅) l).
Proof.
  intros l. unfold SecurityAuditor.generate_report. cbv zeta.
  cbn [SecurityAuditor.findings SecurityAuditor.world SecurityAuditor.check_filter].
  rewrite sa_dedup_eq. fold l.
  change SecurityAuditor.summary_step
    with (fun (x : SecurityAuditor.Finding) (st : gmap string nat * gmap string nat) =>
            (incr (SecurityAuditor.severity x) (fst st),
             incr (SecurityAuditor.check x) (snd st))).
  rewrite (summary_loop_split SecurityAuditor.severity SecurityAuditor.check l ∅ ∅).
  reflexivity.
Qed.

Lemma ble_generate_report_eq self :
  let l := first_by_key BLE.key ∅
             (sort_by (fun f => BLE.severity_order (BLE.severity f))
                (BLE.findings self)) in
  BLE.generate_report self
  = (BLE.mkAnalyzer (BLE.world self) l,
     BLE.mkReport (target (BLE.world self)) (List.length l)
       (count_by BLE.severity l ∅) (count_by BLE.category l ∅) l).
Proof.
  intros l. unfold BLE.generate_report. cbv zeta.
  cbn [BLE.findings BLE.world].
  rewrite ble_dedup_eq. fold l.
  change BLE.summary_step
    with (fun (x : BLE.BLEFinding) (st : gmap string nat * gmap string nat) =>
            (incr (BLE.severity x) (fst st), incr (BLE.category x) (snd st))).
  rewrite (summary_loop_split BLE.severity BLE.category l ∅ ∅).
  reflexivity.
Qed.

(** Sorted and without duplicate keys: what a second pass leaves alone. *)
Lemma aggregate_twice {A K} `{Countable K} (key : A -> K) (rank : A -> nat)
  (raw : list A) :
  let l := first_by_key key ∅ (sort_by rank raw) in
  first_by_key key ∅ (sort_by rank l) = l.
Proof.
  intros l.
  rewrite (sort_by_sorted_id rank l)
    by (apply first_by_key_sorted, sort_by_sorted).
  apply first_by_key_NoDup_id; [apply first_by_key_NoDup|].
  intros x _. apply not_elem_of_empty.
Qed.

(** X1: [generate_report] is idempotent. Called again on the object it
    leaves behind, it returns the same report and leaves the same findings:
    sorted findings without duplicate keys are not changed by another sort
    and deduplication, and the counts are taken from the same list. *)
Theorem X1_generate_report_idempotent :
  (forall self,
     SecurityAuditor.generate_report (fst (SecurityAuditor.generate_report self))
     = SecurityAuditor.generate_report self)
  /\ (forall self,
        BLE.generate_report (fst (BLE.generate_report self))
        = BLE.generate_report self).
Proof.
  split.
  - intros self. rewrite (sa_generate_report_eq self). cbv zeta. cbn [fst].
    rewrite sa_generate_report_eq. cbv zeta.
    cbn [SecurityAuditor.findings SecurityAuditor.world SecurityAuditor.check_filter].
    now rewrite aggregate_twice.
  - intros self. rewrite (ble_generate_report_eq self). cbv zeta. cbn [fst].
    rewrite ble_generate_report_eq. cbv zeta. cbn [BLE.findings BLE.world].
    now rewrite aggregate_twice.
Qed.

Lemma sa_scanned_world d flt :
  SecurityAuditor.world (SecurityAuditor.scanned d flt) = d
  /\ SecurityAuditor.check_filter (SecurityAuditor.scanned d flt) = flt.
Proof.
  unfold SecurityAuditor.scanned.
  destruct (sa_dart_files_spec (SecurityAuditor.init d flt)) as (_ & W1 & C1).
  destruct (sa_android_manifest_spec
              (SecurityAuditor.audit_dart_files (SecurityAuditor.init d flt)))
    as (_ & W2 & C2).
  destruct (sa_ios_plist_spec
              (SecurityAuditor.audit_android_manifest
                 (SecurityAuditor.audit_dart_files (SecurityAuditor.init d flt))))
    as (_ & W3 & C3).
  destruct (sa_pubspec_spec
              (SecurityAuditor.audit_ios_plist
                 (SecurityAuditor.audit_android_manifest
                    (SecurityAuditor.audit_dart_files (SecurityAuditor.init d flt)))))
    as (_ & W4 & C4).
  rewrite W4, W3, W2, W1, C4, C3, C2, C1. split; reflexivity.
Qed.

Lemma ble_scanned_world d : BLE.world (BLE.scanned d) = d.
Proof.
  unfold BLE.scanned, BLE.audit_advertising, BLE.audit_gatt_permissions,
    BLE.audit_connection_security.
  rewrite (proj2 (ble_permissions_spec _)), (proj2 (ble_data_validation_spec _)),
    !(proj2 (ble_scan_lines_spec _ _ _)). reflexivity.
Qed.

(** The report of a run, from the findings in discovery order. *)
Lemma sa_report_eq d flt :
  let l := first_by_key SecurityAuditor.key ∅
             (sort_by (fun f => SecurityAuditor.severity_order (SecurityAuditor.severity f))
                (SecurityAuditor.raw_findings d flt)) in
  SecurityAuditor.report d flt
  = SecurityAuditor.mkReport (target d) (List.length l)
      (count_by SecurityAuditor.severity l ∅)
      (count_by SecurityAuditor.check l ∅) l.
Proof.
  intros l. unfold SecurityAuditor.report.
  rewrite sa_generate_report_eq. cbv zeta. cbn [snd].
  now rewrite (proj1 (sa_scanned_world d flt)).
Qed.

Lemma ble_report_eq d :
  let l := first_by_key BLE.key ∅
             (sort_by (fun f => BLE.severity_order (BLE.severity f))
                (BLE.raw_findings d)) in
  BLE.report d
  = BLE.mkReport (target d) (List.length l)
      (count_by BLE.severity l ∅) (count_by BLE.category l ∅) l.
Proof.
  intros l. unfold BLE.report.
  rewrite ble_generate_report_eq. cbv zeta. cbn [snd].
  now rewrite ble_scanned_world.
Qed.

Lemma sa_key_fixes_rank d flt x y :
  In x (SecurityAuditor.raw_findings d flt) ->
  In y (SecurityAuditor.raw_findings d flt) ->
  SecurityAuditor.key x = SecurityAuditor.key y ->
  SecurityAuditor.severity x = SecurityAuditor.severity y.
Proof.
  intros Hx Hy Hk. apply sa_raw_severity in Hx, Hy.
  apply (f_equal (fun k => fst (fst k))) in Hk. cbn in Hk. rewrite Hk in Hx.
  exact (functional_table_spec _ _ _ _ sa_check_severity_functional Hx Hy).
Qed.

Lemma ble_key_fixes_rank d x y :
  In x (BLE.raw_findings d) -> In y (BLE.raw_findings d) ->
  BLE.key x = BLE.key y -> BLE.severity x = BLE.severity y.
Proof.
  intros Hx Hy Hk. apply ble_raw_severity in Hx, Hy.
  apply (f_equal (fun k => snd (fst (fst k)))) in Hk. cbn in Hk. rewrite Hk in Hx.
  exact (functional_table_spec _ _ _ _ ble_description_severity_functional Hx Hy).
Qed.

(** X2: on the findings of a scan, sorting by severity and then
    deduplicating, which is what [generate_report] does, gives the same list
    as deduplicating in discovery order and then sorting: findings with the
    same key always have the same severity. *)
Theorem X2_sort_then_dedup_is_dedup_then_sort :
  (forall d flt,
     let rank := fun f => SecurityAuditor.severity_order (SecurityAuditor.severity f) in
     SecurityAuditor.dedup (sort_by rank (SecurityAuditor.raw_findings d flt))
     = sort_by rank (SecurityAuditor.dedup (SecurityAuditor.raw_findings d flt)))
  /\ (forall d,
        let rank := fun f => BLE.severity_order (BLE.severity f) in
        BLE.dedup (sort_by rank (BLE.raw_findings d))
        = sort_by rank (BLE.dedup (BLE.raw_findings d))).
Proof.
  split.
  - intros d flt rank. rewrite !sa_dedup_eq.
    apply dedup_sort_commute. intros x y Hx Hy Hk. unfold rank.
    pose proof (sa_key_fixes_rank d flt x y Hx Hy Hk) as E.
    rewrite E. reflexivity.
  - intros d rank. rewrite !ble_dedup_eq.
    apply dedup_sort_commute. intros x y Hx Hy Hk. unfold rank.
    pose proof (ble_key_fixes_rank d x y Hx Hy Hk) as E.
    rewrite E. reflexivity.
Qed.

(** X3: in every report, [by_severity] maps a severity to the number of
    listed findings (or threats) that have it and has no key for a severity
    that does not occur; the same holds of [by_check] and [by_category]. *)
Theorem X3_summary_counts_per_key (k : string) (n : nat) :
  (forall d flt,
     let R := SecurityAuditor.report d flt in
     (SecurityAuditor.by_severity R !! k = Some n
      <-> n = occurrences SecurityAuditor.severity k (SecurityAuditor.r_findings R)
          /\ 0 < n)
     /\ (SecurityAuditor.by_check R !! k = Some n
         <-> n = occurrences SecurityAuditor.check k (SecurityAuditor.r_findings R)
             /\ 0 < n))
  /\ (forall d,
        let R := BLE.report d in
        (BLE.by_severity R !! k = Some n
         <-> n = occurrences BLE.severity k (BLE.r_findings R) /\ 0 < n)
        /\ (BLE.by_category R !! k = Some n
            <-> n = occurrences BLE.category k (BLE.r_findings R) /\ 0 < n))
  /\ (forall d,
        let R := ThreatModeler.modelled d in
        exists s, ThreatModeler.summary R = Some s
          /\ (ThreatModeler.by_severity s !! k = Some n
              <-> n = occurrences ThreatModeler.severity k (ThreatModeler.r_threats R)
                  /\ 0 < n)
          /\ (ThreatModeler.by_category s !! k = Some n
              <-> n = occurrences ThreatModeler.category k (ThreatModeler.r_threats R)
                  /\ 0 < n)).
Proof.
  split; [|split].
  - intros d flt R. unfold R. rewrite sa_report_eq. cbv zeta.
    cbn [SecurityAuditor.by_severity SecurityAuditor.by_check SecurityAuditor.r_findings].
    split; apply count_by_empty_lookup.
  - intros d R. unfold R. rewrite ble_report_eq. cbv zeta.
    cbn [BLE.by_severity BLE.by_category BLE.r_findings].
    split; apply count_by_empty_lookup.
  - intros d R. unfold R, ThreatModeler.modelled, ThreatModeler.generate_report.
    cbv zeta.
    change ThreatModeler.summary_step
      with (fun (x : ThreatModeler.Threat) (st : gmap string nat * gmap string nat) =>
              (incr (ThreatModeler.severity x) (fst st),
               incr (ThreatModeler.category x) (snd st))).
    rewrite (summary_loop_split ThreatModeler.severity ThreatModeler.category _ ∅ ∅).
    cbn [ThreatModeler.results ThreatModeler.summary ThreatModeler.r_threats].
    eexists. split; [reflexivity|].
    cbn [ThreatModeler.by_severity ThreatModeler.by_category].
    split; apply count_by_empty_lookup.
Qed.

End AggregatorFacts.

(* ===================================================================== *)
(** * Keys of the findings of a scan *)
(* ===================================================================== *)

Section DistinctKeys.

Lemma map_inj_in {A B} (f : A -> B) (l : list A) (a b : A) :
  List.NoDup (List.map f l) -> In a l -> In b l -> f a = f b -> a = b.
Proof.
  induction l as [|c l IH]; cbn [List.map In]; [tauto|].
  intros Hnd Ha Hb E. apply NoDup_cons_iff in Hnd. destruct Hnd as [Hc Hnd].
  destruct Ha as [->|Ha], Hb as [->|Hb]; auto.
  - exfalso. apply Hc. rewrite E. now apply in_map.
  - exfalso. apply Hc. rewrite <- E. now apply in_map.
Qed.

Lemma NoDup_map_filter {A B} (f : A -> B) (p : A -> bool) (l : list A) :
  List.NoDup (List.map f l) -> List.NoDup (List.map f (List.filter p l)).
Proof.
  induction l as [|a l IH]; cbn [List.map List.filter]; [auto|].
  intros Hnd. apply NoDup_cons_iff in Hnd. destruct Hnd as [Ha Hnd].
  destruct (p a); [|auto]. cbn [List.map]. apply NoDup_cons_iff. split; [|auto].
  intros Hin. apply Ha. apply in_map_iff in Hin. destruct Hin as (b & E & Hb).
  apply filter_In in Hb. apply in_map_iff. exists b. tauto.
Qed.

Context {B K : Type} (key : B -> K).

Lemma NoDup_key_app (l1 l2 : list B) :
  List.NoDup (List.map key l1) -> List.NoDup (List.map key l2) ->
  (forall x y, In x l1 -> In y l2 -> key x <> key y) ->
  List.NoDup (List.map key (l1 ++ l2)).
Proof.
  induction l1 as [|a l1 IH]; cbn [List.map app]; [auto|].
  intros H1 H2 Hd. apply NoDup_cons_iff in H1. destruct H1 as [Ha H1].
  apply NoDup_cons_iff. split.
  - rewrite map_app, in_app_iff. intros [Hin|Hin]; [auto|].
    apply in_map_iff in Hin. destruct Hin as (y & E & Hy).
    apply (Hd a y); [now left|exact Hy|now symmetry].
  - apply IH; auto. intros x y Hx. apply Hd. now right.
Qed.

Lemma NoDup_key_flat_map {A} (g : A -> list B) (l : list A) :
  List.NoDup l ->
  (forall a, In a l -> List.NoDup (List.map key (g a))) ->
  (forall a b x y, In a l -> In b l -> In x (g a) -> In y (g b) ->
                   key x = key y -> a = b) ->
  List.NoDup (List.map key (flat_map g l)).
Proof.
  induction l as [|a l IH]; intros Hnd Hin Hinj; cbn [flat_map List.map];
    [constructor|].
  apply NoDup_cons_iff in Hnd. destruct Hnd as [Ha Hnd].
  apply NoDup_key_app.
  - apply Hin. now left.
  - apply IH; [exact Hnd| |].
    + intros b Hb. apply Hin. now right.
    + intros b c x y Hb Hc. apply Hinj; now right.
  - intros x y Hx Hy E. apply in_flat_map in Hy. destruct Hy as (b & Hb & Hy).
    assert (a = b) as -> by (apply (Hinj a b x y); auto; [now left|now right]).
    contradiction.
Qed.

Lemma NoDup_key_le1 (l : list B) :
  List.length l <= 1 -> List.NoDup (List.map key l).
Proof.
  destruct l as [|x [|y l]]; cbn [List.length List.map]; intros Hl.
  - constructor.
  - apply NoDup_cons_iff. split; [intros []|constructor].
  - lia.
Qed.

(** Every rule against every numbered line: a grid of at most one entry
    per cell, whose key shows the cell. *)
Lemma rules_lines_NoDup {R} (hit : R -> nat * string -> list B)
  (rules : list R) (lines : list string) :
  List.NoDup rules ->
  (forall r il, List.length (hit r il) <= 1) ->
  (forall r r' il il' x y, In r rules -> In r' rules ->
     In x (hit r il) -> In y (hit r' il') -> key x = key y ->
     r = r' /\ fst il = fst il') ->
  List.NoDup
    (List.map key
       (flat_map (fun r => flat_map (hit r) (Py.enumerate 1 lines)) rules)).
Proof.
  intros Hnd Hle Hinj. apply NoDup_key_flat_map; [exact Hnd| |].
  - intros r Hr. apply NoDup_key_flat_map.
    + apply (NoDup_map_inv fst), enumerate_NoDup_fst.
    + intros il _. apply NoDup_key_le1, Hle.
    + intros il il' x y Hil Hil' Hx Hy E.
      destruct (Hinj r r il il' x y Hr Hr Hx Hy E) as [_ Ei].
      exact (map_inj_in fst _ il il' (enumerate_NoDup_fst lines 1) Hil Hil' Ei).
  - intros r r' x y Hr Hr' Hx Hy E.
    apply in_flat_map in Hx, Hy.
    destruct Hx as (il & _ & Hx), Hy as (il' & _ & Hy).
    exact (proj1 (Hinj r r' il il' x y Hr Hr' Hx Hy E)).
Qed.

(** Entries that carry the relative path of the file they come from. *)
Lemma files_NoDup (path : B -> string) (g : Py.file -> list B)
  (files : list Py.file) :
  (forall x y, key x = key y -> path x = path y) ->
  List.NoDup (List.map Py.frel files) ->
  (forall f, In f files -> List.NoDup (List.map key (g f))) ->
  (forall f x, In f files -> In x (g f) -> path x = Py.frel f) ->
  List.NoDup (List.map key (flat_map g files)).
Proof.
  intros Hkp Hnd Hg Hp. apply NoDup_key_flat_map.
  - exact (NoDup_map_inv Py.frel _ Hnd).
  - exact Hg.
  - intros f f' x y Hf Hf' Hx Hy E.
    apply (map_inj_in Py.frel files f f' Hnd Hf Hf').
    rewrite <- (Hp f x Hf Hx), <- (Hp f' y Hf' Hy). now apply Hkp.
Qed.

End DistinctKeys.

Section AuditorDistinct.
Context `{Regex}.
Import Py SecurityAuditor.

Lemma sa_names_NoDup : List.NoDup (List.map c_name sa_all_checks).
Proof. apply NoDup_ListNoDup, (bool_decide_unpack _). vm_compute. exact I. Qed.

Lemma sa_dart_names_NoDup :
  List.NoDup (List.map c_name
    (CRYPTO_CHECKS ++ STORAGE_CHECKS ++ LOGGING_CHECKS ++ PROTOCOL_CHECKS)).
Proof. apply NoDup_ListNoDup, (bool_decide_unpack _). vm_compute. exact I. Qed.

Lemma sa_android_names_NoDup :
  List.NoDup (List.map c_name PERMISSION_CHECKS_ANDROID).
Proof. apply NoDup_ListNoDup, (bool_decide_unpack _). vm_compute. exact I. Qed.

Lemma sa_get_checks_NoDup self :
  List.NoDup (List.map c_name (_get_checks self)).
Proof.
  unfold _get_checks. cbv zeta. destruct (truthy (check_filter self)).
  - apply NoDup_map_filter, sa_dart_names_NoDup.
  - apply sa_dart_names_NoDup.
Qed.

Lemma sa_line_hit_le1 c rel il : List.length (sa_line_hit c rel il) <= 1.
Proof.
  destruct il as [i ln]. unfold sa_line_hit.
  destruct (is_comment (strip ln)); [cbn [List.length]; lia|].
  destruct (re_search (c_pattern c) true ln); cbn [List.length]; lia.
Qed.

Lemma sa_line_hit_key c rel il x :
  In x (sa_line_hit c rel il) -> key x = (c_name c, rel, fst il).
Proof.
  destruct il as [i ln]. unfold sa_line_hit.
  destruct (is_comment (strip ln)); [intros []|].
  destruct (re_search (c_pattern c) true ln); [|intros []].
  intros [<-|[]]. reflexivity.
Qed.

Lemma sa_manifest_hit_le1 c rel il : List.length (sa_manifest_hit c rel il) <= 1.
Proof.
  destruct il as [i ln]. unfold sa_manifest_hit.
  destruct (re_search (c_pattern c) true ln); cbn [List.length]; lia.
Qed.

Lemma sa_manifest_hit_key c rel il x :
  In x (sa_manifest_hit c rel il) -> key x = (c_name c, rel, fst il).
Proof.
  destruct il as [i ln]. unfold sa_manifest_hit.
  destruct (re_search (c_pattern c) true ln); [|intros []].
  intros [<-|[]]. reflexivity.
Qed.

(** The grid of one file of the auditor. *)
Lemma sa_grid_NoDup (hit : check_def -> string -> nat * string -> list Finding)
  (rel : string) (rules : list check_def) (lines : list string) :
  (forall c il, List.length (hit c rel il) <= 1) ->
  (forall c il x, In x (hit c rel il) -> key x = (c_name c, rel, fst il)) ->
  List.NoDup (List.map c_name rules) ->
  List.NoDup
    (List.map key
       (flat_map (fun c => flat_map (hit c rel) (enumerate 1 lines)) rules)).
Proof.
  intros Hle Hkey Hnd.
  apply (rules_lines_NoDup key (fun c => hit c rel)).
  - exact (NoDup_map_inv c_name _ Hnd).
  - intros c il. apply Hle.
  - intros c c' il il' x y Hc Hc' Hx Hy E.
    rewrite (Hkey c il x Hx), (Hkey c' il' y Hy) in E.
    split.
    + apply (map_inj_in c_name rules c c' Hnd Hc Hc').
      exact (f_equal (fun k => fst (fst k)) E).
    + exact (f_equal snd E).
Qed.

Lemma sa_grid_path (hit : check_def -> string -> nat * string -> list Finding)
  (rel : string) (rules : list check_def) (lines : list string) x :
  (forall c il x, In x (hit c rel il) -> key x = (c_name c, rel, fst il)) ->
  In x (flat_map (fun c => flat_map (hit c rel) (enumerate 1 lines)) rules) ->
  file_path x = rel.
Proof.
  intros Hkey Hx. apply in_flat_map in Hx. destruct Hx as (c & _ & Hx).
  apply in_flat_map in Hx. destruct Hx as (il & _ & Hx).
  exact (f_equal (fun k => snd (fst k)) (Hkey c il x Hx)).
Qed.

Lemma sa_key_path (x y : Finding) : key x = key y -> file_path x = file_path y.
Proof. intros E. exact (f_equal (fun k => snd (fst k)) E). Qed.

Lemma rglob_NoDup d pat :
  List.NoDup (List.map frel (tree d)) ->
  List.NoDup (List.map frel (rglob d pat)).
Proof. unfold rglob. apply NoDup_map_filter. Qed.

Lemma sa_dart_NoDup d flt :
  List.NoDup (List.map frel (tree d)) ->
  List.NoDup (List.map key (sa_dart d flt)).
Proof.
  intros Hnd. unfold sa_dart. apply (files_NoDup key file_path).
  - exact sa_key_path.
  - apply NoDup_map_filter, rglob_NoDup, Hnd.
  - intros f _. unfold sa_dart_file. destruct (fcontent f) as [content|].
    + exact (sa_grid_NoDup sa_line_hit (frel f) _ (split_nl content)
               (fun c il => sa_line_hit_le1 c (frel f) il)
               (fun c il x => sa_line_hit_key c (frel f) il x)
               (sa_get_checks_NoDup _)).
    + constructor.
  - intros f x _. unfold sa_dart_file. destruct (fcontent f) as [content|].
    + intros Hx. exact (sa_grid_path sa_line_hit (frel f) _ (split_nl content) x
                          (fun c il x => sa_line_hit_key c (frel f) il x) Hx).
    + intros [].
Qed.

Lemma sa_chosen_manifests_NoDup d :
  List.NoDup (List.map frel (tree d)) ->
  List.NoDup (List.map frel (sa_chosen_manifests d)).
Proof.
  intros Hnd. unfold sa_chosen_manifests. cbv zeta.
  destruct (List.filter _ (rglob d "AndroidManifest.xml")) eqn:E.
  - apply rglob_NoDup, Hnd.
  - rewrite <- E. apply NoDup_map_filter, rglob_NoDup, Hnd.
Qed.

Lemma sa_manifests_NoDup d flt :
  List.NoDup (List.map frel (tree d)) ->
  List.NoDup (List.map key (sa_manifests d flt)).
Proof.
  intros Hnd. unfold sa_manifests.
  destruct (truthy flt && negb (eq_filter "permissions" flt)); [constructor|].
  apply (files_NoDup key file_path).
  - exact sa_key_path.
  - apply sa_chosen_manifests_NoDup, Hnd.
  - intros f _. unfold sa_manifest_file. destruct (fcontent f) as [content|].
    + exact (sa_grid_NoDup sa_manifest_hit (frel f) _ (split_nl content)
               (fun c il => sa_manifest_hit_le1 c (frel f) il)
               (fun c il x => sa_manifest_hit_key c (frel f) il x)
               sa_android_names_NoDup).
    + constructor.
  - intros f x _. unfold sa_manifest_file. destruct (fcontent f) as [content|].
    + intros Hx. exact (sa_grid_path sa_manifest_hit (frel f) _ (split_nl content) x
                          (fun c il x => sa_manifest_hit_key c (frel f) il x) Hx).
    + intros [].
Qed.

Lemma sa_plists_NoDup d flt :
  List.NoDup (List.map frel (tree d)) ->
  List.NoDup (List.map key (sa_plists d flt)).
Proof.
  intros Hnd. unfold sa_plists.
  destruct (truthy flt && negb (eq_filter "permissions" flt)); [constructor|].
  apply (files_NoDup key file_path).
  - exact sa_key_path.
  - apply rglob_NoDup, Hnd.
  - intros f _. apply NoDup_key_le1. unfold sa_plist_file.
    destruct (fcontent f) as [content|]; [|cbn [List.length]; lia].
    destruct (contains "fetch" content && contains "bluetooth" content);
      cbn [List.length]; lia.
  - intros f x _. unfold sa_plist_file.
    destruct (fcontent f) as [content|]; [|intros []].
    destruct (contains "fetch" content && contains "bluetooth" content);
      [|intros []].
    intros [<-|[]]. reflexivity.
Qed.

Lemma sa_pubspec_text_NoDup content :
  List.NoDup (List.map key (sa_pubspec_text content)).
Proof.
  unfold sa_pubspec_text.
  destruct (contains "http:" content && negb (contains "http_cache" content));
    destruct (negb (contains "sodium_libs" content));
    destruct (negb (contains "flutter_secure_storage" content));
    apply NoDup_ListNoDup, (bool_decide_unpack _); vm_compute; exact I.
Qed.

Lemma sa_pubspec_NoDup d flt :
  List.NoDup (List.map key (sa_pubspec d flt)).
Proof.
  unfold sa_pubspec.
  destruct (truthy flt && negb (eq_filter "crypto" flt)); [constructor|].
  destruct (match lookup_child d "pubspec.yaml" with
            | Some p => Some p
            | None => parent_pubspec d
            end) as [[content|]|]; [|constructor|constructor].
  apply sa_pubspec_text_NoDup.
Qed.

(** The line of a finding tells a line scan from a file-level check. *)
Lemma sa_dart_line d flt x : In x (sa_dart d flt) -> 0 < line x.
Proof.
  intros Hx. apply sa_dart_In in Hx.
  destruct Hx as (f & content & c & n & ln & _ & _ & _ & _ & _ & _ & _ & ->).
  cbn [line]. lia.
Qed.

Lemma sa_manifests_line d flt x : In x (sa_manifests d flt) -> 0 < line x.
Proof.
  intros Hx. apply sa_manifests_In in Hx.
  destruct Hx as (_ & f & content & c & n & ln & _ & _ & _ & _ & ->).
  cbn [line]. lia.
Qed.

Lemma sa_plists_line d flt x :
  In x (sa_plists d flt) -> line x = 0 /\ check x = "ios-background-modes".
Proof.
  intros Hx. apply sa_plists_In in Hx. destruct Hx as (_ & f & _ & ->).
  split; reflexivity.
Qed.

Lemma sa_pubspec_line d flt x :
  In x (sa_pubspec d flt) ->
  line x = 0 /\ check x <> "ios-background-modes".
Proof.
  intros Hx. apply sa_pubspec_In in Hx. destruct Hx as (_ & Hx).
  unfold sa_pubspec_findings in Hx.
  destruct Hx as [<-|[<-|[<-|[]]]]; (split; [reflexivity|]);
    intros E; apply String.eqb_eq in E; vm_compute in E; discriminate E.
Qed.

Lemma sa_dart_android_names :
  forallb (fun c => forallb (fun c' => negb (String.eqb (c_name c) (c_name c')))
                      PERMISSION_CHECKS_ANDROID)
    (CRYPTO_CHECKS ++ STORAGE_CHECKS ++ LOGGING_CHECKS ++ PROTOCOL_CHECKS)
  = true.
Proof. vm_compute. reflexivity. Qed.

Lemma sa_get_checks_dart self c :
  In c (_get_checks self) ->
  In c (CRYPTO_CHECKS ++ STORAGE_CHECKS ++ LOGGING_CHECKS ++ PROTOCOL_CHECKS).
Proof.
  unfold _get_checks. cbv zeta. destruct (truthy (check_filter self)); [|auto].
  intros Hc. now apply filter_In in Hc.
Qed.

(** With distinct relative paths, no two findings of a scan of the security
    auditor have the same key. *)
Lemma sa_raw_NoDup d flt :
  List.NoDup (List.map frel (tree d)) ->
  List.NoDup (List.map key (raw_findings d flt)).
Proof.
  intros Hnd. rewrite sa_raw_findings_spec.
  apply NoDup_key_app; [apply sa_dart_NoDup, Hnd| |].
  - apply NoDup_key_app; [apply sa_manifests_NoDup, Hnd| |].
    + apply NoDup_key_app; [apply sa_plists_NoDup, Hnd|apply sa_pubspec_NoDup|].
      intros x y Hx Hy E. apply sa_plists_line in Hx. apply sa_pubspec_line in Hy.
      destruct Hx as [_ Hx], Hy as [_ Hy]. apply Hy. rewrite <- Hx.
      symmetry. exact (f_equal (fun k => fst (fst k)) E).
    + intros x y Hx Hy E. apply sa_manifests_line in Hx.
      assert (line y = 0) as Hy0.
      { apply in_app_iff in Hy. destruct Hy as [Hy|Hy].
        - now apply sa_plists_line in Hy.
        - now apply sa_pubspec_line in Hy. }
      pose proof (f_equal snd E) as El. cbn [snd key] in El. lia.
  - intros x y Hx Hy E. rewrite !in_app_iff in Hy. destruct Hy as [Hy|Hy].
    + apply sa_dart_In in Hx.
      destruct Hx as (f & content & c & n & ln & _ & _ & _ & Hc & _ & _ & _ & ->).
      apply sa_manifests_In in Hy.
      destruct Hy as (_ & f' & content' & c' & n' & ln' & _ & _ & Hc' & _ & ->).
      apply sa_get_checks_dart in Hc.
      pose proof sa_dart_android_names as Hn.
      rewrite forallb_forall in Hn. specialize (Hn c Hc).
      rewrite forallb_forall in Hn. specialize (Hn c' Hc').
      apply negb_true_iff, String.eqb_neq in Hn. apply Hn.
      exact (f_equal (fun k => fst (fst k)) E).
    + apply sa_dart_line in Hx.
      assert (line y = 0) as Hy0.
      { destruct Hy as [Hy|Hy].
        - now apply sa_plists_line in Hy.
        - now apply sa_pubspec_line in Hy. }
      pose proof (f_equal snd E) as El. cbn [snd key] in El. lia.
Qed.

End AuditorDistinct.

Section AnalyzerDistinct.
Context `{Regex}.
Import Py BLE.

Lemma ble_descriptions_NoDup : List.NoDup (List.map p_desc ble_all_rules).
Proof. apply NoDup_ListNoDup, (bool_decide_unpack _). vm_compute. exact I. Qed.

Lemma ble_line_hit_le1 cat r rel il : List.length (ble_line_hit cat r rel il) <= 1.
Proof.
  destruct il as [i ln]. unfold ble_line_hit.
  destruct (re_search (p_pattern r) true ln); cbn [List.length]; lia.
Qed.

Lemma ble_line_hit_key cat r rel il x :
  In x (ble_line_hit cat r rel il) -> key x = (cat, p_desc r, rel, fst il).
Proof.
  destruct il as [i ln]. unfold ble_line_hit.
  destruct (re_search (p_pattern r) true ln); [|intros []].
  intros [<-|[]]. reflexivity.
Qed.

Lemma ble_key_path (x y : BLEFinding) : key x = key y -> file_path x = file_path y.
Proof. intros E. exact (f_equal (fun k => snd (fst k)) E). Qed.

Lemma ble_scan_dart_files_NoDup d :
  List.NoDup (List.map frel (tree d)) ->
  List.NoDup (List.map frel (_scan_dart_files (init d))).
Proof.
  intros Hnd. unfold _scan_dart_files. cbv zeta.
  apply NoDup_map_filter. exact (rglob_NoDup d "*.dart" Hnd).
Qed.

Lemma ble_scan_NoDup patterns cat d :
  List.NoDup (List.map p_desc patterns) ->
  List.NoDup (List.map frel (tree d)) ->
  List.NoDup (List.map key (ble_scan patterns cat d)).
Proof.
  intros Hp Hnd. unfold ble_scan. apply (files_NoDup key file_path).
  - exact ble_key_path.
  - apply ble_scan_dart_files_NoDup, Hnd.
  - intros f _. unfold ble_scan_file. destruct (fcontent f) as [content|];
      [|constructor].
    apply (rules_lines_NoDup key (fun r => ble_line_hit cat r (frel f))).
    + exact (NoDup_map_inv p_desc _ Hp).
    + intros r il. apply ble_line_hit_le1.
    + intros r r' il il' x y Hr Hr' Hx Hy E.
      rewrite (ble_line_hit_key cat r (frel f) il x Hx),
        (ble_line_hit_key cat r' (frel f) il' y Hy) in E.
      split.
      * apply (map_inj_in p_desc patterns r r' Hp Hr Hr').
        exact (f_equal (fun k => snd (fst (fst k))) E).
      * exact (f_equal snd E).
  - intros f x _. unfold ble_scan_file. destruct (fcontent f) as [content|];
      [|intros []].
    intros Hx. apply in_flat_map in Hx. destruct Hx as (r & _ & Hx).
    apply in_flat_map in Hx. destruct Hx as (il & _ & Hx).
    exact (f_equal (fun k => snd (fst k)) (ble_line_hit_key cat r (frel f) il x Hx)).
Qed.

Lemma ble_handler_hit_le1 lines pattern rel il :
  List.length (ble_handler_hit lines pattern rel il) <= 1.
Proof.
  destruct il as [i ln]. unfold ble_handler_hit.
  destruct (re_search pattern true ln); [|cbn [List.length]; lia].
  destruct (negb (has_validation lines i)); cbn [List.length]; lia.
Qed.

Lemma ble_handler_hit_key lines pattern rel il x :
  In x (ble_handler_hit lines pattern rel il) ->
  category x = "transport" /\ file_path x = rel /\ line x = fst il.
Proof.
  destruct il as [i ln]. unfold ble_handler_hit.
  destruct (re_search pattern true ln); [|intros []].
  destruct (negb (has_validation lines i)); [|intros []].
  intros [<-|[]]. repeat split.
Qed.

Lemma ble_validation_NoDup d :
  List.NoDup (List.map frel (tree d)) ->
  List.NoDup (List.map key (ble_validation d)).
Proof.
  intros Hnd. unfold ble_validation. apply (files_NoDup key file_path).
  - exact ble_key_path.
  - apply ble_scan_dart_files_NoDup, Hnd.
  - intros f _. unfold ble_validation_file. destruct (fcontent f) as [content|];
      [|constructor]. cbv zeta.
    apply (rules_lines_NoDup key
             (fun hp => ble_handler_hit (split_nl content) (fst hp) (frel f))).
    + unfold handler_patterns. apply NoDup_cons_iff. split; [intros []|constructor].
    + intros r il. apply ble_handler_hit_le1.
    + intros r r' il il' x y Hr Hr' Hx Hy E. split.
      * unfold handler_patterns in Hr, Hr'.
        destruct Hr as [<-|[]], Hr' as [<-|[]]. reflexivity.
      * apply ble_handler_hit_key in Hx, Hy.
        destruct Hx as (_ & _ & <-), Hy as (_ & _ & <-).
        exact (f_equal snd E).
  - intros f x _. unfold ble_validation_file. destruct (fcontent f) as [content|];
      [|intros []]. cbv zeta.
    intros Hx. apply in_flat_map in Hx. destruct Hx as (r & _ & Hx).
    apply in_flat_map in Hx. destruct Hx as (il & _ & Hx).
    now apply ble_handler_hit_key in Hx.
Qed.

Lemma ble_manifest_file_In d f x :
  In x (ble_manifest_file d f) ->
  file_path x = frel f
  /\ (description x
      = "Both FINE_LOCATION and BLUETOOTH_SCAN — FINE_LOCATION needed only for Android <12"
      \/ description x
         = "BLUETOOTH_ADVERTISE permission missing but app uses ble_peripheral").
Proof.
  unfold ble_manifest_file.
  destruct (contains "debug" (fstr d f) || contains "profile" (fstr d f));
    [intros []|].
  destruct (fcontent f) as [content|]; [|intros []].
  intros Hx. apply in_app_iff in Hx. destruct Hx as [Hx|Hx].
  - destruct (contains "ACCESS_FINE_LOCATION" content
              && contains "BLUETOOTH_SCAN" content); [|destruct Hx].
    destruct Hx as [<-|[]]. split; [reflexivity|left; reflexivity].
  - destruct (negb (contains "BLUETOOTH_ADVERTISE" content)
              && contains "ble_peripheral" (target d)); [|destruct Hx].
    destruct Hx as [<-|[]]. split; [reflexivity|right; reflexivity].
Qed.

Lemma ble_plist_file_In f x :
  In x (ble_plist_file f) ->
  file_path x = frel f
  /\ description x
     = "Missing NSBluetoothAlwaysUsageDescription — iOS may reject BLE access".
Proof.
  unfold ble_plist_file. destruct (fcontent f) as [content|]; [|intros []].
  destruct (negb (contains "NSBluetoothAlwaysUsageDescription" content));
    [|intros []].
  intros [<-|[]]. split; reflexivity.
Qed.

Lemma ble_manifest_file_NoDup d f :
  List.NoDup (List.map key (ble_manifest_file d f)).
Proof.
  unfold ble_manifest_file.
  destruct (contains "debug" (fstr d f) || contains "profile" (fstr d f));
    [constructor|].
  destruct (fcontent f) as [content|]; [|constructor].
  destruct (contains "ACCESS_FINE_LOCATION" content
            && contains "BLUETOOTH_SCAN" content);
    destruct (negb (contains "BLUETOOTH_ADVERTISE" content)
              && contains "ble_peripheral" (target d));
    cbn [app List.map].
  - apply NoDup_cons_iff. split.
    + intros [E|[]].
      apply (f_equal (fun k => snd (fst (fst k)))) in E.
      cbn [fst snd key description] in E.
      apply String.eqb_eq in E. vm_compute in E. discriminate E.
    + apply NoDup_cons_iff. split; [intros []|constructor].
  - apply NoDup_cons_iff. split; [intros []|constructor].
  - apply NoDup_cons_iff. split; [intros []|constructor].
  - constructor.
Qed.

Lemma ble_permissions_NoDup d :
  List.NoDup (List.map frel (tree d)) ->
  List.NoDup (List.map key (ble_permissions d)).
Proof.
  intros Hnd. unfold ble_permissions. apply NoDup_key_app.
  - apply (files_NoDup key file_path).
    + exact ble_key_path.
    + apply rglob_NoDup, Hnd.
    + intros f _. apply ble_manifest_file_NoDup.
    + intros f x _ Hx. now apply ble_manifest_file_In in Hx.
  - apply (files_NoDup key file_path).
    + exact ble_key_path.
    + apply rglob_NoDup, Hnd.
    + intros f _. apply NoDup_key_le1. unfold ble_plist_file.
      destruct (fcontent f) as [content|]; [|cbn [List.length]; lia].
      destruct (negb (contains "NSBluetoothAlwaysUsageDescription" content));
        cbn [List.length]; lia.
    + intros f x _ Hx. now apply ble_plist_file_In in Hx.
  - intros x y Hx Hy E.
    apply in_flat_map in Hx, Hy.
    destruct Hx as (f & _ & Hx), Hy as (g & _ & Hy).
    apply ble_manifest_file_In in Hx. apply ble_plist_file_In in Hy.
    destruct Hx as [_ Hx], Hy as [_ Hy].
    apply (f_equal (fun k => snd (fst (fst k)))) in E. cbn [fst snd key] in E.
    rewrite Hy in E.
    destruct Hx as [Hx|Hx]; rewrite Hx in E;
      apply String.eqb_eq in E; vm_compute in E; discriminate E.
Qed.

(** The category of the findings of each audit. *)
Lemma ble_scan_category patterns cat d x :
  In x (ble_scan patterns cat d) -> category x = cat.
Proof.
  intros Hx. apply ble_scan_In in Hx.
  destruct Hx as (f & content & r & n & ln & _ & _ & _ & _ & _ & _ & ->).
  reflexivity.
Qed.

Lemma ble_validation_category d x :
  In x (ble_validation d) -> category x = "transport".
Proof.
  intros Hx. apply ble_validation_In in Hx.
  destruct Hx as (f & content & n & ln & _ & _ & _ & _ & _ & _ & ->).
  reflexivity.
Qed.

Lemma ble_permissions_category d x :
  In x (ble_permissions d) -> category x = "config".
Proof. intros Hx. now apply ble_permissions_In in Hx. Qed.

(** The category each part of the findings in discovery order has. *)
Lemma ble_raw_categories d x :
  In x (raw_findings d) ->
  (In x (ble_scan advertising_patterns "advertising" d) /\ category x = "advertising")
  \/ (In x (ble_scan gatt_patterns "gatt" d) /\ category x = "gatt")
  \/ (In x (ble_scan connection_patterns "connection" d) /\ category x = "connection")
  \/ (In x (ble_validation d) /\ category x = "transport")
  \/ (In x (ble_permissions d) /\ category x = "config").
Proof.
  rewrite ble_raw_findings_spec, !in_app_iff.
  intros [Hx|[Hx|[Hx|[Hx|Hx]]]].
  - left. split; [exact Hx|]. now apply ble_scan_category in Hx.
  - right. left. split; [exact Hx|]. now apply ble_scan_category in Hx.
  - right. right. left. split; [exact Hx|]. now apply ble_scan_category in Hx.
  - right. right. right. left. split; [exact Hx|].
    now apply ble_validation_category in Hx.
  - right. right. right. right. split; [exact Hx|].
    now apply ble_permissions_category in Hx.
Qed.

Lemma ble_key_category (x y : BLEFinding) : key x = key y -> category x = category y.
Proof. intros E. exact (f_equal (fun k => fst (fst (fst k))) E). Qed.

Lemma ble_categories_differ (l1 l2 : list BLEFinding) (c1 c2 : string) :
  String.eqb c1 c2 = false ->
  (forall x, In x l1 -> category x = c1) ->
  (forall y, In y l2 -> category y = c2) ->
  forall x y, In x l1 -> In y l2 -> key x <> key y.
Proof.
  intros Hc H1 H2 x y Hx Hy E. apply ble_key_category in E.
  rewrite (H1 x Hx), (H2 y Hy) in E. apply String.eqb_neq in Hc. contradiction.
Qed.

Lemma ble_advertising_NoDup : List.NoDup (List.map p_desc advertising_patterns).
Proof. apply NoDup_ListNoDup, (bool_decide_unpack _). vm_compute. exact I. Qed.

Lemma ble_gatt_NoDup : List.NoDup (List.map p_desc gatt_patterns).
Proof. apply NoDup_ListNoDup, (bool_decide_unpack _). vm_compute. exact I. Qed.

Lemma ble_connection_NoDup : List.NoDup (List.map p_desc connection_patterns).
Proof. apply NoDup_ListNoDup, (bool_decide_unpack _). vm_compute. exact I. Qed.

(** With distinct relative paths, no two findings of the audits of the BLE
    analyzer have the same key. *)
Lemma ble_raw_NoDup d :
  List.NoDup (List.map frel (tree d)) ->
  List.NoDup (List.map key (raw_findings d)).
Proof.
  intros Hnd. rewrite ble_raw_findings_spec.
  apply NoDup_key_app; [apply ble_scan_NoDup; [apply ble_advertising_NoDup|exact Hnd]| |].
  - apply NoDup_key_app; [apply ble_scan_NoDup; [apply ble_gatt_NoDup|exact Hnd]| |].
    + apply NoDup_key_app;
        [apply ble_scan_NoDup; [apply ble_connection_NoDup|exact Hnd]| |].
      * apply NoDup_key_app;
          [apply ble_validation_NoDup, Hnd|apply ble_permissions_NoDup, Hnd|].
        apply (ble_categories_differ _ _ "transport" "config"); [reflexivity| |].
        -- apply ble_validation_category.
        -- apply ble_permissions_category.
      * intros x y Hx Hy. apply in_app_iff in Hy. destruct Hy as [Hy|Hy].
        -- revert x y Hx Hy.
           apply (ble_categories_differ _ _ "connection" "transport"); [reflexivity| |].
           ++ apply ble_scan_category.
           ++ apply ble_validation_category.
        -- revert x y Hx Hy.
           apply (ble_categories_differ _ _ "connection" "config"); [reflexivity| |].
           ++ apply ble_scan_category.
           ++ apply ble_permissions_category.
    + intros x y Hx Hy. rewrite !in_app_iff in Hy. destruct Hy as [Hy|[Hy|Hy]].
      * revert x y Hx Hy.
        apply (ble_categories_differ _ _ "gatt" "connection"); [reflexivity| |];
          apply ble_scan_category.
      * revert x y Hx Hy.
        apply (ble_categories_differ _ _ "gatt" "transport"); [reflexivity| |].
        -- apply ble_scan_category.
        -- apply ble_validation_category.
      * revert x y Hx Hy.
        apply (ble_categories_differ _ _ "gatt" "config"); [reflexivity| |].
        -- apply ble_scan_category.
        -- apply ble_permissions_category.
  - intros x y Hx Hy. rewrite !in_app_iff in Hy. destruct Hy as [Hy|[Hy|[Hy|Hy]]].
    + revert x y Hx Hy.
      apply (ble_categories_differ _ _ "advertising" "gatt"); [reflexivity| |];
        apply ble_scan_category.
    + revert x y Hx Hy.
      apply (ble_categories_differ _ _ "advertising" "connection"); [reflexivity| |];
        apply ble_scan_category.
    + revert x y Hx Hy.
      apply (ble_categories_differ _ _ "advertising" "transport"); [reflexivity| |].
      * apply ble_scan_category.
      * apply ble_validation_category.
    + revert x y Hx Hy.
      apply (ble_categories_differ _ _ "advertising" "config"); [reflexivity| |].
      * apply ble_scan_category.
      * apply ble_permissions_category.
Qed.

End AnalyzerDistinct.

Section DedupIdle.
Context `{Regex}.
Import Py.

(** X4: on a tree of files with distinct relative paths, no two findings of
    the scans of the security auditor, or of the audits of the BLE analyzer,
    have the same key.  So the deduplication of [generate_report] removes
    nothing: the findings of the report are the findings of the scans in
    severity order, and [total_findings] is their number. *)
Theorem X4_deduplication_removes_nothing (d : fs) :
  List.NoDup (List.map frel (tree d)) ->
  (forall flt,
     let raw := SecurityAuditor.raw_findings d flt in
     let R := SecurityAuditor.report d flt in
     List.NoDup (List.map SecurityAuditor.key raw)
     /\ SecurityAuditor.r_findings R
        = sort_by (fun f => SecurityAuditor.severity_order (SecurityAuditor.severity f))
            raw
     /\ SecurityAuditor.total_findings R = List.length raw)
  /\ (let raw := BLE.raw_findings d in
      let R := BLE.report d in
      List.NoDup (List.map BLE.key raw)
      /\ BLE.r_findings R
         = sort_by (fun f => BLE.severity_order (BLE.severity f)) raw
      /\ BLE.total_findings R = List.length raw).
Proof.
  intros Hnd. split.
  - intros flt raw R. pose proof (sa_raw_NoDup d flt Hnd) as Hk. fold raw in Hk.
    assert (E : first_by_key SecurityAuditor.key ∅
                  (sort_by (fun f => SecurityAuditor.severity_order
                                       (SecurityAuditor.severity f)) raw)
                = sort_by (fun f => SecurityAuditor.severity_order
                                      (SecurityAuditor.severity f)) raw).
    { rewrite dedup_sort_commute.
      - rewrite (first_by_key_NoDup_id SecurityAuditor.key ∅ raw Hk); [reflexivity|].
        intros x _. apply not_elem_of_empty.
      - intros x y Hx Hy Hxy.
        pose proof (sa_key_fixes_rank d flt x y Hx Hy Hxy) as Es.
        rewrite Es. reflexivity. }
    unfold R. rewrite sa_report_eq. cbv zeta. fold raw.
    cbn [SecurityAuditor.r_findings SecurityAuditor.total_findings].
    rewrite E, sort_by_length. auto.
  - intros raw R. pose proof (ble_raw_NoDup d Hnd) as Hk. fold raw in Hk.
    assert (E : first_by_key BLE.key ∅
                  (sort_by (fun f => BLE.severity_order (BLE.severity f)) raw)
                = sort_by (fun f => BLE.severity_order (BLE.severity f)) raw).
    { rewrite dedup_sort_commute.
      - rewrite (first_by_key_NoDup_id BLE.key ∅ raw Hk); [reflexivity|].
        intros x _. apply not_elem_of_empty.
      - intros x y Hx Hy Hxy.
        pose proof (ble_key_fixes_rank d x y Hx Hy Hxy) as Es.
        rewrite Es. reflexivity. }
    unfold R. rewrite ble_report_eq. cbv zeta. fold raw.
    cbn [BLE.r_findings BLE.total_findings].
    rewrite E, sort_by_length. auto.
Qed.

End DedupIdle.

(* ===================================================================== *)
(** * The category filter of the security auditor *)
(* ===================================================================== *)

Section FilterFacts.

Lemma filter_flat_map {A B} (p : B -> bool) (g : A -> list B) (l : list A) :
  List.filter p (flat_map g l) = flat_map (fun a => List.filter p (g a)) l.
Proof.
  induction l as [|a l IH]; cbn [flat_map]; [reflexivity|].
  now rewrite List.filter_app, IH.
Qed.

Lemma filter_flat_map_select {A B} (p : B -> bool) (q : A -> bool)
  (g : A -> list B) (l : list A) :
  (forall a x, In a l -> In x (g a) -> p x = q a) ->
  List.filter p (flat_map g l) = flat_map g (List.filter q l).
Proof.
  induction l as [|a l IH]; intros Hpq; cbn [flat_map List.filter]; [reflexivity|].
  rewrite List.filter_app, IH by (intros b x Hb; apply Hpq; now right).
  assert (Ha : List.filter p (g a) = if q a then g a else []).
  { assert (Hall : forall x, In x (g a) -> p x = q a)
      by (intros x; apply Hpq; now left).
    revert Hall. generalize (g a) as m. induction m as [|x m IHm]; intros Hall.
    - now destruct (q a).
    - cbn [List.filter]. rewrite (Hall x) by now left.
      rewrite IHm by (intros y Hy; apply Hall; now right).
      now destruct (q a). }
  rewrite Ha. now destruct (q a).
Qed.

Lemma filter_const {A} (p : A -> bool) (b : bool) (l : list A) :
  (forall x, In x l -> p x = b) ->
  List.filter p l = if b then l else [].
Proof.
  induction l as [|x l IH]; intros Hall; cbn [List.filter].
  - now destruct b.
  - rewrite (Hall x) by now left.
    rewrite IH by (intros y Hy; apply Hall; now right).
    now destruct b.
Qed.

Lemma flat_map_ext_in {A B} (g h : A -> list B) (l : list A) :
  (forall a, In a l -> g a = h a) -> flat_map g l = flat_map h l.
Proof.
  induction l as [|a l IH]; intros E; cbn [flat_map]; [reflexivity|].
  rewrite (E a) by now left. rewrite IH; [reflexivity|].
  intros b Hb. apply E. now right.
Qed.

End FilterFacts.

Section AuditorFilter.
Context `{Regex}.
Import Py SecurityAuditor.

(** The table gives every rule its own category. *)
Lemma sa_category_of_rule :
  forallb (fun c =>
    match option_map snd
            (List.find (fun p => String.eqb (fst p) (c_name c)) sa_check_category) with
    | Some c' => String.eqb c' (c_category c)
    | None => false
    end) sa_all_checks = true.
Proof. vm_compute. reflexivity. Qed.

Lemma sa_in_category_rule (k : string) (c : check_def) (x : Finding) :
  In c sa_all_checks -> check x = c_name c ->
  sa_in_category k x = String.eqb (c_category c) k.
Proof.
  intros Hc Hx. pose proof sa_category_of_rule as T.
  rewrite forallb_forall in T. specialize (T c Hc).
  unfold sa_in_category, sa_category. rewrite Hx.
  destruct (option_map snd _) as [c'|]; [|discriminate T].
  apply String.eqb_eq in T. now rewrite T.
Qed.

Lemma sa_in_category_plist (k : string) (x : Finding) :
  check x = "ios-background-modes" ->
  sa_in_category k x = String.eqb "permissions" k.
Proof.
  intros Hx. unfold sa_in_category, sa_category. rewrite Hx.
  replace (option_map snd _) with (Some "permissions")
    by (vm_compute; reflexivity).
  reflexivity.
Qed.

Lemma sa_in_category_pubspec (k : string) (x : Finding) :
  In x sa_pubspec_findings ->
  sa_in_category k x = String.eqb "crypto" k.
Proof.
  unfold sa_pubspec_findings. intros [<-|[<-|[<-|[]]]];
    unfold sa_in_category, sa_category;
    match goal with
    | |- context [option_map snd ?t] =>
        replace (option_map snd t) with (Some "crypto") by (vm_compute; reflexivity)
    end; reflexivity.
Qed.

Lemma sa_dart_checks_all c :
  In c (CRYPTO_CHECKS ++ STORAGE_CHECKS ++ LOGGING_CHECKS ++ PROTOCOL_CHECKS) ->
  In c sa_all_checks.
Proof. unfold sa_all_checks. rewrite !in_app_iff. tauto. Qed.

Lemma sa_android_checks_all c :
  In c PERMISSION_CHECKS_ANDROID -> In c sa_all_checks.
Proof. unfold sa_all_checks. rewrite !in_app_iff. tauto. Qed.

Lemma sa_android_category c :
  In c PERMISSION_CHECKS_ANDROID -> c_category c = "permissions".
Proof.
  intros Hc.
  assert (T : forallb (fun c => String.eqb (c_category c) "permissions")
                PERMISSION_CHECKS_ANDROID = true) by (vm_compute; reflexivity).
  rewrite forallb_forall in T. now apply String.eqb_eq, T.
Qed.

Lemma sa_dart_filtered d (k : string) :
  k <> "" ->
  sa_dart d (Some k) = List.filter (sa_in_category k) (sa_dart d None).
Proof.
  intros Hk. unfold sa_dart. rewrite filter_flat_map.
  apply flat_map_ext_in. intros f _.
  unfold _get_checks. cbv zeta. cbn [check_filter init truthy eq_filter].
  apply String.eqb_neq in Hk. rewrite Hk. cbn [negb].
  unfold sa_dart_file. destruct (fcontent f) as [content|]; [|reflexivity].
  symmetry. apply filter_flat_map_select.
  intros c x Hc Hx. apply in_flat_map in Hx. destruct Hx as (il & _ & Hx).
  apply sa_line_hit_key in Hx.
  apply (sa_in_category_rule k c x (sa_dart_checks_all c Hc)).
  exact (f_equal (fun t => fst (fst t)) Hx).
Qed.

Lemma sa_manifests_filtered d (k : string) :
  k <> "" ->
  sa_manifests d (Some k) = List.filter (sa_in_category k) (sa_manifests d None).
Proof.
  intros Hk. unfold sa_manifests. cbn [truthy eq_filter andb].
  apply String.eqb_neq in Hk. rewrite Hk. cbn [negb andb].
  rewrite (filter_const (sa_in_category k) (String.eqb "permissions" k)).
  - now destruct (String.eqb "permissions" k).
  - intros x Hx. apply in_flat_map in Hx. destruct Hx as (f & _ & Hx).
    unfold sa_manifest_file in Hx. destruct (fcontent f) as [content|]; [|destruct Hx].
    apply in_flat_map in Hx. destruct Hx as (c & Hc & Hx).
    apply in_flat_map in Hx. destruct Hx as (il & _ & Hx).
    apply sa_manifest_hit_key in Hx.
    rewrite (sa_in_category_rule k c x (sa_android_checks_all c Hc)
               (f_equal (fun t => fst (fst t)) Hx)).
    now rewrite (sa_android_category c Hc).
Qed.

Lemma sa_plists_filtered d (k : string) :
  k <> "" ->
  sa_plists d (Some k) = List.filter (sa_in_category k) (sa_plists d None).
Proof.
  intros Hk. pose proof (fun x => sa_plists_line d None x) as Hl.
  unfold sa_plists in *. cbn [truthy eq_filter andb] in *.
  apply String.eqb_neq in Hk. rewrite Hk. cbn [negb andb].
  rewrite (filter_const (sa_in_category k) (String.eqb "permissions" k)).
  - now destruct (String.eqb "permissions" k).
  - intros x Hx. apply sa_in_category_plist. now apply Hl.
Qed.

Lemma sa_pubspec_filtered d (k : string) :
  k <> "" ->
  sa_pubspec d (Some k) = List.filter (sa_in_category k) (sa_pubspec d None).
Proof.
  intros Hk. pose proof (fun x => sa_pubspec_In d None x) as Hl.
  unfold sa_pubspec in *. cbn [truthy eq_filter andb] in *.
  apply String.eqb_neq in Hk. rewrite Hk. cbn [negb andb].
  rewrite (filter_const (sa_in_category k) (String.eqb "crypto" k)).
  - now destruct (String.eqb "crypto" k).
  - intros x Hx. apply sa_in_category_pubspec. now apply Hl.
Qed.

Lemma sa_raw_filtered d (k : string) :
  k <> "" ->
  raw_findings d (Some k) = List.filter (sa_in_category k) (raw_findings d None).
Proof.
  intros Hk. rewrite !sa_raw_findings_spec, !List.filter_app.
  now rewrite <- sa_dart_filtered, <- sa_manifests_filtered,
    <- sa_plists_filtered, <- sa_pubspec_filtered.
Qed.

Lemma sa_in_category_key (k : string) (x y : Finding) :
  key x = key y -> sa_in_category k x = sa_in_category k y.
Proof.
  intros E. unfold sa_in_category, sa_category.
  now rewrite (f_equal (fun t => fst (fst t)) E : check x = check y).
Qed.

(** X5: a category filter restricts the report and changes nothing else.
    Under a non-empty filter [k], the findings of the report are those of the
    unfiltered report that belong to the category [k], in the same order, and
    [total_findings] is their number. *)
Theorem X5_filter_restricts_report (d : fs) (k : string) :
  k <> "" ->
  let R := report d (Some k) in
  r_findings R = List.filter (sa_in_category k) (r_findings (report d None))
  /\ total_findings R = count_if (sa_in_category k) (r_findings (report d None)).
Proof.
  intros Hk R.
  assert (E : r_findings R
              = List.filter (sa_in_category k) (r_findings (report d None))).
  { unfold R. rewrite !sa_report_eq. cbv zeta. cbn [r_findings].
    rewrite (sa_raw_filtered d k Hk), <- filter_sort_by.
    symmetry. apply filter_first_by_key.
    - intros x y _ _. apply sa_in_category_key.
    - tauto. }
  split; [exact E|].
  unfold count_if. rewrite <- E. unfold R. rewrite sa_report_eq. reflexivity.
Qed.

End AuditorFilter.

(* ===================================================================== *)
(** * What a matching line gives *)
(* ===================================================================== *)

Section Completeness.
Context `{Regex}.
Import Py.

Lemma with_key_nonempty {A K} `{EqDecision K} (key : A -> K) (k : K)
  (l : list A) (x : A) :
  In x l -> key x = k ->
  exists y, firstn 1 (with_key key k l) = [y] /\ In y l /\ key y = k.
Proof.
  intros Hx Hk.
  assert (Hin : In x (with_key key k l))
    by (apply filter_In; split; [exact Hx|now apply bool_decide_eq_true]).
  destruct (with_key key k l) as [|y m] eqn:E; [destruct Hin|].
  exists y. split; [reflexivity|].
  assert (Hy : In y (with_key key k l)) by (rewrite E; now left).
  apply filter_In in Hy. destruct Hy as [Hy Ky].
  now apply bool_decide_eq_true in Ky.
Qed.

(** No file-level check of the auditor has the name of a rule. *)
Lemma sa_rule_names_apart :
  forallb (fun c =>
    negb (String.eqb (SecurityAuditor.c_name c) "ios-background-modes")
    && forallb (fun x => negb (String.eqb (SecurityAuditor.c_name c)
                                 (SecurityAuditor.check x)))
         sa_pubspec_findings) sa_all_checks = true.
Proof. vm_compute. reflexivity. Qed.

(** A finding of a scan with the name of a rule carries what the rule says. *)
Lemma sa_raw_from_rule d flt c x :
  In x (SecurityAuditor.raw_findings d flt) -> In c sa_all_checks ->
  SecurityAuditor.check x = SecurityAuditor.c_name c -> sa_from_rule c x.
Proof.
  intros Hx Hc Hn.
  pose proof sa_rule_names_apart as T. rewrite forallb_forall in T.
  specialize (T c Hc). apply andb_true_iff in T. destruct T as [T1 T2].
  apply negb_true_iff, String.eqb_neq in T1.
  rewrite forallb_forall in T2.
  rewrite sa_raw_findings_spec, !in_app_iff in Hx.
  destruct Hx as [Hx|[Hx|[Hx|Hx]]].
  - apply sa_dart_In in Hx.
    destruct Hx as (f & content & c' & n & ln & _ & _ & _ & Hc' & _ & _ & _ & ->).
    cbn [SecurityAuditor.check] in Hn.
    apply sa_get_checks_In in Hc'. destruct Hc' as [Hc' _].
    rewrite (map_inj_in SecurityAuditor.c_name sa_all_checks c' c
               sa_names_NoDup Hc' Hc Hn).
    repeat split.
  - apply sa_manifests_In in Hx.
    destruct Hx as (_ & f & content & c' & n & ln & _ & _ & Hc' & _ & ->).
    cbn [SecurityAuditor.check] in Hn.
    apply sa_android_checks_all in Hc'.
    rewrite (map_inj_in SecurityAuditor.c_name sa_all_checks c' c
               sa_names_NoDup Hc' Hc Hn).
    repeat split.
  - apply sa_plists_line in Hx. destruct Hx as [_ Hx].
    exfalso. apply T1. now rewrite <- Hn.
  - apply sa_pubspec_In in Hx. destruct Hx as [_ Hx].
    specialize (T2 x Hx). apply negb_true_iff, String.eqb_neq in T2.
    exfalso. apply T2. now symmetry.
Qed.

(** X6: the Dart scan of the security auditor loses no match.  If a rule in
    force matches a line of a scanned, readable Dart file and the line is no
    comment, then the report lists exactly one finding with that check id,
    file and line number, and it carries the severity, description and
    recommendation of the rule. *)
Theorem X6_matching_line_is_reported (d : fs) (flt : option string)
  (f : file) (content : string) (c : SecurityAuditor.check_def)
  (n : nat) (ln : string) :
  In f (rglob d "*.dart") ->
  SecurityAuditor.is_source_file d f = true ->
  fcontent f = Some content ->
  In c (SecurityAuditor._get_checks (SecurityAuditor.init d flt)) ->
  split_nl content !! n = Some ln ->
  SecurityAuditor.is_comment (strip ln) = false ->
  re_search (SecurityAuditor.c_pattern c) true ln = true ->
  exists x,
    with_key SecurityAuditor.key (SecurityAuditor.c_name c, frel f, S n)
      (SecurityAuditor.r_findings (SecurityAuditor.report d flt)) = [x]
    /\ sa_from_rule c x.
Proof.
  intros Hf Hs Hc Hr Hn Hcm Hre.
  set (x0 := SecurityAuditor.mkFinding (SecurityAuditor.c_severity c)
               (SecurityAuditor.c_name c) (SecurityAuditor.c_desc c) (frel f) (S n)
               (slice_to 120 (strip ln)) (SecurityAuditor.c_rec c)).
  assert (H0 : In x0 (SecurityAuditor.raw_findings d flt)).
  { rewrite sa_raw_findings_spec. apply in_app_iff. left.
    apply sa_dart_In. exists f, content, c, n, ln. tauto. }
  destruct (with_key_nonempty SecurityAuditor.key
              (SecurityAuditor.c_name c, frel f, S n) _ x0 H0 eq_refl)
    as (x & E & Hx & Kx).
  exists x. split.
  - rewrite (sa_report_with_key d flt (SecurityAuditor.c_name c, frel f, S n)).
    exact E.
  - apply (sa_raw_from_rule d flt c x Hx).
    + now apply sa_get_checks_In in Hr.
    + exact (f_equal (fun t => fst (fst t)) Kx).
Qed.

(** A finding of an audit with the description of a rule of the tables
    carries the severity of the rule. *)
Lemma ble_raw_rule_severity d r x :
  In x (BLE.raw_findings d) -> In r ble_all_rules ->
  BLE.description x = BLE.p_desc r -> BLE.severity x = BLE.p_severity r.
Proof.
  intros Hx Hr Hd. apply ble_raw_severity in Hx. rewrite Hd in Hx.
  apply (functional_table_spec _ _ _ _ ble_description_severity_functional Hx).
  unfold ble_description_severity. apply in_app_iff. left.
  exact (in_map (fun r => (BLE.p_desc r, BLE.p_severity r)) _ _ Hr).
Qed.

(** X7: the line scans of the BLE analyzer lose no match.  If a rule of the
    advertising, GATT or connection table matches a line of a scanned,
    readable Dart file (comment or not), then the report lists exactly one
    finding with the category of the table, the description of the rule,
    that file and that line number, and it has the severity of the rule. *)
Theorem X7_ble_matching_line_is_reported (d : fs) (f : file) (content : string)
  (patterns : list BLE.rule) (cat : string) (r : BLE.rule)
  (n : nat) (ln : string) :
  In (patterns, cat)
    [(BLE.advertising_patterns, "advertising"); (BLE.gatt_patterns, "gatt");
     (BLE.connection_patterns, "connection")] ->
  In r patterns ->
  In f (rglob d "*.dart") ->
  BLE.is_source_file d f = true ->
  fcontent f = Some content ->
  split_nl content !! n = Some ln ->
  re_search (BLE.p_pattern r) true ln = true ->
  exists x,
    with_key BLE.key (cat, BLE.p_desc r, frel f, S n)
      (BLE.r_findings (BLE.report d)) = [x]
    /\ BLE.severity x = BLE.p_severity r.
Proof.
  intros Ht Hr Hf Hs Hc Hn Hre.
  set (x0 := BLE.mkFinding (BLE.p_severity r) cat (BLE.p_desc r) (frel f) (S n)
               (slice_to 120 (strip ln)) (BLE.p_rec r)).
  assert (Hscan : In x0 (ble_scan patterns cat d)).
  { apply ble_scan_In. exists f, content, r, n, ln. tauto. }
  assert (H0 : In x0 (BLE.raw_findings d)).
  { rewrite ble_raw_findings_spec, !in_app_iff.
    destruct Ht as [Ht|[Ht|[Ht|[]]]]; injection Ht as <- <-; tauto. }
  assert (Hall : In r ble_all_rules).
  { unfold ble_all_rules. rewrite !in_app_iff.
    destruct Ht as [Ht|[Ht|[Ht|[]]]]; injection Ht as <- _; tauto. }
  destruct (with_key_nonempty BLE.key (cat, BLE.p_desc r, frel f, S n) _ x0 H0 eq_refl)
    as (x & E & Hx & Kx).
  exists x. split.
  - rewrite (ble_report_with_key d (cat, BLE.p_desc r, frel f, S n)). exact E.
  - apply (ble_raw_rule_severity d r x Hx Hall).
    exact (f_equal (fun t => snd (fst (fst t))) Kx).
Qed.

End Completeness.

(* ===================================================================== *)
(** * Manifests: which ones are read *)
(* ===================================================================== *)

Section Manifests.
Context `{Regex}.
Import Py.

Lemma sa_chosen_manifests_In d f :
  In f (sa_chosen_manifests d) <->
  In f (rglob d "AndroidManifest.xml")
  /\ (sa_main_manifest d f = true
      \/ forall g, In g (rglob d "AndroidManifest.xml") -> sa_main_manifest d g = false).
Proof.
  unfold sa_chosen_manifests. cbv zeta.
  change (fun m => negb (contains "debug" (fstr d m))
                   && negb (contains "profile" (fstr d m)))
    with (sa_main_manifest d).
  destruct (List.filter (sa_main_manifest d) (rglob d "AndroidManifest.xml"))
    as [|g0 m] eqn:E.
  - assert (Hnone : forall g, In g (rglob d "AndroidManifest.xml") ->
                              sa_main_manifest d g = false).
    { intros g Hg. destruct (sa_main_manifest d g) eqn:Eg; [|reflexivity].
      assert (Hin : In g (List.filter (sa_main_manifest d)
                            (rglob d "AndroidManifest.xml")))
        by (apply filter_In; tauto).
      rewrite E in Hin. destruct Hin. }
    tauto.
  - rewrite <- E. rewrite filter_In. split; [tauto|].
    intros [Hf [Hm|Hnone]]; [tauto|]. exfalso.
    assert (Hg : In g0 (List.filter (sa_main_manifest d)
                          (rglob d "AndroidManifest.xml")))
      by (rewrite E; now left).
    apply filter_In in Hg. destruct Hg as [Hg Hm].
    rewrite (Hnone g0 Hg) in Hm. discriminate Hm.
Qed.

Lemma sa_manifest_file_path f x :
  In x (sa_manifest_file f) -> SecurityAuditor.file_path x = frel f.
Proof.
  unfold sa_manifest_file. destruct (fcontent f) as [content|]; [|intros []].
  intros Hx.
  exact (sa_grid_path sa_manifest_hit (frel f) _ (split_nl content) x
           (fun c il x => sa_manifest_hit_key c (frel f) il x) Hx).
Qed.

(** The file a finding of the security auditor is attributed to. *)
Lemma sa_raw_file d flt x :
  In x (SecurityAuditor.raw_findings d flt) ->
  (exists f, In f (rglob d "*.dart") /\ SecurityAuditor.file_path x = frel f)
  \/ (exists f, In f (sa_chosen_manifests d) /\ SecurityAuditor.file_path x = frel f)
  \/ (exists f, In f (rglob d "Info.plist") /\ SecurityAuditor.file_path x = frel f)
  \/ SecurityAuditor.file_path x = "pubspec.yaml".
Proof.
  rewrite sa_raw_findings_spec, !in_app_iff. intros [Hx|[Hx|[Hx|Hx]]].
  - left. apply sa_dart_In in Hx.
    destruct Hx as (f & content & c & n & ln & Hf & _ & _ & _ & _ & _ & _ & ->).
    exists f. split; [exact Hf|reflexivity].
  - right. left. unfold sa_manifests in Hx.
    destruct (SecurityAuditor.truthy flt
              && negb (SecurityAuditor.eq_filter "permissions" flt)); [destruct Hx|].
    apply in_flat_map in Hx. destruct Hx as (f & Hf & Hx).
    exists f. split; [exact Hf|now apply sa_manifest_file_path].
  - right. right. left. apply sa_plists_In in Hx. destruct Hx as (_ & f & Hf & ->).
    exists f. split; [exact Hf|reflexivity].
  - right. right. right. apply sa_pubspec_In in Hx. destruct Hx as (_ & Hx).
    unfold sa_pubspec_findings in Hx. destruct Hx as [<-|[<-|[<-|[]]]]; reflexivity.
Qed.

Lemma manifest_name f d :
  In f (rglob d "AndroidManifest.xml") ->
  path_name (frel f) = "AndroidManifest.xml".
Proof.
  intros Hf. apply rglob_In in Hf. destruct Hf as [_ Hf].
  unfold glob_match in Hf. now apply String.eqb_eq in Hf.
Qed.

(** No Dart file, property list or pubspec has the path of a manifest. *)
Lemma manifest_not_other d f g :
  In f (rglob d "AndroidManifest.xml") ->
  (In g (rglob d "*.dart") \/ In g (rglob d "Info.plist")) ->
  frel g <> frel f.
Proof.
  intros Hf Hg E. apply manifest_name in Hf.
  destruct Hg as [Hg|Hg]; apply rglob_In in Hg; destruct Hg as [_ Hg];
    rewrite E, Hf in Hg; vm_compute in Hg; discriminate Hg.
Qed.

Lemma manifest_not_pubspec d f :
  In f (rglob d "AndroidManifest.xml") -> frel f <> "pubspec.yaml".
Proof.
  intros Hf E. apply manifest_name in Hf. rewrite E in Hf.
  vm_compute in Hf. discriminate Hf.
Qed.

Lemma sa_main_manifest_rel d f g :
  frel g = frel f -> sa_main_manifest d g = sa_main_manifest d f.
Proof. intros E. unfold sa_main_manifest, fstr. now rewrite E. Qed.

(** X8: the security auditor prefers main manifests.  When the tree has an
    [AndroidManifest.xml] whose path shows neither "debug" nor "profile", no
    finding is attributed to a manifest whose path shows one of them,
    whatever that manifest contains. *)
Theorem X8_debug_manifest_ignored_beside_main (d : fs) (flt : option string)
  (g f : file) (x : SecurityAuditor.Finding) :
  In g (rglob d "AndroidManifest.xml") -> sa_main_manifest d g = true ->
  In f (rglob d "AndroidManifest.xml") -> sa_main_manifest d f = false ->
  In x (SecurityAuditor.r_findings (SecurityAuditor.report d flt)) ->
  SecurityAuditor.file_path x <> frel f.
Proof.
  intros Hg Mg Hf Mf Hx E. apply sa_report_In, sa_raw_file in Hx.
  destruct Hx as [(f' & Hf' & Ex)|[(f' & Hf' & Ex)|[(f' & Hf' & Ex)|Ex]]].
  - apply (manifest_not_other d f f' Hf); [now left|]. now rewrite <- Ex.
  - apply sa_chosen_manifests_In in Hf'. destruct Hf' as [Hf' [M|Hnone]].
    + rewrite (sa_main_manifest_rel d f f') in M by now rewrite <- Ex.
      rewrite Mf in M. discriminate M.
    + rewrite (Hnone g Hg) in Mg. discriminate Mg.
  - apply (manifest_not_other d f f' Hf); [now right|]. now rewrite <- Ex.
  - apply (manifest_not_pubspec d f Hf). now rewrite <- E.
Qed.

(** A finding of a scan with the name of a manifest rule, on a line of a
    manifest the scan reads. *)
Lemma sa_manifests_emit d flt f content c n ln :
  (SecurityAuditor.truthy flt = true ->
   SecurityAuditor.eq_filter "permissions" flt = true) ->
  In f (sa_chosen_manifests d) -> fcontent f = Some content ->
  In c SecurityAuditor.PERMISSION_CHECKS_ANDROID ->
  split_nl content !! n = Some ln ->
  re_search (SecurityAuditor.c_pattern c) true ln = true ->
  In (SecurityAuditor.mkFinding (SecurityAuditor.c_severity c)
        (SecurityAuditor.c_name c) (SecurityAuditor.c_desc c) (frel f) (S n)
        (slice_to 120 (strip ln)) (SecurityAuditor.c_rec c))
    (sa_manifests d flt).
Proof.
  intros Hflt Hf Hc Hr Hn Hre. unfold sa_manifests.
  destruct (SecurityAuditor.truthy flt) eqn:Et.
  - rewrite (Hflt eq_refl). cbn [negb andb].
    apply in_flat_map. exists f. split; [exact Hf|].
    unfold sa_manifest_file. rewrite Hc. apply in_flat_map. exists c.
    split; [exact Hr|]. apply in_flat_map. exists (S n, ln). split.
    + apply enumerate_In. exists n. split; [reflexivity|exact Hn].
    + unfold sa_manifest_hit. rewrite Hre. now left.
  - cbn [andb].
    apply in_flat_map. exists f. split; [exact Hf|].
    unfold sa_manifest_file. rewrite Hc. apply in_flat_map. exists c.
    split; [exact Hr|]. apply in_flat_map. exists (S n, ln). split.
    + apply enumerate_In. exists n. split; [reflexivity|exact Hn].
    + unfold sa_manifest_hit. rewrite Hre. now left.
Qed.

(** X9: which manifest lines the security auditor reports.  With no filter
    or the filter "permissions", a line of a readable manifest that a
    manifest rule matches gives exactly one finding with that check id, file
    and line number, if the manifest is a main one, and also if it is a debug
    or profile manifest and the tree has no main manifest at all. *)
Theorem X9_manifest_line_is_reported (d : fs) (flt : option string)
  (f : file) (content : string) (c : SecurityAuditor.check_def)
  (n : nat) (ln : string) :
  (SecurityAuditor.truthy flt = true ->
   SecurityAuditor.eq_filter "permissions" flt = true) ->
  In f (rglob d "AndroidManifest.xml") ->
  (sa_main_manifest d f = true
   \/ forall g, In g (rglob d "AndroidManifest.xml") -> sa_main_manifest d g = false) ->
  fcontent f = Some content ->
  In c SecurityAuditor.PERMISSION_CHECKS_ANDROID ->
  split_nl content !! n = Some ln ->
  re_search (SecurityAuditor.c_pattern c) true ln = true ->
  exists x,
    with_key SecurityAuditor.key (SecurityAuditor.c_name c, frel f, S n)
      (SecurityAuditor.r_findings (SecurityAuditor.report d flt)) = [x]
    /\ sa_from_rule c x.
Proof.
  intros Hflt Hf Hm Hc Hr Hn Hre.
  assert (Hch : In f (sa_chosen_manifests d))
    by (apply sa_chosen_manifests_In; tauto).
  pose proof (sa_manifests_emit d flt f content c n ln Hflt Hch Hc Hr Hn Hre) as H0.
  set (x0 := SecurityAuditor.mkFinding _ _ _ _ _ _ _) in H0.
  assert (H1 : In x0 (SecurityAuditor.raw_findings d flt))
    by (rewrite sa_raw_findings_spec, !in_app_iff; tauto).
  destruct (with_key_nonempty SecurityAuditor.key
              (SecurityAuditor.c_name c, frel f, S n) _ x0 H1 eq_refl)
    as (x & E & Hx & Kx).
  exists x. split.
  - rewrite (sa_report_with_key d flt (SecurityAuditor.c_name c, frel f, S n)).
    exact E.
  - apply (sa_raw_from_rule d flt c x Hx).
    + now apply sa_android_checks_all.
    + exact (f_equal (fun t => fst (fst t)) Kx).
Qed.

(** The file a finding of the BLE analyzer is attributed to. *)
Lemma ble_raw_file d x :
  In x (BLE.raw_findings d) ->
  (exists f, In f (rglob d "*.dart") /\ BLE.file_path x = frel f)
  \/ (exists f, In f (rglob d "AndroidManifest.xml")
                /\ contains "debug" (fstr d f) || contains "profile" (fstr d f) = false
                /\ BLE.file_path x = frel f)
  \/ (exists f, In f (rglob d "Info.plist") /\ BLE.file_path x = frel f).
Proof.
  intros Hx. apply ble_raw_categories in Hx.
  destruct Hx as [[Hx _]|[[Hx _]|[[Hx _]|[[Hx _]|[Hx _]]]]].
  1-3: left; apply ble_scan_In in Hx;
       destruct Hx as (f & content & r & n & ln & Hf & _ & _ & _ & _ & _ & ->);
       exists f; split; [exact Hf|reflexivity].
  - left. apply ble_validation_In in Hx.
    destruct Hx as (f & content & n & ln & Hf & _ & _ & _ & _ & _ & ->).
    exists f. split; [exact Hf|reflexivity].
  - right. unfold ble_permissions in Hx. apply in_app_iff in Hx.
    destruct Hx as [Hx|Hx]; apply in_flat_map in Hx; destruct Hx as (f & Hf & Hx).
    + left. exists f. split; [exact Hf|]. split.
      * unfold ble_manifest_file in Hx.
        destruct (contains "debug" (fstr d f) || contains "profile" (fstr d f));
          [destruct Hx|reflexivity].
      * now apply ble_manifest_file_In in Hx.
    + right. exists f. split; [exact Hf|]. now apply ble_plist_file_In in Hx.
Qed.

(** X10: the BLE analyzer never reads a debug or profile manifest.  No
    finding is attributed to an [AndroidManifest.xml] whose path shows
    "debug" or "profile", whether or not the tree has another manifest. *)
Theorem X10_ble_debug_manifest_never_read (d : fs) (f : file) (x : BLE.BLEFinding) :
  In f (rglob d "AndroidManifest.xml") ->
  contains "debug" (fstr d f) || contains "profile" (fstr d f) = true ->
  In x (BLE.r_findings (BLE.report d)) ->
  BLE.file_path x <> frel f.
Proof.
  intros Hf Mf Hx E. apply ble_report_In, ble_raw_file in Hx.
  destruct Hx as [(f' & Hf' & Ex)|[(f' & Hf' & M & Ex)|(f' & Hf' & Ex)]].
  - apply (manifest_not_other d f f' Hf); [now left|]. now rewrite <- Ex.
  - unfold fstr in M, Mf. rewrite <- Ex, E, Mf in M. discriminate M.
  - apply (manifest_not_other d f f' Hf); [now right|]. now rewrite <- Ex.
Qed.

End Manifests.

(* ===================================================================== *)
(** * The threat modeler: components, catalog, custom threats *)
(* ===================================================================== *)

Section SortedSet.
Import Py.

Lemma insert_str_In (x y : string) (l : list string) :
  In y (insert_str x l) <-> y = x \/ In y l.
Proof.
  induction l as [|z l IH]; cbn [insert_str In].
  - intuition.
  - destruct (string_leb x z); cbn [In]; [intuition|]. rewrite IH. intuition.
Qed.

Lemma sorted_list_In (l : list string) (k : string) :
  In k (fold_right insert_str [] l) <-> In k l.
Proof.
  induction l as [|x l IH]; cbn [fold_right In]; [tauto|].
  rewrite insert_str_In, IH. intuition.
Qed.

Lemma insert_str_NoDup (x : string) (l : list string) :
  ~ In x l -> List.NoDup l -> List.NoDup (insert_str x l).
Proof.
  induction l as [|z l IH]; cbn [insert_str]; intros Hx Hnd.
  - apply NoDup_cons_iff. split; [intros []|constructor].
  - destruct (string_leb x z).
    + apply NoDup_cons_iff. split; assumption.
    + apply NoDup_cons_iff in Hnd. destruct Hnd as [Hz Hnd].
      apply NoDup_cons_iff. split.
      * rewrite insert_str_In. intros [->|Hin]; [|contradiction].
        apply Hx. now left.
      * apply IH; [|exact Hnd]. intros Hin. apply Hx. now right.
Qed.

Lemma sorted_list_NoDup (l : list string) :
  List.NoDup l -> List.NoDup (fold_right insert_str [] l).
Proof.
  induction l as [|x l IH]; cbn [fold_right]; intros Hnd; [constructor|].
  apply NoDup_cons_iff in Hnd. destruct Hnd as [Hx Hnd].
  apply insert_str_NoDup; [|auto]. now rewrite sorted_list_In.
Qed.

Lemma string_leb_total (a b : string) :
  string_leb a b = false -> string_leb b a = true.
Proof.
  unfold string_leb. rewrite (String.compare_antisym b a).
  now destruct (String.compare a b).
Qed.

Lemma insert_str_Sorted (x : string) (l : list string) :
  Sorted (fun a b => string_leb a b = true) l ->
  Sorted (fun a b => string_leb a b = true) (insert_str x l).
Proof.
  induction l as [|z l IH]; cbn [insert_str]; intros Hs.
  - repeat constructor.
  - destruct (string_leb x z) eqn:E.
    + constructor; [exact Hs|]. now constructor.
    + apply Sorted_inv in Hs. destruct Hs as [Hs Hz].
      constructor; [now apply IH|].
      destruct l as [|w l]; cbn [insert_str].
      * constructor. now apply string_leb_total.
      * destruct (string_leb x w).
        -- constructor. now apply string_leb_total.
        -- constructor. now apply HdRel_inv in Hz.
Qed.

Lemma sorted_list_Sorted (l : list string) :
  Sorted (fun a b => string_leb a b = true) (fold_right insert_str [] l).
Proof.
  induction l as [|x l IH]; cbn [fold_right]; [constructor|].
  now apply insert_str_Sorted.
Qed.

(** [sorted(s)] lists the elements of the set, each once, in order. *)
Lemma sorted_set_spec (s : gset string) :
  Sorted (fun a b => string_leb a b = true) (sorted_set s)
  /\ List.NoDup (sorted_set s)
  /\ forall k, In k (sorted_set s) <-> k ∈ s.
Proof.
  unfold sorted_set. split; [apply sorted_list_Sorted|]. split.
  - apply sorted_list_NoDup, NoDup_ListNoDup, NoDup_elements.
  - intros k. rewrite sorted_list_In, <- list_elem_of_In. apply elem_of_elements.
Qed.

End SortedSet.

Section Detector.
Context `{Regex}.
Import Py ThreatModeler.

(** The components one file adds to the set. *)
Lemma tm_file_components (content : string) (cps : list (string * list string))
  (acc : gset string) (k : string) :
  k ∈ for_each cps (fun cp (found : gset string) =>
        let '(comp, patterns) := cp in
        if any (fun pattern => re_search pattern false content) patterns
        then {[comp]} ∪ found else found) acc
  <-> k ∈ acc
      \/ exists patterns, In (k, patterns) cps
           /\ any (fun pattern => re_search pattern false content) patterns = true.
Proof.
  unfold for_each. revert acc.
  induction cps as [|[comp patterns] cps IH]; intros acc; cbn [fold_left In].
  - split; [tauto|]. intros [Hk|(p & [] & _)]. exact Hk.
  - rewrite IH. clear IH.
    destruct (any (fun pattern => re_search pattern false content) patterns) eqn:E.
    + rewrite elem_of_union, elem_of_singleton. split.
      * intros [[->|Hk]|(p & Hp & Hany)].
        -- right. exists patterns. split; [now left|exact E].
        -- now left.
        -- right. exists p. split; [now right|exact Hany].
      * intros [Hk|(p & [Hp|Hp] & Hany)].
        -- left. now right.
        -- injection Hp as -> ->. left. now left.
        -- right. exists p. tauto.
    + split.
      * intros [Hk|(p & Hp & Hany)]; [now left|].
        right. exists p. split; [now right|exact Hany].
      * intros [Hk|(p & [Hp|Hp] & Hany)]; [now left| |].
        -- injection Hp as -> ->. rewrite E in Hany. discriminate Hany.
        -- right. exists p. tauto.
Qed.

Lemma tm_found_components (files : list file) (acc : gset string) (k : string) :
  k ∈ for_each files (fun dart_file (found : gset string) =>
        match fcontent dart_file with
        | None => found
        | Some content =>
            for_each component_patterns (fun cp (found : gset string) =>
              let '(comp, patterns) := cp in
              if any (fun pattern => re_search pattern false content) patterns
              then {[comp]} ∪ found else found) found
        end) acc
  <-> k ∈ acc
      \/ exists f content patterns,
           In f files /\ fcontent f = Some content
           /\ In (k, patterns) component_patterns
           /\ any (fun pattern => re_search pattern false content) patterns = true.
Proof.
  unfold for_each at 1. revert acc.
  induction files as [|f files IH]; intros acc; cbn [fold_left In].
  - split; [tauto|]. intros [Hk|(f & c & p & [] & _)]. exact Hk.
  - rewrite IH. clear IH. destruct (fcontent f) as [content|] eqn:Ef.
    + rewrite tm_file_components. split.
      * intros [[Hk|(p & Hp & Hany)]|(g & c & p & Hg & Hc & Hp & Hany)].
        -- now left.
        -- right. exists f, content, p. tauto.
        -- right. exists g, c, p. tauto.
      * intros [Hk|(g & c & p & [Hg|Hg] & Hc & Hp & Hany)].
        -- left. now left.
        -- subst g. rewrite Ef in Hc. injection Hc as <-.
           left. right. exists p. tauto.
        -- right. exists g, c, p. tauto.
    + split.
      * intros [Hk|(g & c & p & Hg & Hc & Hp & Hany)]; [now left|].
        right. exists g, c, p. tauto.
      * intros [Hk|(g & c & p & [Hg|Hg] & Hc & Hp & Hany)]; [now left| |].
        -- subst g. rewrite Ef in Hc. discriminate Hc.
        -- right. exists g, c, p. tauto.
Qed.

(** X11: what [scan_components] detects.  [components_found] is in
    increasing order and has no repeats, and it holds a component key exactly
    when one of the patterns of that component occurs (case-sensitively) in
    some readable Dart file of the tree, test and generated files
    included. *)
Theorem X11_components_found_characterised (d : fs) :
  let comps := components_found (modelled d) in
  Sorted (fun a b => string_leb a b = true) comps
  /\ List.NoDup comps
  /\ forall k, In k comps <->
       exists f content patterns,
         In f (rglob d "*.dart") /\ fcontent f = Some content
         /\ In (k, patterns) component_patterns
         /\ any (fun pattern => re_search pattern false content) patterns = true.
Proof.
  intros comps. unfold comps.
  destruct (tm_modelled_spec d) as (_ & E & _). rewrite E.
  unfold tm_components, scan_components. cbv zeta.
  cbn [results components_found world init].
  match goal with
  | |- context [sorted_set ?s] => destruct (sorted_set_spec s) as (S1 & S2 & S3)
  end.
  split; [exact S1|]. split; [exact S2|].
  intros k. rewrite S3, tm_found_components. split.
  - intros [Hk|Hk]; [|exact Hk]. now apply not_elem_of_empty in Hk.
  - intros Hk. now right.
Qed.

End Detector.

Section Catalog.
Context `{Regex}.
Import Py ThreatModeler.

Lemma lookup_model_In cat k m :
  lookup_model cat k = Some m -> In (k, m) cat.
Proof.
  induction cat as [|[k' m'] cat IH]; cbn [lookup_model In]; [discriminate|].
  destruct (String.eqb k' k) eqn:E.
  - intros [= <-]. apply String.eqb_eq in E. subst k'. now left.
  - intros Hl. right. now apply IH.
Qed.

Lemma lookup_model_NoDup cat k m :
  List.NoDup (List.map fst cat) -> In (k, m) cat -> lookup_model cat k = Some m.
Proof.
  induction cat as [|[k' m'] cat IH]; cbn [lookup_model In List.map fst];
    [intros _ []|].
  intros Hnd Hin. apply NoDup_cons_iff in Hnd. destruct Hnd as [Hk Hnd].
  destruct Hin as [[= -> ->]|Hin].
  - now rewrite String.eqb_refl.
  - destruct (String.eqb k' k) eqn:E; [|now apply IH].
    apply String.eqb_eq in E. subst k'. exfalso. apply Hk.
    exact (in_map fst _ _ Hin).
Qed.

Lemma catalog_keys_NoDup : List.NoDup (List.map fst BLE_MESH_THREATS).
Proof. apply NoDup_ListNoDup, (bool_decide_unpack _). vm_compute. exact I. Qed.

(** The threats of two models of the catalog with the same description
    belong to the same component key; and no threat of the catalog has a
    location or the category "Custom". *)
Lemma catalog_models_apart :
  forallb (fun km =>
    forallb (fun t =>
      match file_path t with None => true | Some _ => false end
      && negb (String.eqb (category t) "Custom")
      && forallb (fun km' =>
           forallb (fun t' =>
             implb (String.eqb (description t) (description t'))
                   (String.eqb (fst km) (fst km')))
             (threats (snd km'))) BLE_MESH_THREATS)
      (threats (snd km))) BLE_MESH_THREATS = true.
Proof. vm_compute. reflexivity. Qed.

Lemma catalog_threat_facts k m t :
  In (k, m) BLE_MESH_THREATS -> In t (threats m) ->
  file_path t = None /\ category t <> "Custom"
  /\ forall k' m', In (k', m') BLE_MESH_THREATS -> In t (threats m') -> k = k'.
Proof.
  intros Hm Ht. pose proof catalog_models_apart as T.
  rewrite forallb_forall in T. specialize (T (k, m) Hm).
  rewrite forallb_forall in T. specialize (T t Ht).
  apply andb_true_iff in T. destruct T as [T T3].
  apply andb_true_iff in T. destruct T as [T1 T2].
  split; [now destruct (file_path t)|]. split.
  - now apply negb_true_iff, String.eqb_neq in T2.
  - intros k' m' Hm' Ht'.
    rewrite forallb_forall in T3. specialize (T3 (k', m') Hm').
    rewrite forallb_forall in T3. specialize (T3 t Ht').
    rewrite String.eqb_refl in T3. now apply String.eqb_eq in T3.
Qed.

Lemma tm_custom_In d t :
  In t (tm_custom d) ->
  exists f content rp start,
    In f (rglob d "*.dart") /\ fcontent f = Some content
    /\ In rp risk_patterns
    /\ In start (re_finditer (k_pattern rp) true content)
    /\ t = tm_custom_threat (frel f) content rp start.
Proof.
  unfold tm_custom. intros Ht. apply in_flat_map in Ht.
  destruct Ht as (f & Hf & Ht). unfold tm_custom_file in Ht.
  destruct (fcontent f) as [content|] eqn:Ec; [|destruct Ht].
  apply in_flat_map in Ht. destruct Ht as (rp & Hrp & Ht).
  apply in_map_iff in Ht. destruct Ht as (start & <- & Hs).
  exists f, content, rp, start. tauto.
Qed.

(** X12: when at least one component is detected, a threat of the catalog
    is listed exactly when the component of its model is detected. *)
Theorem X12_catalog_threats_of_detected_components (d : fs)
  (k : string) (m : ThreatModel) (t : Threat) :
  components_found (modelled d) <> [] ->
  In (k, m) BLE_MESH_THREATS -> In t (threats m) ->
  (In t (r_threats (modelled d)) <-> In k (components_found (modelled d))).
Proof.
  intros Hne Hm Ht.
  destruct (tm_modelled_spec d) as (Er & Ec & _). cbv zeta in Er, Ec.
  rewrite Er. rewrite Ec in *. clear Er Ec.
  destruct (catalog_threat_facts k m t Hm Ht) as (Hp & _ & Hk).
  unfold tm_catalog.
  destruct (tm_components d) as [|c0 comps] eqn:Ecomps; [contradiction|].
  rewrite app_nil_r, in_app_iff, in_flat_map. split.
  - intros [(k' & Hk' & Hin)|Hin].
    + destruct (lookup_model BLE_MESH_THREATS k') as [m'|] eqn:El; [|destruct Hin].
      apply lookup_model_In in El. now rewrite (Hk k' m' El Hin).
    + apply tm_custom_In in Hin.
      destruct Hin as (f & content & rp & start & _ & _ & _ & _ & ->).
      discriminate Hp.
  - intros Hin. left. exists k. split; [exact Hin|].
    now rewrite (lookup_model_NoDup _ k m catalog_keys_NoDup Hm).
Qed.

End Catalog.

Section Lines.
Import Py.

Lemma split_nl_nonempty (s : string) : split_nl s <> [].
Proof.
  destruct s as [|c s]; cbn [split_nl]; [discriminate|].
  destruct (Ascii.eqb c nl_c); [discriminate|].
  destruct (split_nl s); discriminate.
Qed.

Lemma slice_to_nil (n : nat) : slice_to n "" = "".
Proof. unfold slice_to. now destruct n. Qed.

Lemma slice_to_zero (s : string) : slice_to 0 s = "".
Proof. unfold slice_to. now destruct s. Qed.

Lemma slice_to_cons (n : nat) (c : ascii) (s : string) :
  slice_to (S n) (String c s) = String c (slice_to n s).
Proof. reflexivity. Qed.

Lemma join_nl_cons (l : string) (ls : list string) :
  ls <> [] -> join_nl (l :: ls) = (l ++ nl ++ join_nl ls)%string.
Proof. destruct ls; [congruence|reflexivity]. Qed.

(** The offset [start] of a text lies in the line numbered
    [count_nl (slice_to start content) + 1]: the text before the offset is
    made of the lines before that one and of a prefix of it. *)
Lemma offset_line (content : string) (start : nat) :
  let k := count_nl (slice_to start content) in
  exists p q,
    split_nl content !! k = Some (p ++ q)%string
    /\ slice_to start content = join_nl (firstn k (split_nl content) ++ [p]).
Proof.
  revert start. induction content as [|c s IH]; intros start.
  - rewrite slice_to_nil. cbn [count_nl split_nl]. exists "", "". split; reflexivity.
  - destruct start as [|n].
    + rewrite slice_to_zero. cbn [count_nl].
      destruct (split_nl (String c s)) as [|l ls] eqn:E;
        [now apply split_nl_nonempty in E|].
      exists "", l. split; reflexivity.
    + rewrite slice_to_cons. cbn [count_nl split_nl].
      specialize (IH n). cbv zeta in IH. destruct IH as (p & q & Hl & Hs).
      destruct (Ascii.eqb c nl_c) eqn:Ec.
      * apply Ascii.eqb_eq in Ec. subst c.
        exists p, q. cbn [Nat.add]. split; [exact Hl|].
        cbn [firstn app]. rewrite join_nl_cons by (now destruct (firstn _ _)).
        rewrite <- Hs. reflexivity.
      * cbn [Nat.add].
        destruct (split_nl s) as [|l ls] eqn:E; [now apply split_nl_nonempty in E|].
        destruct (count_nl (slice_to n s)) as [|j].
        -- cbn in Hl. injection Hl as ->.
           exists (String c p), q. split; [reflexivity|].
           cbn [firstn app join_nl] in *. now rewrite Hs.
        -- exists p, q. split; [exact Hl|].
           cbn [firstn app] in *.
           rewrite join_nl_cons in * by (now destruct (firstn _ _)).
           rewrite Hs. reflexivity.
Qed.

Lemma offset_line_bound (content : string) (start : nat) :
  count_nl (slice_to start content) < List.length (split_nl content).
Proof.
  destruct (offset_line content start) as (p & q & Hl & _).
  now apply lookup_lt_Some in Hl.
Qed.

End Lines.

Section CustomThreats.
Context `{Regex}.
Import Py ThreatModeler.

(** X13: every custom threat points at a line that exists.  A listed threat
    of category "Custom" comes from a match of a risk pattern in a readable
    Dart file; its location is the relative path of the file, a colon and a
    line number between 1 and the number of lines of the file; and the match
    starts in that line: the text before the match is made of the lines
    before it and of a prefix of that line. *)
Theorem X13_custom_threat_location (d : fs) (t : Threat) :
  In t (r_threats (modelled d)) -> category t = "Custom" ->
  exists f content rp start p q,
    let ln := count_nl (slice_to start content) + 1 in
    In f (rglob d "*.dart") /\ fcontent f = Some content
    /\ In rp risk_patterns
    /\ In start (re_finditer (k_pattern rp) true content)
    /\ description t = k_desc rp /\ severity t = k_severity rp
    /\ file_path t = Some (frel f ++ ":" ++ str_of_nat ln)%string
    /\ 1 <= ln <= List.length (split_nl content)
    /\ split_nl content !! (ln - 1) = Some (p ++ q)%string
    /\ slice_to start content
       = join_nl (firstn (ln - 1) (split_nl content) ++ [p]).
Proof.
  intros Ht Hc. destruct (tm_modelled_spec d) as (Er & _). cbv zeta in Er.
  rewrite Er in Ht. clear Er. apply in_app_iff in Ht. destruct Ht as [Ht|Ht].
  - exfalso. unfold tm_catalog in Ht. apply in_app_iff in Ht.
    destruct Ht as [Ht|Ht].
    + apply in_flat_map in Ht. destruct Ht as (k & _ & Ht).
      destruct (lookup_model BLE_MESH_THREATS k) as [m|] eqn:El; [|destruct Ht].
      apply lookup_model_In in El.
      now destruct (catalog_threat_facts k m t El Ht) as (_ & Hn & _).
    + destruct (tm_components d); [|destruct Ht].
      apply in_flat_map in Ht. destruct Ht as (m & Hm & Ht).
      apply in_map_iff in Hm. destruct Hm as ([k m'] & <- & Hm).
      now destruct (catalog_threat_facts k m' t Hm Ht) as (_ & Hn & _).
  - apply tm_custom_In in Ht.
    destruct Ht as (f & content & rp & start & Hf & Hcn & Hrp & Hs & ->).
    destruct (offset_line content start) as (p & q & Hl & Hsl). cbv zeta in Hl, Hsl.
    pose proof (offset_line_bound content start) as Hb.
    exists f, content, rp, start, p, q. cbv zeta.
    replace (count_nl (slice_to start content) + 1 - 1)
      with (count_nl (slice_to start content)) by lia.
    repeat split; try assumption; lia.
Qed.

End CustomThreats.

(* ===================================================================== *)
(** * Files that cannot be read *)
(* ===================================================================== *)

Section Skipping.

Lemma flat_map_filter_skip {A B} (g : A -> list B) (p : A -> bool)
  (l1 : list A) (x : A) (l2 : list A) :
  g x = [] ->
  flat_map g (List.filter p (l1 ++ x :: l2)) = flat_map g (List.filter p (l1 ++ l2)).
Proof.
  intros Hx. rewrite !List.filter_app, !flat_map_app. cbn [List.filter].
  destruct (p x); [|reflexivity]. cbn [flat_map]. now rewrite Hx.
Qed.

Lemma flat_map_filter2_skip {A B} (g : A -> list B) (p q : A -> bool)
  (l1 : list A) (x : A) (l2 : list A) :
  g x = [] ->
  flat_map g (List.filter q (List.filter p (l1 ++ x :: l2)))
  = flat_map g (List.filter q (List.filter p (l1 ++ l2))).
Proof.
  intros Hx. rewrite (List.filter_app p l1 (x :: l2)), (List.filter_app p l1 l2).
  cbn [List.filter]. destruct (p x); [|reflexivity].
  exact (flat_map_filter_skip g q (List.filter p l1) x (List.filter p l2) Hx).
Qed.

Lemma for_each_filter_skip {A S} (body : A -> S -> S) (p : A -> bool)
  (l1 : list A) (x : A) (l2 : list A) (s : S) :
  (forall s, body x s = s) ->
  Py.for_each (List.filter p (l1 ++ x :: l2)) body s
  = Py.for_each (List.filter p (l1 ++ l2)) body s.
Proof.
  intros Hx. unfold Py.for_each. rewrite !List.filter_app, !fold_left_app.
  cbn [List.filter]. destruct (p x); [|reflexivity].
  cbn [fold_left]. now rewrite Hx.
Qed.

Lemma filter_skip {A} (p : A -> bool) (l1 : list A) (x : A) (l2 : list A) :
  p x = false -> List.filter p (l1 ++ x :: l2) = List.filter p (l1 ++ l2).
Proof.
  intros Hx. rewrite !List.filter_app. cbn [List.filter]. now rewrite Hx.
Qed.

End Skipping.

Section Unreadable.
Context `{Regex}.
Import Py.

Lemma tm_custom_findings_spec self :
  ThreatModeler.custom_findings
    (ThreatModeler.results (ThreatModeler.check_custom_threats self))
  = Some (List.length (tm_custom (ThreatModeler.world self))).
Proof.
  destruct (tm_check_custom_threats_spec self) as (T & _).
  unfold ThreatModeler.check_custom_threats in *. cbv zeta in *.
  cbn [ThreatModeler.results ThreatModeler.custom_findings
       ThreatModeler.r_threats] in *.
  apply app_inv_head in T. now rewrite T.
Qed.

(** The results of a run of the threat modeler, in full. *)
Lemma tm_modelled_eq d :
  let comps := tm_components d in
  let ts := tm_catalog comps ++ tm_custom d in
  ThreatModeler.modelled d
  = ThreatModeler.mkResults ts
      (Some (ThreatModeler.mkSummary (List.length ts)
               (count_by ThreatModeler.severity ts ∅)
               (count_by ThreatModeler.category ts ∅) comps))
      comps (Some (List.length (tm_custom d))).
Proof.
  intros comps ts. unfold ThreatModeler.modelled.
  set (s1 := ThreatModeler.scan_components (ThreatModeler.init d)).
  set (s2 := ThreatModeler.apply_threat_catalog s1).
  set (s3 := ThreatModeler.check_custom_threats s2).
  destruct (tm_apply_threat_catalog_spec s1) as (T2 & C2 & W2).
  destruct (tm_check_custom_threats_spec s2) as (T3 & C3 & W3).
  pose proof (tm_custom_findings_spec s2) as F3.
  fold s2 in T2, C2, W2. fold s3 in T3, C3, W3, F3.
  assert (W1 : ThreatModeler.world s1 = d) by reflexivity.
  assert (T1 : ThreatModeler.r_threats (ThreatModeler.results s1) = []) by reflexivity.
  assert (C1 : ThreatModeler.components_found (ThreatModeler.results s1) = comps)
    by reflexivity.
  rewrite W2, W1 in T3, F3. rewrite T2, T1, C1 in T3. cbn [app] in T3. fold ts in T3.
  rewrite C2, C1 in C3.
  unfold ThreatModeler.generate_report. cbv zeta.
  change ThreatModeler.summary_step
    with (fun (x : ThreatModeler.Threat) (st : gmap string nat * gmap string nat) =>
            (incr (ThreatModeler.severity x) (fst st),
             incr (ThreatModeler.category x) (snd st))).
  rewrite (summary_loop_split ThreatModeler.severity ThreatModeler.category _ ∅ ∅).
  cbn [ThreatModeler.results]. rewrite T3, C3, F3. reflexivity.
Qed.

Variables (t : string) (e : bool) (l1 l2 : list file) (rel : string)
  (pp : option (option string)).

Local Abbreviation d1 := (FS t e (l1 ++ File rel None :: l2) pp).
Local Abbreviation d0 := (FS t e (l1 ++ l2) pp).

Lemma ble_scan_unreadable patterns cat :
  ble_scan patterns cat d1 = ble_scan patterns cat d0.
Proof.
  unfold ble_scan, BLE._scan_dart_files, rglob. cbv zeta.
  cbn [BLE.world BLE.init tree].
  exact (flat_map_filter2_skip (ble_scan_file patterns cat) _ _ l1
           (File rel None) l2 eq_refl).
Qed.

Lemma ble_raw_unreadable : BLE.raw_findings d1 = BLE.raw_findings d0.
Proof.
  rewrite !ble_raw_findings_spec, !ble_scan_unreadable. do 3 f_equal.
  f_equal.
  - unfold ble_validation, BLE._scan_dart_files, rglob. cbv zeta.
    cbn [BLE.world BLE.init tree].
    exact (flat_map_filter2_skip ble_validation_file _ _ l1 (File rel None) l2 eq_refl).
  - unfold ble_permissions, rglob. cbn [tree]. f_equal.
    + apply (flat_map_filter_skip (ble_manifest_file d0)).
      unfold ble_manifest_file. cbn [fcontent].
      now destruct (contains "debug" _ || contains "profile" _).
    + exact (flat_map_filter_skip ble_plist_file _ l1 (File rel None) l2 eq_refl).
Qed.

Lemma tm_custom_unreadable : tm_custom d1 = tm_custom d0.
Proof.
  unfold tm_custom, rglob. cbn [tree].
  exact (flat_map_filter_skip tm_custom_file _ l1 (File rel None) l2 eq_refl).
Qed.

Lemma tm_components_unreadable : tm_components d1 = tm_components d0.
Proof.
  unfold tm_components, ThreatModeler.scan_components, rglob. cbv zeta.
  cbn [ThreatModeler.world ThreatModeler.init ThreatModeler.results
       ThreatModeler.components_found tree].
  f_equal. apply for_each_filter_skip. reflexivity.
Qed.

Lemma sa_dart_unreadable flt : sa_dart d1 flt = sa_dart d0 flt.
Proof.
  unfold sa_dart, rglob. cbn [tree].
  exact (flat_map_filter2_skip
           (sa_dart_file (SecurityAuditor._get_checks (SecurityAuditor.init d0 flt)))
           _ (SecurityAuditor.is_source_file d0) l1 (File rel None) l2 eq_refl).
Qed.

Lemma sa_plists_unreadable flt : sa_plists d1 flt = sa_plists d0 flt.
Proof.
  unfold sa_plists, rglob. cbn [tree].
  destruct (SecurityAuditor.truthy flt
            && negb (SecurityAuditor.eq_filter "permissions" flt)); [reflexivity|].
  exact (flat_map_filter_skip sa_plist_file _ l1 (File rel None) l2 eq_refl).
Qed.

Lemma sa_manifests_unreadable flt :
  path_name rel <> "AndroidManifest.xml" ->
  sa_manifests d1 flt = sa_manifests d0 flt.
Proof.
  intros Hn. unfold sa_manifests, sa_chosen_manifests, rglob. cbv zeta. cbn [tree].
  rewrite (filter_skip (fun f => glob_match "AndroidManifest.xml" (path_name (frel f)))
             l1 (File rel None) l2).
  - reflexivity.
  - cbn [frel]. unfold glob_match. apply String.eqb_neq. intros E. now apply Hn.
Qed.

Lemma sa_pubspec_unreadable flt :
  rel <> "pubspec.yaml" -> sa_pubspec d1 flt = sa_pubspec d0 flt.
Proof.
  intros Hn. unfold sa_pubspec, lookup_child. cbn [tree parent_pubspec].
  rewrite (filter_skip (fun f => String.eqb (frel f) "pubspec.yaml")
             l1 (File rel None) l2).
  - reflexivity.
  - cbn [frel]. now apply String.eqb_neq.
Qed.

(** X14: a file that cannot be read is a file that is not there.  Removing
    from the tree a file whose text cannot be read changes neither the report
    of the BLE analyzer nor the results of the threat modeler; and it does not
    change the report of the security auditor either, unless the file is an
    [AndroidManifest.xml] or the [pubspec.yaml] of the target, whose mere
    presence matters. *)
Theorem X14_unreadable_file_is_skipped :
  BLE.report d1 = BLE.report d0
  /\ ThreatModeler.modelled d1 = ThreatModeler.modelled d0
  /\ (path_name rel <> "AndroidManifest.xml" -> rel <> "pubspec.yaml" ->
      forall flt, SecurityAuditor.report d1 flt = SecurityAuditor.report d0 flt).
Proof.
  split; [|split].
  - rewrite !ble_report_eq. cbv zeta. now rewrite ble_raw_unreadable.
  - rewrite !tm_modelled_eq. cbv zeta.
    now rewrite tm_components_unreadable, tm_custom_unreadable.
  - intros Hm Hp flt. rewrite !sa_report_eq. cbv zeta.
    rewrite !sa_raw_findings_spec.
    now rewrite sa_dart_unreadable, (sa_manifests_unreadable flt Hm),
      sa_plists_unreadable, (sa_pubspec_unreadable flt Hp).
Qed.

End Unreadable.

(* ===================================================================== *)
(** * The pubspec checks *)
(* ===================================================================== *)

Section Pubspec.
Context `{Regex}.
Import Py SecurityAuditor.

(** Among the findings of a scan, a pubspec finding is the only one with
    its key. *)
Lemma sa_pubspec_key_unique d flt x y :
  In x sa_pubspec_findings -> In y (raw_findings d flt) -> key y = key x -> y = x.
Proof.
  intros Hx Hy E.
  assert (Hl : line x = 0 /\ check x <> "ios-background-modes").
  { unfold sa_pubspec_findings in Hx.
    destruct Hx as [<-|[<-|[<-|[]]]]; (split; [reflexivity|]);
      intros E'; apply String.eqb_eq in E'; vm_compute in E'; discriminate E'. }
  destruct Hl as [Hl Hc].
  pose proof (f_equal snd E) as El. cbn [snd key] in El. rewrite Hl in El.
  pose proof (f_equal (fun k => fst (fst k)) E) as Ec. cbn [fst key] in Ec.
  rewrite sa_raw_findings_spec, !in_app_iff in Hy.
  destruct Hy as [Hy|[Hy|[Hy|Hy]]].
  - apply sa_dart_line in Hy. lia.
  - apply sa_manifests_line in Hy. lia.
  - apply sa_plists_line in Hy. destruct Hy as [_ Hy].
    exfalso. apply Hc. now rewrite <- Ec.
  - apply sa_pubspec_In in Hy. destruct Hy as [_ Hy].
    unfold sa_pubspec_findings in Hx, Hy.
    destruct Hx as [<-|[<-|[<-|[]]]], Hy as [<-|[<-|[<-|[]]]];
      try reflexivity; exfalso;
      apply String.eqb_eq in Ec; vm_compute in Ec; discriminate Ec.
Qed.

(** A pubspec finding of the scan is in the report. *)
Lemma sa_pubspec_kept d flt x :
  In x sa_pubspec_findings ->
  (In x (r_findings (report d flt)) <-> In x (sa_pubspec d flt)).
Proof.
  intros Hx. split.
  - intros Hin. apply sa_report_In in Hin.
    rewrite sa_raw_findings_spec, !in_app_iff in Hin.
    assert (Hl : line x = 0 /\ check x <> "ios-background-modes").
    { unfold sa_pubspec_findings in Hx.
      destruct Hx as [<-|[<-|[<-|[]]]]; (split; [reflexivity|]);
        intros E'; apply String.eqb_eq in E'; vm_compute in E'; discriminate E'. }
    destruct Hl as [Hl Hc].
    destruct Hin as [Hy|[Hy|[Hy|Hy]]].
    + apply sa_dart_line in Hy. lia.
    + apply sa_manifests_line in Hy. lia.
    + apply sa_plists_line in Hy. now destruct Hy as [_ Hy].
    + exact Hy.
  - intros Hin.
    assert (Hraw : In x (raw_findings d flt))
      by (rewrite sa_raw_findings_spec, !in_app_iff; tauto).
    destruct (with_key_nonempty key (key x) _ x Hraw eq_refl) as (y & E & Hy & Ky).
    rewrite <- (sa_report_with_key d flt (key x)) in E.
    rewrite <- (sa_pubspec_key_unique d flt x y Hx Hy Ky).
    assert (Hin' : In y (with_key key (key x) (r_findings (report d flt))))
      by (rewrite E; now left).
    unfold with_key in Hin'. apply filter_In in Hin'. exact (proj1 Hin').
Qed.

(** X15: the three pubspec checks, on the text the auditor reads.  With no
    filter or the filter "crypto", and with [content] the text of the
    [pubspec.yaml] of the target or, when the target has none, of its parent
    directory: the report has the finding "http-dependency" exactly when the
    text contains "http:" and not "http_cache", "missing-sodium" exactly when
    it does not contain "sodium_libs", and "missing-secure-storage" exactly
    when it does not contain "flutter_secure_storage". *)
Theorem X15_pubspec_checks (d : fs) (flt : option string) (content : string) :
  (truthy flt = true -> eq_filter "crypto" flt = true) ->
  match lookup_child d "pubspec.yaml" with
  | Some p => Some p
  | None => parent_pubspec d
  end = Some (Some content) ->
  let L := r_findings (report d flt) in
  (In http_dependency L
   <-> contains "http:" content = true /\ contains "http_cache" content = false)
  /\ (In missing_sodium L <-> contains "sodium_libs" content = false)
  /\ (In missing_secure_storage L
      <-> contains "flutter_secure_storage" content = false).
Proof.
  intros Hflt Hp L. unfold L.
  assert (Es : sa_pubspec d flt = sa_pubspec_text content).
  { unfold sa_pubspec. rewrite Hp. destruct (truthy flt).
    - now rewrite (Hflt eq_refl).
    - reflexivity. }
  assert (N1 : http_dependency <> missing_sodium)
    by (intros E; apply (f_equal check) in E; apply String.eqb_eq in E;
        vm_compute in E; discriminate E).
  assert (N2 : http_dependency <> missing_secure_storage)
    by (intros E; apply (f_equal check) in E; apply String.eqb_eq in E;
        vm_compute in E; discriminate E).
  assert (N3 : missing_sodium <> missing_secure_storage)
    by (intros E; apply (f_equal check) in E; apply String.eqb_eq in E;
        vm_compute in E; discriminate E).
  rewrite (sa_pubspec_kept d flt http_dependency) by (now left).
  rewrite (sa_pubspec_kept d flt missing_sodium) by (right; now left).
  rewrite (sa_pubspec_kept d flt missing_secure_storage) by (right; right; now left).
  rewrite Es. unfold sa_pubspec_text. rewrite !in_app_iff.
  destruct (contains "http:" content); destruct (contains "http_cache" content);
    destruct (contains "sodium_libs" content);
    destruct (contains "flutter_secure_storage" content);
    cbn [andb negb In]; repeat split; intros; try tauto; try discriminate;
    intuition congruence.
Qed.

(** X16: the [pubspec.yaml] of the parent directory is a fallback for a
    missing file only.  When the target has its own [pubspec.yaml], the report
    does not depend on the parent directory; and when that file cannot be
    read, no finding is attributed to "pubspec.yaml", even if the parent
    directory has a readable one. *)
Theorem X16_parent_pubspec_only_when_missing (d : fs) (flt : option string)
  (p : option string) :
  lookup_child d "pubspec.yaml" = Some p ->
  (forall pp,
     report (FS (target d) (target_exists d) (tree d) pp) flt = report d flt)
  /\ (p = None ->
      forall x, In x (r_findings (report d flt)) -> file_path x <> "pubspec.yaml").
Proof.
  intros Hl. split.
  - intros pp'. destruct d as [t e tr pp]. cbn [target target_exists tree].
    rewrite !sa_report_eq. cbv zeta. rewrite !sa_raw_findings_spec.
    assert (Es : sa_pubspec (FS t e tr pp') flt = sa_pubspec (FS t e tr pp) flt).
    { unfold sa_pubspec.
      change (lookup_child (FS t e tr pp') "pubspec.yaml")
        with (lookup_child (FS t e tr pp) "pubspec.yaml").
      now rewrite Hl. }
    rewrite Es. reflexivity.
  - intros -> x Hx E. apply sa_report_In in Hx.
    rewrite sa_raw_findings_spec, !in_app_iff in Hx.
    assert (Hg : forall pat f, In f (rglob d pat) -> frel f = "pubspec.yaml" ->
                   glob_match pat "pubspec.yaml" = true).
    { intros pat f Hf Ef. apply rglob_In in Hf. destruct Hf as [_ Hf].
      rewrite Ef in Hf. exact Hf. }
    destruct Hx as [Hx|[Hx|[Hx|Hx]]].
    + apply sa_dart_In in Hx.
      destruct Hx as (f & content & c & n & ln & Hf & _ & _ & _ & _ & _ & _ & ->).
      cbn [file_path] in E. specialize (Hg _ f Hf E).
      vm_compute in Hg. discriminate Hg.
    + apply sa_manifests_In in Hx.
      destruct Hx as (_ & f & content & c & n & ln & Hf & _ & _ & _ & ->).
      cbn [file_path] in E. specialize (Hg _ f Hf E).
      vm_compute in Hg. discriminate Hg.
    + apply sa_plists_In in Hx. destruct Hx as (_ & f & Hf & ->).
      cbn [file_path] in E. specialize (Hg _ f Hf E).
      vm_compute in Hg. discriminate Hg.
    + unfold sa_pubspec in Hx. rewrite Hl in Hx.
      now destruct (truthy flt && negb (eq_filter "crypto" flt)).
Qed.

End Pubspec.

(* ===================================================================== *)
(** * The configuration extraction of the BLE analyzer *)
(* ===================================================================== *)

Section ConfigFacts.
Context `{RegexGroups}.
Import Py BLEConfig.

Lemma line_of_lookup (content : string) (m : nat * string) :
  split_nl content !! count_nl (slice_to (fst m) content)
  = Some (line_of content m).
Proof.
  unfold line_of. destruct (offset_line content (fst m)) as (p & q & Hl & _).
  cbv zeta in Hl. now rewrite Hl.
Qed.

(** The index [line_num - 1] is always within the lines of the file. *)
Lemma record_uuid_spec (content rel : string) (m : nat * string) (cfg : ble_config) :
  record_uuid content rel m cfg
  = inr (if is_characteristic (line_of content m)
         then add_characteristic (entry_of content rel m) cfg
         else add_service (entry_of content rel m) cfg).
Proof.
  pose proof (line_of_lookup content m) as Hl.
  destruct m as [start g]. unfold record_uuid, is_characteristic, entry_of.
  cbn [fst snd] in *. cbv zeta.
  replace (0 <? count_nl (slice_to start content) + 1) with true
    by (symmetry; apply Nat.ltb_lt; lia).
  replace (count_nl (slice_to start content) + 1 - 1)
    with (count_nl (slice_to start content)) by lia.
  rewrite Hl.
  destruct (contains "service" (str_lower (line_of content (start, g))));
    [reflexivity|].
  destruct (contains "characteristic" (str_lower (line_of content (start, g))));
    reflexivity.
Qed.

Lemma record_matches_spec (content rel : string) (ms : list (nat * string))
  (cfg : ble_config) :
  for_each_err ms (record_uuid content rel) cfg
  = inr (mkConfig
           (service_uuids cfg
            ++ List.map (entry_of content rel)
                 (List.filter (fun m => Bool.eqb (is_characteristic (line_of content m))
                                          false) ms))
           (characteristic_uuids cfg
            ++ List.map (entry_of content rel)
                 (List.filter (fun m => Bool.eqb (is_characteristic (line_of content m))
                                          true) ms))
           (advertising_data cfg) (connection_params cfg) (scan_settings cfg)).
Proof.
  revert cfg. induction ms as [|m ms IH]; intros cfg; cbn [for_each_err List.filter].
  - cbn [List.map]. rewrite !app_nil_r. now destruct cfg.
  - rewrite record_uuid_spec.
    destruct (is_characteristic (line_of content m)); cbn [Bool.eqb];
      rewrite IH; unfold add_characteristic, add_service;
      cbn [service_uuids characteristic_uuids advertising_data connection_params
           scan_settings List.map];
      now rewrite <- app_assoc.
Qed.

Lemma record_files_spec (files : list file) (cfg : ble_config) :
  for_each_err files (fun dart_file cfg =>
    match fcontent dart_file with
    | None => inr cfg
    | Some content =>
        for_each_err (re_finditer_group1 uuid_pattern content)
          (record_uuid content (frel dart_file)) cfg
    end) cfg
  = inr (mkConfig
           (service_uuids cfg ++ flat_map (file_entries false) files)
           (characteristic_uuids cfg ++ flat_map (file_entries true) files)
           (advertising_data cfg) (connection_params cfg) (scan_settings cfg)).
Proof.
  revert cfg. induction files as [|f files IH]; intros cfg;
    cbn [for_each_err flat_map].
  - rewrite !app_nil_r. now destruct cfg.
  - unfold file_entries at 1 3. destruct (fcontent f) as [content|].
    + rewrite record_matches_spec, IH.
      cbn [service_uuids characteristic_uuids advertising_data connection_params
           scan_settings].
      now rewrite <- !app_assoc.
    + rewrite IH. reflexivity.
Qed.

(** What [extract_ble_config] leaves in [ble_config]. *)
Lemma extract_ble_config_spec (d : fs) (cfg : ble_config) :
  extract_ble_config d cfg
  = inr (mkConfig
           (service_uuids cfg
            ++ flat_map (file_entries false) (BLE._scan_dart_files (BLE.init d)))
           (characteristic_uuids cfg
            ++ flat_map (file_entries true) (BLE._scan_dart_files (BLE.init d)))
           (advertising_data cfg) (connection_params cfg) (scan_settings cfg)).
Proof. unfold extract_ble_config. cbv zeta. apply record_files_spec. Qed.

Context `{Regex}.

(** X17: the configuration extraction never fails.  The index
    [line_num - 1] into the lines of a file is always in range, so
    [extract_ble_config] raises no [IndexError], whatever the matcher
    reports; and the run with the extraction step ends like the run without
    it: with status 1 exactly when the target is missing, and otherwise with
    the same report, beside a configuration whose lists "advertising_data",
    "connection_params" and "scan_settings" are empty. *)
Theorem X17_extract_ble_config_never_raises (d : fs) :
  (forall cfg, exists cfg', extract_ble_config d cfg = inr cfg')
  /\ exit_status (BLEConfig.run d) = exit_status (BLE.run d)
  /\ (exit_status (BLEConfig.run d) = 0 <-> target_exists d = true)
  /\ (target_exists d = true ->
      exists cfg,
        BLEConfig.run d = Return (BLE.report d, cfg)
        /\ advertising_data cfg = [] /\ connection_params cfg = []
        /\ scan_settings cfg = []).
Proof.
  split; [|split; [|split]].
  - intros cfg. rewrite extract_ble_config_spec. eexists. reflexivity.
  - unfold BLEConfig.run, BLE.run, BLE.validate_target. cbv zeta.
    cbn [BLE.world BLE.init]. rewrite extract_ble_config_spec.
    now destruct (target_exists d).
  - unfold BLEConfig.run, BLE.validate_target. cbv zeta.
    cbn [BLE.world BLE.init]. rewrite extract_ble_config_spec.
    destruct (target_exists d); cbn [exit_status]; split; congruence.
  - intros He. unfold BLEConfig.run, BLE.validate_target. cbv zeta.
    cbn [BLE.world BLE.init]. rewrite extract_ble_config_spec, He.
    eexists. split; [reflexivity|]. repeat split.
Qed.

(** X18: what the extraction records.  After [extract_ble_config] on the
    empty configuration, an entry is in "characteristic_uuids" exactly when
    it is the entry of a match of the UUID pattern in a scanned, readable
    Dart file, on a line that, in lower case, contains "characteristic" and
    not "service"; every other match gives an entry in "service_uuids".  The
    line number of an entry is that of an existing line of the file. *)
Theorem X18_uuid_entries (d : fs) (cfg : ble_config) (to_char : bool)
  (e : uuid_info) :
  extract_ble_config d init_config = inr cfg ->
  (In e (if to_char then characteristic_uuids cfg else service_uuids cfg)
   <-> exists f content m ln,
         In f (rglob d "*.dart") /\ BLE.is_source_file d f = true
         /\ fcontent f = Some content
         /\ In m (re_finditer_group1 uuid_pattern content)
         /\ e = mkUuid (str_upper (snd m)) (frel f)
                  (count_nl (slice_to (fst m) content) + 1)
         /\ split_nl content !! (u_line e - 1) = Some ln
         /\ is_characteristic ln = to_char).
Proof.
  rewrite extract_ble_config_spec. intros [= <-].
  cbn [characteristic_uuids service_uuids init_config app].
  assert (E : (if to_char
               then flat_map (file_entries true) (BLE._scan_dart_files (BLE.init d))
               else flat_map (file_entries false) (BLE._scan_dart_files (BLE.init d)))
              = flat_map (file_entries to_char) (BLE._scan_dart_files (BLE.init d)))
    by (now destruct to_char).
  rewrite E. clear E. rewrite in_flat_map. split.
  - intros (f & Hf & He). apply ble_scan_dart_files_In in Hf. destruct Hf as [Hf Hs].
    unfold file_entries in He. destruct (fcontent f) as [content|] eqn:Ec;
      [|destruct He].
    apply in_map_iff in He. destruct He as (m & <- & Hm).
    apply filter_In in Hm. destruct Hm as [Hm Hc].
    apply Bool.eqb_prop in Hc.
    exists f, content, m, (line_of content m).
    repeat split; try assumption.
    unfold entry_of. cbn [u_line].
    replace (count_nl (slice_to (fst m) content) + 1 - 1)
      with (count_nl (slice_to (fst m) content)) by lia.
    apply line_of_lookup.
  - intros (f & content & m & ln & Hf & Hs & Ec & Hm & -> & Hl & Hc).
    exists f. split; [apply ble_scan_dart_files_In; tauto|].
    unfold file_entries. rewrite Ec. apply in_map_iff. exists m.
    split; [reflexivity|]. apply filter_In. split; [exact Hm|].
    cbn [u_line] in Hl.
    replace (count_nl (slice_to (fst m) content) + 1 - 1)
      with (count_nl (slice_to (fst m) content)) in Hl by lia.
    rewrite line_of_lookup in Hl. injection Hl as ->.
    rewrite Hc. apply Bool.eqb_reflx.
Qed.

End ConfigFacts.

(* ===================================================================== *)
(** * The printed report of the security auditor *)
(* ===================================================================== *)

Section HeaderFacts.
Import AuditorConsole.
Context {A : Type} (sev : A -> string) (rank : string -> nat).

Lemma headers_of_In (current : option string) (l : list A) (s : string) :
  In s (headers_of sev current l) -> exists x, In x l /\ sev x = s.
Proof.
  revert current. induction l as [|x l IH]; intros current; cbn [headers_of];
    [intros []|].
  rewrite in_app_iff. intros [Hs|Hs].
  - destruct (differs (sev x) current); [|destruct Hs].
    destruct Hs as [<-|[]]. exists x. split; [now left|reflexivity].
  - destruct (IH _ Hs) as (y & Hy & E). exists y. split; [now right|exact E].
Qed.

Lemma differs_Some (s c : string) : differs s (Some c) = false <-> s = c.
Proof.
  cbn [differs]. rewrite negb_false_iff. apply String.eqb_eq.
Qed.

Lemma headers_of_complete (current : option string) (l : list A) (x : A) :
  In x l -> current <> Some (sev x) -> In (sev x) (headers_of sev current l).
Proof.
  revert current. induction l as [|y l IH]; intros current; [intros []|].
  cbn [headers_of]. rewrite in_app_iff. intros [->|Hx] Hc.
  - left. destruct current as [c|]; cbn [differs]; [|now left].
    destruct (String.eqb (sev x) c) eqn:E; cbn [negb]; [|now left].
    apply String.eqb_eq in E. subst c. now contradiction Hc.
  - destruct (String.eqb (sev x) (sev y)) eqn:E.
    + apply String.eqb_eq in E. left. rewrite <- E.
      destruct current as [c|]; cbn [differs]; [|now left].
      destruct (String.eqb (sev x) c) eqn:E'; cbn [negb]; [|now left].
      apply String.eqb_eq in E'. subst c. now contradiction Hc.
    + right. apply IH; [exact Hx|]. intros [= E']. rewrite E' in E.
      now rewrite String.eqb_refl in E.
Qed.

Variable known : A -> Prop.
Hypothesis rank_inj :
  forall x y : A, known x -> known y -> rank (sev x) = rank (sev y) -> sev x = sev y.

(** After an entry of a list in severity order, only less severe headers
    follow. *)
Lemma headers_of_after (c : A) (l : list A) (s : string) :
  List.Forall known (c :: l) ->
  StronglySorted (fun x y => rank (sev x) <= rank (sev y)) (c :: l) ->
  In s (headers_of sev (Some (sev c)) l) -> rank (sev c) < rank s.
Proof.
  revert c. induction l as [|x l IH]; intros c Hk Hs; cbn [headers_of]; [intros []|].
  apply StronglySorted_inv in Hs. destruct Hs as [Hs Hc].
  pose proof (Forall_inv Hk) as Kc. pose proof (Forall_inv_tail Hk) as Kl.
  pose proof (Forall_inv Kl) as Kx.
  assert (Hle : rank (sev c) <= rank (sev x))
    by (rewrite List.Forall_forall in Hc; apply Hc; now left).
  rewrite in_app_iff. intros [Hin|Hin].
  - destruct (differs (sev x) (Some (sev c))) eqn:E; [|destruct Hin].
    destruct Hin as [<-|[]].
    destruct (Nat.eq_dec (rank (sev c)) (rank (sev x))) as [Er|Er]; [|lia].
    apply (rank_inj c x Kc Kx) in Er. symmetry in Er. apply differs_Some in Er.
    rewrite Er in E. discriminate E.
  - pose proof (IH x Kl Hs Hin) as Hlt. lia.
Qed.

(** In severity order, each header is printed once, most severe first. *)
Lemma headers_of_sorted (current : option string) (l : list A) :
  List.Forall known l ->
  StronglySorted (fun x y => rank (sev x) <= rank (sev y)) l ->
  StronglySorted (fun a b => rank a < rank b) (headers_of sev current l).
Proof.
  revert current. induction l as [|x l IH]; intros current Hk Hs; cbn [headers_of];
    [constructor|].
  pose proof (IH (Some (sev x)) (Forall_inv_tail Hk)
                (proj1 (StronglySorted_inv Hs))) as Hl.
  destruct (differs (sev x) current); cbn [app]; [|exact Hl].
  constructor; [exact Hl|].
  apply List.Forall_forall. intros s Hin. exact (headers_of_after x l s Hk Hs Hin).
Qed.

End HeaderFacts.

Section ConsoleFacts.
Context `{Regex}.
Import Py SecurityAuditor AuditorConsole.

Lemma headers_app (l1 l2 : list out_line) : headers (l1 ++ l2) = headers l1 ++ headers l2.
Proof. apply flat_map_app. Qed.

Lemma breakdown_app (l1 l2 : list out_line) :
  breakdown (l1 ++ l2) = breakdown l1 ++ breakdown l2.
Proof. apply flat_map_app. Qed.

(** The loop over the findings adds the headers [headers_of] lists and no
    summary line. *)
Lemma print_findings_spec (l : list Finding) (current : option string)
  (out : list out_line) :
  headers (snd (for_each l print_finding (current, out)))
  = headers out ++ headers_of severity current l
  /\ breakdown (snd (for_each l print_finding (current, out))) = breakdown out
  /\ (In Clean (snd (for_each l print_finding (current, out))) <-> In Clean out).
Proof.
  unfold for_each. revert current out.
  induction l as [|f l IH]; intros current out; cbn [fold_left headers_of snd].
  - rewrite app_nil_r. tauto.
  - unfold print_finding at 2 4 6. cbn [fst snd].
    destruct (differs (severity f) current) eqn:Ed; cbn [fst snd].
    + destruct (IH (Some (severity f))
                  ((out ++ [SeverityHeader (severity f)])
                   ++ [FindingHead (check f) (description f);
                       FindingFile (file_path f) (line f);
                       FindingCode (code_snippet f);
                       FindingFix (recommendation f)])) as (I1 & I2 & I3).
      rewrite I1, I2, I3. rewrite !headers_app, !breakdown_app, !in_app_iff.
      cbn [headers breakdown flat_map app In]. rewrite !app_nil_r, <- app_assoc.
      split; [reflexivity|]. split; [reflexivity|].
      split; [|tauto].
      intros [[Hc|[Hc|[]]]|[Hc|[Hc|[Hc|[Hc|[]]]]]];
        [exact Hc|discriminate Hc..].
    + destruct current as [c|]; [|discriminate Ed].
      apply differs_Some in Ed. subst c.
      destruct (IH (Some (severity f))
                  (out ++ [FindingHead (check f) (description f);
                           FindingFile (file_path f) (line f);
                           FindingCode (code_snippet f);
                           FindingFix (recommendation f)])) as (I1 & I2 & I3).
      rewrite I1, I2, I3. rewrite !headers_app, !breakdown_app, !in_app_iff.
      cbn [headers breakdown flat_map app In]. rewrite !app_nil_r.
      split; [reflexivity|]. split; [reflexivity|].
      split; [|tauto].
      intros [Hc|[Hc|[Hc|[Hc|[Hc|[]]]]]]; [exact Hc|discriminate Hc..].
Qed.

Lemma print_breakdown_spec (by_sev : gmap string nat) (out : list out_line) :
  print_breakdown by_sev out
  = out ++ flat_map (fun sev =>
             if 0 <? default 0 (by_sev !! sev)
             then [Breakdown (icon_of sev) sev (default 0 (by_sev !! sev))]
             else []) finding_severities.
Proof.
  unfold print_breakdown.
  apply (for_each_emits (fun out : list out_line => out)).
  intros sev st. cbv zeta.
  destruct (0 <? default 0 (by_sev !! sev)); [reflexivity|now rewrite app_nil_r].
Qed.

(** The headers, the summary lines and the clean-scan line of a printed
    report. *)
Lemma print_report_spec (t : string) (l : list Finding) (by_sev : gmap string nat) :
  headers (print_report t l by_sev) = headers_of severity None l
  /\ breakdown (print_report t l by_sev)
     = flat_map (fun sev =>
         if 0 <? default 0 (by_sev !! sev)
         then [(sev, default 0 (by_sev !! sev))] else []) finding_severities
  /\ (In Clean (print_report t l by_sev) <-> l = []).
Proof.
  unfold print_report. cbv zeta. rewrite print_breakdown_spec.
  set (bs := flat_map _ finding_severities).
  assert (Hb : headers bs = [] /\ ~ In Clean bs
               /\ breakdown bs
                  = flat_map (fun sev =>
                      if 0 <? default 0 (by_sev !! sev)
                      then [(sev, default 0 (by_sev !! sev))] else [])
                      finding_severities).
  { unfold bs, finding_severities. cbn [flat_map].
    destruct (0 <? default 0 (by_sev !! "CRIT"));
      destruct (0 <? default 0 (by_sev !! "HIGH"));
      destruct (0 <? default 0 (by_sev !! "MED"));
      destruct (0 <? default 0 (by_sev !! "LOW"));
      cbn [app headers breakdown flat_map In];
      (split; [reflexivity|]); (split; [|reflexivity]);
      intros Hc; repeat (destruct Hc as [Hc|Hc]; [discriminate Hc|]); exact Hc. }
  destruct Hb as (B1 & B2 & B3). clearbody bs.
  destruct l as [|f l].
  - rewrite !headers_app, !breakdown_app, !in_app_iff, B1, B3.
    cbn [headers breakdown flat_map app In headers_of]. rewrite !app_nil_r.
    split; [reflexivity|]. split; [reflexivity|]. tauto.
  - destruct (print_findings_spec (f :: l) None
                (([Banner; Title; Rule; Target t; Total (List.length (f :: l)); Blank]
                  ++ bs) ++ [Blank; Dashes])) as (I1 & I2 & I3).
    rewrite !headers_app, !breakdown_app, !in_app_iff, I1, I2, I3.
    rewrite !headers_app, !breakdown_app, !in_app_iff, B1, B3.
    cbn [headers breakdown flat_map app In]. rewrite !app_nil_r.
    split; [reflexivity|]. split; [reflexivity|].
    split; [|discriminate].
    intros [[[Hc|Hc]|Hc]|Hc].
    + repeat (destruct Hc as [Hc|Hc]; [discriminate Hc|]). destruct Hc.
    + contradiction.
    + repeat (destruct Hc as [Hc|Hc]; [discriminate Hc|]). destruct Hc.
    + repeat (destruct Hc as [Hc|Hc]; [discriminate Hc|]). destruct Hc.
Qed.

Lemma sa_report_known d flt x :
  In x (r_findings (report d flt)) -> In (severity x) finding_severities.
Proof.
  intros Hx. apply sa_report_In, sa_raw_severity in Hx.
  eapply table_severities_known; [|exact Hx]. vm_compute. reflexivity.
Qed.

Lemma severity_order_inj (a b : string) :
  In a finding_severities -> In b finding_severities ->
  severity_order a = severity_order b -> a = b.
Proof.
  unfold finding_severities. cbn [In].
  intros [<-|[<-|[<-|[<-|[]]]]] [<-|[<-|[<-|[<-|[]]]]] E;
    try reflexivity; vm_compute in E; discriminate E.
Qed.

Lemma sa_report_sorted d flt :
  StronglySorted (fun x y => severity_order (severity x) <= severity_order (severity y))
    (r_findings (report d flt)).
Proof.
  destruct (sa_report_spec d flt) as (E & _). rewrite E.
  apply first_by_key_sorted.
  exact (sort_by_sorted (fun f => severity_order (severity f)) _).
Qed.

(** X19: one block per severity.  In what [generate_report] prints for a
    run, the severity headers are in strictly decreasing severity (CRIT
    before HIGH before MED before LOW), so none is printed twice, and a
    severity has a header exactly when a finding of the report has it. *)
Theorem X19_one_header_per_severity (d : fs) (flt : option string) :
  let R := report d flt in
  let hs := headers (console R) in
  StronglySorted (fun a b => severity_order a < severity_order b) hs
  /\ forall s, In s hs <-> exists x, In x (r_findings R) /\ severity x = s.
Proof.
  intros R hs. unfold hs, console.
  destruct (print_report_spec (r_target R) (r_findings R) (by_severity R))
    as (E & _). rewrite E. clear E. split.
  - apply (headers_of_sorted severity severity_order
             (fun x => In (severity x) finding_severities)).
    + intros x y Kx Ky. now apply severity_order_inj.
    + apply List.Forall_forall. intros x Hx. exact (sa_report_known d flt x Hx).
    + apply sa_report_sorted.
  - intros s. split.
    + apply headers_of_In.
    + intros (x & Hx & <-). apply headers_of_complete; [exact Hx|discriminate].
Qed.

Lemma occurrences_cons {A} (h : A -> string) (k : string) (x : A) (l : list A) :
  occurrences h k (x :: l)
  = (if String.eqb (h x) k then 1 else 0) + occurrences h k l.
Proof.
  unfold occurrences, count_if. cbn [List.filter].
  now destruct (String.eqb (h x) k).
Qed.

Lemma known_severities_sum (l : list Finding) :
  (forall x, In x l -> In (severity x) finding_severities) ->
  occurrences severity "CRIT" l + occurrences severity "HIGH" l
  + occurrences severity "MED" l + occurrences severity "LOW" l = List.length l.
Proof.
  induction l as [|x l IH]; intros Hk; [reflexivity|].
  rewrite !occurrences_cons. cbn [List.length].
  specialize (IH (fun y Hy => Hk y (or_intror Hy))).
  pose proof (Hk x (or_introl eq_refl)) as Hx.
  unfold finding_severities in Hx. cbn [In] in Hx.
  destruct Hx as [<-|[<-|[<-|[<-|[]]]]]; cbn; lia.
Qed.

(** X20: the severity summary is complete.  The summary lines that
    [generate_report] prints for a run give, for each of CRIT, HIGH, MED and
    LOW that occurs and in this order, the number of findings of that
    severity; the numbers add up to [total_findings]; and the line
    "No findings. Clean scan." is printed exactly when there is no
    finding. *)
Theorem X20_severity_summary_complete (d : fs) (flt : option string) :
  let R := report d flt in
  breakdown (console R)
  = List.filter (fun p => 0 <? snd p)
      (List.map (fun s => (s, occurrences severity s (r_findings R)))
         finding_severities)
  /\ list_sum (List.map snd (breakdown (console R))) = total_findings R
  /\ (In Clean (console R) <-> total_findings R = 0).
Proof.
  intros R.
  destruct (print_report_spec (r_target R) (r_findings R) (by_severity R))
    as (_ & E & Hc).
  assert (Hn : forall s, default 0 (by_severity R !! s)
                         = occurrences severity s (r_findings R)).
  { intros s. unfold R. rewrite sa_report_eq. cbv zeta.
    cbn [by_severity r_findings]. rewrite count_by_lookup, lookup_empty.
    destruct (occurrences severity s _ =? 0) eqn:E0; [|reflexivity].
    apply Nat.eqb_eq in E0. now rewrite E0. }
  assert (Ht : total_findings R = List.length (r_findings R))
    by (unfold R; rewrite sa_report_eq; reflexivity).
  pose proof (known_severities_sum (r_findings R) (sa_report_known d flt)) as Hs.
  unfold console. rewrite E. clear E.
  unfold finding_severities. cbn [flat_map List.map List.filter snd].
  rewrite !Hn, Ht.
  set (c := occurrences severity "CRIT" (r_findings R)) in *.
  set (h := occurrences severity "HIGH" (r_findings R)) in *.
  set (m := occurrences severity "MED" (r_findings R)) in *.
  set (w := occurrences severity "LOW" (r_findings R)) in *.
  clearbody c h m w.
  split; [|split].
  - destruct (0 <? c), (0 <? h), (0 <? m), (0 <? w); reflexivity.
  - destruct (0 <? c) eqn:Ec, (0 <? h) eqn:Eh, (0 <? m) eqn:Em, (0 <? w) eqn:Ew;
      cbn [app List.map snd list_sum fold_right];
      rewrite ?Nat.ltb_ge in *; lia.
  - unfold console in Hc. rewrite Hc. split.
    + intros El. rewrite El. reflexivity.
    + intros El. now destruct (r_findings R).
Qed.

End ConsoleFacts.

(* ===================================================================== *)
(** * The platform configuration checks *)
(* ===================================================================== *)

Section PlatformChecks.
Context `{Regex}.
Import Py.

(** With distinct relative paths the report lists what the scans found. *)
Lemma sa_report_In_iff d flt x :
  List.NoDup (List.map frel (tree d)) ->
  (In x (SecurityAuditor.r_findings (SecurityAuditor.report d flt))
   <-> In x (SecurityAuditor.raw_findings d flt)).
Proof.
  intros Hnd. rewrite sa_report_eq. cbv zeta. cbn [SecurityAuditor.r_findings].
  rewrite dedup_sort_commute.
  - rewrite (first_by_key_NoDup_id SecurityAuditor.key ∅ _ (sa_raw_NoDup d flt Hnd)).
    + apply sort_by_In.
    + intros y _. apply not_elem_of_empty.
  - intros a b Ha Hb Hab.
    pose proof (sa_key_fixes_rank d flt a b Ha Hb Hab) as Es.
    rewrite Es. reflexivity.
Qed.

Lemma ble_report_In_iff d x :
  List.NoDup (List.map frel (tree d)) ->
  (In x (BLE.r_findings (BLE.report d)) <-> In x (BLE.raw_findings d)).
Proof.
  intros Hnd. rewrite ble_report_eq. cbv zeta. cbn [BLE.r_findings].
  rewrite dedup_sort_commute.
  - rewrite (first_by_key_NoDup_id BLE.key ∅ _ (ble_raw_NoDup d Hnd)).
    + apply sort_by_In.
    + intros y _. apply not_elem_of_empty.
  - intros a b Ha Hb Hab.
    pose proof (ble_key_fixes_rank d a b Ha Hb Hab) as Es.
    rewrite Es. reflexivity.
Qed.

(** A finding of category "config" comes from the permission audit. *)
Lemma ble_config_In d x :
  BLE.category x = "config" ->
  (In x (BLE.raw_findings d) <-> In x (ble_permissions d)).
Proof.
  intros Hc. split.
  - intros Hx. apply ble_raw_categories in Hx.
    destruct Hx as [[_ E]|[[_ E]|[[_ E]|[[_ E]|[Hx _]]]]]; [| | | |exact Hx];
      rewrite Hc in E; apply String.eqb_eq in E; vm_compute in E; discriminate E.
  - intros Hx. rewrite ble_raw_findings_spec, !in_app_iff. tauto.
Qed.

Lemma ble_manifest_file_eq d f content :
  contains "debug" (fstr d f) || contains "profile" (fstr d f) = false ->
  fcontent f = Some content ->
  ble_manifest_file d f
  = (if contains "ACCESS_FINE_LOCATION" content && contains "BLUETOOTH_SCAN" content
     then [ble_fine_location (frel f)] else [])
    ++ (if negb (contains "BLUETOOTH_ADVERTISE" content)
           && contains "ble_peripheral" (target d)
        then [ble_missing_advertise (frel f)] else []).
Proof. intros Hm Hc. unfold ble_manifest_file. rewrite Hm, Hc. reflexivity. Qed.

Lemma ble_config_findings_differ (r1 r2 r3 : string) :
  ble_fine_location r1 <> ble_missing_advertise r2
  /\ ble_fine_location r1 <> ble_missing_usage_description r3
  /\ ble_missing_advertise r2 <> ble_missing_usage_description r3.
Proof.
  repeat split; intros E; apply (f_equal BLE.description) in E;
    apply String.eqb_eq in E; vm_compute in E; discriminate E.
Qed.

(** Among the findings of the permission audit, those of one manifest. *)
Lemma ble_permissions_of_manifest d f x :
  List.NoDup (List.map frel (tree d)) ->
  In f (rglob d "AndroidManifest.xml") ->
  x = ble_fine_location (frel f) \/ x = ble_missing_advertise (frel f) ->
  (In x (ble_permissions d) <-> In x (ble_manifest_file d f)).
Proof.
  intros Hnd Hf Hx. unfold ble_permissions. rewrite in_app_iff. split.
  - intros [Hin|Hin]; apply in_flat_map in Hin; destruct Hin as (g & Hg & Hin).
    + pose proof (ble_manifest_file_In d g x Hin) as [Eg _].
      assert (Ep : BLE.file_path x = frel f) by (destruct Hx as [-> | ->]; reflexivity).
      rewrite Ep in Eg.
      apply rglob_In in Hg, Hf. destruct Hg as [Hg _], Hf as [Hf' _].
      rewrite (frel_inj_in (tree d) f g Hnd Hf' Hg Eg). exact Hin.
    + apply ble_plist_file_In in Hin. destruct Hin as [_ Ex].
      exfalso. destruct Hx as [-> | ->];
        apply String.eqb_eq in Ex; vm_compute in Ex; discriminate Ex.
  - intros Hin. left. apply in_flat_map. exists f. split; [exact Hf|exact Hin].
Qed.

(** X21: the Android permission checks of the BLE analyzer.  On a tree with
    distinct relative paths, for a readable [AndroidManifest.xml] whose path
    shows neither "debug" nor "profile": the report has the finding about
    FINE_LOCATION for that file exactly when its text contains both
    "ACCESS_FINE_LOCATION" and "BLUETOOTH_SCAN"; and it has the finding about
    a missing BLUETOOTH_ADVERTISE exactly when the text does not contain
    "BLUETOOTH_ADVERTISE" and the path of the target directory, not the
    code, contains "ble_peripheral". *)
Theorem X21_ble_manifest_checks (d : fs) (f : file) (content : string) :
  List.NoDup (List.map frel (tree d)) ->
  In f (rglob d "AndroidManifest.xml") ->
  contains "debug" (fstr d f) || contains "profile" (fstr d f) = false ->
  fcontent f = Some content ->
  let L := BLE.r_findings (BLE.report d) in
  (In (ble_fine_location (frel f)) L
   <-> contains "ACCESS_FINE_LOCATION" content = true
       /\ contains "BLUETOOTH_SCAN" content = true)
  /\ (In (ble_missing_advertise (frel f)) L
      <-> contains "BLUETOOTH_ADVERTISE" content = false
          /\ contains "ble_peripheral" (target d) = true).
Proof.
  intros Hnd Hf Hm Hc L. unfold L.
  destruct (ble_config_findings_differ (frel f) (frel f) (frel f)) as (N & _).
  rewrite (ble_report_In_iff d (ble_fine_location (frel f)) Hnd),
    (ble_report_In_iff d (ble_missing_advertise (frel f)) Hnd).
  rewrite (ble_config_In d (ble_fine_location (frel f)) eq_refl),
    (ble_config_In d (ble_missing_advertise (frel f)) eq_refl).
  rewrite (ble_permissions_of_manifest d f _ Hnd Hf (or_introl eq_refl)),
    (ble_permissions_of_manifest d f _ Hnd Hf (or_intror eq_refl)).
  rewrite (ble_manifest_file_eq d f content Hm Hc), !in_app_iff.
  set (x1 := ble_fine_location (frel f)) in *.
  set (x2 := ble_missing_advertise (frel f)) in *.
  clearbody x1 x2.
  destruct (contains "ACCESS_FINE_LOCATION" content);
    destruct (contains "BLUETOOTH_SCAN" content);
    destruct (contains "BLUETOOTH_ADVERTISE" content);
    destruct (contains "ble_peripheral" (target d));
    cbn [andb negb In]; intuition (try discriminate; try congruence).
Qed.

Lemma plist_same d f g :
  List.NoDup (List.map frel (tree d)) ->
  In f (rglob d "Info.plist") -> In g (rglob d "Info.plist") ->
  frel g = frel f -> g = f.
Proof.
  intros Hnd Hf Hg Eg. apply rglob_In in Hg, Hf. destruct Hg as [Hg _], Hf as [Hf _].
  exact (frel_inj_in (tree d) g f Hnd Hg Hf Eg).
Qed.

(** X22: the [Info.plist] checks.  On a tree with distinct relative paths,
    for a readable [Info.plist]: the BLE analyzer reports the missing usage
    description for that file exactly when the text does not contain
    "NSBluetoothAlwaysUsageDescription"; and the security auditor, with no
    filter or the filter "permissions", reports "ios-background-modes" for
    it exactly when the text contains both "fetch" and "bluetooth". *)
Theorem X22_plist_checks (d : fs) (f : file) (content : string) :
  List.NoDup (List.map frel (tree d)) ->
  In f (rglob d "Info.plist") ->
  fcontent f = Some content ->
  (In (ble_missing_usage_description (frel f)) (BLE.r_findings (BLE.report d))
   <-> contains "NSBluetoothAlwaysUsageDescription" content = false)
  /\ (forall flt,
        (SecurityAuditor.truthy flt = true ->
         SecurityAuditor.eq_filter "permissions" flt = true) ->
        (In (sa_background_modes (frel f))
            (SecurityAuditor.r_findings (SecurityAuditor.report d flt))
         <-> contains "fetch" content = true /\ contains "bluetooth" content = true)).
Proof.
  intros Hnd Hf Hc. split.
  - rewrite (ble_report_In_iff d (ble_missing_usage_description (frel f)) Hnd),
      (ble_config_In d (ble_missing_usage_description (frel f)) eq_refl).
    unfold ble_permissions. rewrite in_app_iff. split.
    + intros [Hx|Hx]; apply in_flat_map in Hx; destruct Hx as (g & Hg & Hx).
      * apply ble_manifest_file_In in Hx. destruct Hx as [_ [Ex|Ex]];
          apply String.eqb_eq in Ex; vm_compute in Ex; discriminate Ex.
      * pose proof (ble_plist_file_In g _ Hx) as [Eg _].
        change (frel f = frel g) in Eg.
        rewrite (plist_same d f g Hnd Hf Hg (eq_sym Eg)) in Hx.
        unfold ble_plist_file in Hx. rewrite Hc in Hx.
        destruct (contains "NSBluetoothAlwaysUsageDescription" content);
          [destruct Hx|reflexivity].
    + intros Hn. right. apply in_flat_map. exists f. split; [exact Hf|].
      unfold ble_plist_file. rewrite Hc, Hn. left. reflexivity.
  - intros flt Hflt.
    rewrite (sa_report_In_iff d flt (sa_background_modes (frel f)) Hnd).
    rewrite sa_raw_findings_spec, !in_app_iff.
    assert (Hgate : SecurityAuditor.truthy flt
                    && negb (SecurityAuditor.eq_filter "permissions" flt) = false).
    { destruct (SecurityAuditor.truthy flt); [|reflexivity].
      rewrite (Hflt eq_refl). reflexivity. }
    split.
    + intros [Hx|[Hx|[Hx|Hx]]].
      * apply sa_dart_line in Hx. cbn [SecurityAuditor.line sa_background_modes] in Hx.
        lia.
      * apply sa_manifests_line in Hx.
        cbn [SecurityAuditor.line sa_background_modes] in Hx. lia.
      * unfold sa_plists in Hx. rewrite Hgate in Hx.
        apply in_flat_map in Hx. destruct Hx as (g & Hg & Hx).
        assert (Eg : frel g = frel f).
        { unfold sa_plist_file in Hx. destruct (fcontent g); [|destruct Hx].
          destruct (contains "fetch" _ && contains "bluetooth" _); [|destruct Hx].
          destruct Hx as [Hx|[]].
          exact (f_equal SecurityAuditor.file_path Hx). }
        rewrite (plist_same d f g Hnd Hf Hg Eg) in Hx.
        unfold sa_plist_file in Hx. rewrite Hc in Hx.
        destruct (contains "fetch" content), (contains "bluetooth" content);
          cbn [andb] in Hx; try destruct Hx; split; reflexivity.
      * apply sa_pubspec_line in Hx. destruct Hx as [_ Hx].
        exfalso. apply Hx. reflexivity.
    + intros [H1 H2]. right. right. left.
      unfold sa_plists. rewrite Hgate. apply in_flat_map. exists f.
      split; [exact Hf|]. unfold sa_plist_file. rewrite Hc, H1, H2.
      left. reflexivity.
Qed.

End PlatformChecks.

(* ===================================================================== *)
(** * The count of custom threats *)
(* ===================================================================== *)

Section CustomCount.
Context `{Regex}.
Import Py ThreatModeler.

Lemma occurrences_app {A} (h : A -> string) (k : string) (l1 l2 : list A) :
  occurrences h k (l1 ++ l2) = occurrences h k l1 + occurrences h k l2.
Proof.
  unfold occurrences, count_if. now rewrite List.filter_app, length_app.
Qed.

Lemma occurrences_none {A} (h : A -> string) (k : string) (l : list A) :
  (forall x, In x l -> h x <> k) -> occurrences h k l = 0.
Proof.
  intros Hn. unfold occurrences, count_if.
  rewrite (filter_const (fun x => String.eqb (h x) k) false l); [reflexivity|].
  intros x Hx. apply String.eqb_neq. now apply Hn.
Qed.

Lemma occurrences_all {A} (h : A -> string) (k : string) (l : list A) :
  (forall x, In x l -> h x = k) -> occurrences h k l = List.length l.
Proof.
  intros Ha. unfold occurrences, count_if.
  rewrite (filter_const (fun x => String.eqb (h x) k) true l); [reflexivity|].
  intros x Hx. apply String.eqb_eq. now apply Ha.
Qed.

Lemma tm_catalog_not_custom comps t :
  In t (tm_catalog comps) -> category t <> "Custom".
Proof.
  unfold tm_catalog. rewrite in_app_iff. intros [Ht|Ht].
  - apply in_flat_map in Ht. destruct Ht as (k & _ & Ht).
    destruct (lookup_model BLE_MESH_THREATS k) as [m|] eqn:El; [|destruct Ht].
    apply lookup_model_In in El.
    exact (proj1 (proj2 (catalog_threat_facts k m t El Ht))).
  - destruct comps; [|destruct Ht].
    apply in_flat_map in Ht. destruct Ht as (m & Hm & Ht).
    apply in_map_iff in Hm. destruct Hm as ([k m'] & <- & Hm).
    exact (proj1 (proj2 (catalog_threat_facts k m' t Hm Ht))).
Qed.

(** X23: [custom_findings] counts the custom threats of the list.  In the
    results of a run, [custom_findings] is the number of listed threats of
    category "Custom", the catalog never has such a threat, and
    [total_threats] is the number of catalog threats listed plus
    [custom_findings]. *)
Theorem X23_custom_findings_counted (d : fs) :
  let R := modelled d in
  let n := occurrences category "Custom" (r_threats R) in
  custom_findings R = Some n
  /\ exists s, summary R = Some s
       /\ total_threats s
          = List.length (tm_catalog (components_found R)) + n.
Proof.
  intros R n. unfold n, R. rewrite tm_modelled_eq. cbv zeta.
  cbn [custom_findings r_threats summary components_found].
  assert (E : occurrences category "Custom" (tm_catalog (tm_components d) ++ tm_custom d)
              = List.length (tm_custom d)).
  { rewrite occurrences_app.
    rewrite (occurrences_none category "Custom" (tm_catalog (tm_components d)))
      by (intros t Ht; exact (tm_catalog_not_custom _ t Ht)).
    rewrite (occurrences_all category "Custom" (tm_custom d)); [reflexivity|].
    intros t Ht. apply tm_custom_In in Ht.
    destruct Ht as (f & content & rp & start & _ & _ & _ & _ & ->). reflexivity. }
  rewrite E. split; [reflexivity|].
  eexists. split; [reflexivity|]. cbn [total_threats]. apply length_app.
Qed.

End CustomCount.

(* ===================================================================== *)
(** * The properties on concrete trees *)
(* ===================================================================== *)

Section Instances.
Import Py.

Lemma tree_app_distinct : List.NoDup (List.map frel (tree tree_app)).
Proof. apply NoDup_ListNoDup, (bool_decide_unpack _). vm_compute. exact I. Qed.

Lemma X4_witness :
  SecurityAuditor.total_findings (@SecurityAuditor.report Re.py_re tree_app None)
  = List.length (@SecurityAuditor.raw_findings Re.py_re tree_app None).
Proof.
  exact (proj2 (proj2 (proj1 (@X4_deduplication_removes_nothing Re.py_re tree_app
                                tree_app_distinct) None))).
Defined.

Lemma X5_witness :
  SecurityAuditor.r_findings (@SecurityAuditor.report Re.py_re tree_app (Some "crypto"))
  = List.filter (sa_in_category "crypto")
      (SecurityAuditor.r_findings (@SecurityAuditor.report Re.py_re tree_app None)).
Proof.
  apply (@X5_filter_restricts_report Re.py_re tree_app "crypto"). discriminate.
Defined.

Lemma X6_witness :
  exists x,
    with_key SecurityAuditor.key ("insecure-rng", "a.dart", 1)
      (SecurityAuditor.r_findings (@SecurityAuditor.report Re.py_re tree_app None))
    = [x]
    /\ SecurityAuditor.severity x = "CRIT".
Proof.
  destruct (@X6_matching_line_is_reported Re.py_re tree_app None
              (File "a.dart" (Some "final r = Random();")) "final r = Random();"
              (List.hd (SecurityAuditor.mkCheck "" "" "" "" "" "")
                 SecurityAuditor.CRYPTO_CHECKS)
              0 "final r = Random();") as (x & E & Hx).
  - vm_compute. left. reflexivity.
  - vm_compute. reflexivity.
  - reflexivity.
  - vm_compute. left. reflexivity.
  - reflexivity.
  - vm_compute. reflexivity.
  - vm_compute. reflexivity.
  - exists x. split; [exact E|exact (proj1 Hx)].
Defined.

Lemma X7_witness :
  exists x,
    with_key BLE.key
      ("advertising",
       "Device name included in BLE advertising — identity leak to nearby devices",
       "ble/adv.dart", 1)
      (BLE.r_findings (@BLE.report Re.py_re tree_app)) = [x]
    /\ BLE.severity x = "HIGH".
Proof.
  destruct (@X7_ble_matching_line_is_reported Re.py_re tree_app
              (File "ble/adv.dart" (Some "localName: 'Fluxon',")) "localName: 'Fluxon',"
              BLE.advertising_patterns "advertising"
              (List.hd (BLE.mkRule "" "" "" "" "") BLE.advertising_patterns)
              0 "localName: 'Fluxon',") as (x & E & Hx).
  - left. reflexivity.
  - left. reflexivity.
  - vm_compute. right. left. reflexivity.
  - vm_compute. reflexivity.
  - reflexivity.
  - reflexivity.
  - vm_compute. reflexivity.
  - exists x. split; [exact E|exact Hx].
Defined.

Lemma X8_witness :
  List.Forall (fun x => SecurityAuditor.file_path x <> frel manifest_debug)
    (SecurityAuditor.r_findings (@SecurityAuditor.report Re.py_re tree_app None)).
Proof.
  apply List.Forall_forall. intros x Hx.
  apply (@X8_debug_manifest_ignored_beside_main Re.py_re tree_app None
           manifest_main manifest_debug x).
  - vm_compute. left. reflexivity.
  - vm_compute. reflexivity.
  - vm_compute. right. left. reflexivity.
  - vm_compute. reflexivity.
  - exact Hx.
Defined.

Lemma X9_witness :
  exists x,
    with_key SecurityAuditor.key ("backup-enabled", frel manifest_debug, 1)
      (SecurityAuditor.r_findings
         (@SecurityAuditor.report Re.py_re tree_debug_only None)) = [x]
    /\ SecurityAuditor.severity x = "HIGH".
Proof.
  destruct (@X9_manifest_line_is_reported Re.py_re tree_debug_only None
              manifest_debug
              ("<application android:allowBackup=" ++ dq ++ "true" ++ dq ++ ">")%string
              (List.nth 1 SecurityAuditor.PERMISSION_CHECKS_ANDROID
                 (SecurityAuditor.mkCheck "" "" "" "" "" ""))
              0
              ("<application android:allowBackup=" ++ dq ++ "true" ++ dq ++ ">")%string)
    as (x & E & Hx).
  - intros Ht. vm_compute in Ht. discriminate Ht.
  - vm_compute. left. reflexivity.
  - right. intros g Hg. vm_compute in Hg. destruct Hg as [<-|[]].
    vm_compute. reflexivity.
  - reflexivity.
  - vm_compute. right. left. reflexivity.
  - vm_compute. reflexivity.
  - vm_compute. reflexivity.
  - exists x. split; [exact E|exact (proj1 Hx)].
Defined.

Lemma X10_witness :
  List.Forall (fun x => BLE.file_path x <> frel manifest_debug)
    (BLE.r_findings (@BLE.report Re.py_re tree_app)).
Proof.
  apply List.Forall_forall. intros x Hx.
  apply (@X10_ble_debug_manifest_never_read Re.py_re tree_app manifest_debug x).
  - vm_compute. right. left. reflexivity.
  - vm_compute. reflexivity.
  - exact Hx.
Defined.

Lemma X12_witness :
  List.Forall
    (fun t => In t (ThreatModeler.r_threats
                      (@ThreatModeler.modelled Re.py_re tree_crypto)))
    (match ThreatModeler.lookup_model ThreatModeler.BLE_MESH_THREATS "crypto" with
     | Some m => ThreatModeler.threats m
     | None => []
     end).
Proof.
  apply List.Forall_forall. intros t Ht.
  destruct (ThreatModeler.lookup_model ThreatModeler.BLE_MESH_THREATS "crypto")
    as [m|] eqn:El; [|destruct Ht].
  apply lookup_model_In in El.
  assert (Ec : ThreatModeler.components_found
                 (@ThreatModeler.modelled Re.py_re tree_crypto) = ["crypto"])
    by (vm_compute; reflexivity).
  apply (@X12_catalog_threats_of_detected_components Re.py_re tree_crypto
           "crypto" m t).
  - rewrite Ec. discriminate.
  - exact El.
  - exact Ht.
  - rewrite Ec. left. reflexivity.
Defined.

Lemma X13_witness :
  List.Forall
    (fun t => ThreatModeler.category t = "Custom" ->
              ThreatModeler.file_path t = Some "a.dart:1")
    (ThreatModeler.r_threats (@ThreatModeler.modelled Re.py_re tree_two_randoms)).
Proof.
  apply List.Forall_forall. intros t Ht Hc.
  destruct (@X13_custom_threat_location Re.py_re tree_two_randoms t Ht Hc)
    as (f & content & rp & start & p & q & Hf & Hcn & _ & _ & _ & _ & Hp & Hb & _).
  vm_compute in Hf. destruct Hf as [<-|[]]. injection Hcn as <-.
  change (List.length (split_nl "Random() Random()")) with 1 in Hb.
  assert (E : count_nl (slice_to start "Random() Random()") = 0) by lia.
  rewrite Hp, E. reflexivity.
Defined.

Lemma X15_witness :
  In SecurityAuditor.missing_secure_storage
    (SecurityAuditor.r_findings
       (@SecurityAuditor.report Re.py_re tree_parent_pubspec None))
  /\ ~ In SecurityAuditor.missing_sodium
         (SecurityAuditor.r_findings
            (@SecurityAuditor.report Re.py_re tree_parent_pubspec None)).
Proof.
  assert (H1 : SecurityAuditor.truthy None = true ->
               SecurityAuditor.eq_filter "crypto" None = true)
    by (intros Ht; vm_compute in Ht; discriminate Ht).
  destruct (@X15_pubspec_checks Re.py_re tree_parent_pubspec None
              "dependencies: sodium_libs: ^2.0.0" H1 eq_refl) as (_ & S1 & S2).
  split.
  - refine (proj2 S2 _). vm_compute. reflexivity.
  - intros Hin. pose proof (proj1 S1 Hin) as Hc. vm_compute in Hc. discriminate Hc.
Defined.

Lemma X16_witness :
  List.Forall (fun x => SecurityAuditor.file_path x <> "pubspec.yaml")
    (SecurityAuditor.r_findings
       (@SecurityAuditor.report Re.py_re tree_pubspec_unreadable None)).
Proof.
  apply List.Forall_forall. intros x Hx.
  exact (proj2 (@X16_parent_pubspec_only_when_missing Re.py_re
                  tree_pubspec_unreadable None None eq_refl) eq_refl x Hx).
Defined.

(** The presence of a manifest matters even when it cannot be read: beside
    an unreadable main manifest, the debug manifest is not looked at. *)
Example unreadable_main_manifest_hides_debug :
  SecurityAuditor.r_findings
    (@SecurityAuditor.report Re.py_re
       (FS "lib" true
          [File "android/app/src/main/AndroidManifest.xml" None; manifest_debug]
          None) None) = []
  /\ SecurityAuditor.r_findings
       (@SecurityAuditor.report Re.py_re tree_debug_only None) <> [].
Proof.
  split.
  - vm_compute. reflexivity.
  - remember (SecurityAuditor.r_findings
                (@SecurityAuditor.report Re.py_re tree_debug_only None)) as l eqn:El.
    vm_compute in El. subst l. discriminate.
Qed.

Lemma X18_witness :
  match @BLEConfig.extract_ble_config ReGroups.py_groups tree_uuids
          BLEConfig.init_config with
  | inr cfg =>
      In (BLEConfig.mkUuid "6E400002-B5A3-F393-E0A9-E50E24DCCA9E" "ble/uuids.dart" 2)
        (BLEConfig.characteristic_uuids cfg)
  | inl _ => False
  end.
Proof.
  destruct (@BLEConfig.extract_ble_config ReGroups.py_groups tree_uuids
              BLEConfig.init_config) as [err|cfg] eqn:E.
  - vm_compute in E. discriminate E.
  - refine (proj2 (@X18_uuid_entries ReGroups.py_groups tree_uuids cfg true _ E) _).
    exists (File "ble/uuids.dart" (Some uuid_text)), uuid_text,
      (71, "6e400002-b5a3-f393-e0a9-e50e24dcca9e"),
      "final rx = '6e400002-b5a3-f393-e0a9-e50e24dcca9e'; // Characteristic".
    split; [vm_compute; left; reflexivity|].
    split; [vm_compute; reflexivity|].
    split; [reflexivity|].
    split; [vm_compute; right; left; reflexivity|].
    split; [vm_compute; reflexivity|].
    split; vm_compute; reflexivity.
Defined.

(** What a filtered audit of a file with one insecure call prints. *)
Example stdout_of_a_crypto_audit :
  AuditorConsole.stdout
    (@SecurityAuditor.report Re.py_re tree_two_randoms (Some "crypto"))
  = [ (nl ++ AuditorConsole.times "="%char 60)%string;
      "SECURITY AUDIT REPORT";
      AuditorConsole.times "="%char 60;
      "Target: lib"; "Total findings: 1"; "";
      "  !!! [CRIT] 1 findings";
      ""; AuditorConsole.times "-"%char 60;
      (nl ++ "--- [CRIT] ---")%string;
      (nl ++ "  insecure-rng: dart:math Random() is not cryptographically secure")%string;
      "  File: a.dart:1"; "  Code: Random() Random()";
      "  Fix:  Use sodium.randombytes.buf() or dart:math SecureRandom";
      (nl ++ AuditorConsole.times "="%char 60)%string ].
Proof. vm_compute. reflexivity. Qed.

Lemma tree_peripheral_distinct : List.NoDup (List.map frel (tree tree_peripheral)).
Proof. apply NoDup_ListNoDup, (bool_decide_unpack _). vm_compute. exact I. Qed.

Lemma X21_witness :
  In (ble_fine_location (frel manifest_scan))
    (BLE.r_findings (@BLE.report Re.py_re tree_peripheral))
  /\ In (ble_missing_advertise (frel manifest_scan))
       (BLE.r_findings (@BLE.report Re.py_re tree_peripheral)).
Proof.
  assert (Hf : In manifest_scan (rglob tree_peripheral "AndroidManifest.xml"))
    by (vm_compute; left; reflexivity).
  assert (Hm : contains "debug" (fstr tree_peripheral manifest_scan)
               || contains "profile" (fstr tree_peripheral manifest_scan) = false)
    by (vm_compute; reflexivity).
  destruct (@X21_ble_manifest_checks Re.py_re tree_peripheral manifest_scan
              "<uses-permission ACCESS_FINE_LOCATION/> <uses-permission BLUETOOTH_SCAN/>"
              tree_peripheral_distinct Hf Hm eq_refl) as [W1 W2].
  split.
  - refine (proj2 W1 _). split; vm_compute; reflexivity.
  - refine (proj2 W2 _). split; vm_compute; reflexivity.
Defined.

Lemma X22_witness :
  In (ble_missing_usage_description (frel plist_bare))
    (BLE.r_findings (@BLE.report Re.py_re tree_peripheral)).
Proof.
  assert (Hf : In plist_bare (rglob tree_peripheral "Info.plist"))
    by (vm_compute; left; reflexivity).
  refine (proj2 (proj1 (@X22_plist_checks Re.py_re tree_peripheral plist_bare
                          "<dict></dict>" tree_peripheral_distinct Hf eq_refl)) _).
  vm_compute. reflexivity.
Defined.

End Instances.
